(** * EmotiBit data visualizer: schedule parsing and chart annotation

    A shallow embedding of [run_visualizer.py] and the properties its
    specification states about it.

    How the program is modelled:
    - a Python [str] is a list of ASCII characters; [lower], [strip],
      [replace], [split], [in] and [join] are written out on it.  Text
      outside ASCII is not modelled ([str.lower], [str.isspace] and the
      digits of a regular expression follow Unicode there);
    - an exception is a value of [result]; [try] / [except] is
      [try_except], and a loop with [continue] on a caught exception is a
      recursive function that goes on with the rest;
    - [datetime.strptime] is the backtracking match of the regular
      expression that CPython builds from the format, followed by the
      range checks of the [datetime] constructor;
    - [pandas] hands its frames over as data: a schedule frame is a list
      of rows of four optional cells, a channel frame its column names and
      its rows of (instant, value); a [pd.Timestamp] with a time zone is
      the number of nanoseconds since the epoch, and the time-zone data
      base is a variable of the development;
    - the file system is what the script observes of it: a folder is a
      path, whether the path is a directory, whether [plots] under it is
      a file, and the entries [glob] lists under the path, in the order
      [glob] returns them, each with its name, whether its path exists,
      and what reading it gives.  The process is taken to have the right
      to read and to write under the data set folder;
    - a saved figure is a [Chart]: the series drawn, the horizontal range,
      the shaded band and the text boxes.  The floating-point layout of
      the figure (its height, the height of a box) is kept as the integers
      it is computed from (the number of text lines, the stagger level).
      What [matplotlib] raises while it draws and saves is modelled where
      the script decides it (an invalid instant in the series, a text
      that is read as mathematics); the parser of mathematics and the
      remaining failures of the library are a variable of the
      development. *)

From Stdlib Require Import Ascii String List Bool Arith Lia ZArith.
Import ListNotations.

Set Implicit Arguments.
Set Warnings "-abstract-large-number".

(* ================================================================== *)
(** * Python values: strings and exceptions *)
(* ================================================================== *)

Module Py.

Definition str := list ascii.

(** A string literal of the source. *)
Definition lit (s : string) : str := list_ascii_of_string s.
Arguments lit : simpl never.

(** Exceptions the script can meet.  [ConversionError] is the one of
    [matplotlib.units], a [TypeError]; [OtherError] stands for any other
    exception. *)
Inductive exn :=
| ValueError | TypeError | IndexError | KeyError | FileExistsError
| ConversionError | OtherError.

Inductive result (A : Type) : Type :=
| Ok (a : A)
| Raise (e : exn).
Arguments Ok {A} a.
Arguments Raise {A} e.

Definition bind {A B} (r : result A) (k : A -> result B) : result B :=
  match r with
  | Ok a => k a
  | Raise e => Raise e
  end.

Notation "x <- r ;; k" := (bind r (fun x => k))
  (at level 61, r at next level, right associativity).
Notation "' p <- r ;; k" := (bind r (fun p => k))
  (at level 61, p pattern, r at next level, right associativity).

(** [str.isspace] on one ASCII character: TAB..CR, FS..US and the blank. *)
Definition is_space (c : ascii) : bool :=
  let n := nat_of_ascii c in
  ((9 <=? n) && (n <=? 13)) || ((28 <=? n) && (n <=? 32)).

Definition is_digit (c : ascii) : bool :=
  let n := nat_of_ascii c in (48 <=? n) && (n <=? 57).

Definition in_range (lo hi : ascii) (c : ascii) : bool :=
  (nat_of_ascii lo <=? nat_of_ascii c) && (nat_of_ascii c <=? nat_of_ascii hi).

(** [str.lower] on ASCII text. *)
Definition lower_char (c : ascii) : ascii :=
  let n := nat_of_ascii c in
  if (65 <=? n) && (n <=? 90) then ascii_of_nat (n + 32) else c.

Definition lower (s : str) : str := map lower_char s.

(** [str.lstrip], [str.rstrip], [str.strip] with no argument. *)
Fixpoint lstrip (s : str) : str :=
  match s with
  | c :: t => if is_space c then lstrip t else s
  | [] => []
  end.

Definition rstrip (s : str) : str := rev (lstrip (rev s)).

Definition strip (s : str) : str := rstrip (lstrip s).

Fixpoint startswith (s prefix : str) {struct prefix} : bool :=
  match prefix, s with
  | [], _ => true
  | p :: prefix', c :: s' => Ascii.eqb p c && startswith s' prefix'
  | _ :: _, [] => false
  end.

Definition endswith (s suffix : str) : bool :=
  startswith (rev s) (rev suffix).

(** [needle in s]. *)
Fixpoint contains (needle s : str) : bool :=
  startswith s needle ||
  match s with
  | [] => false
  | _ :: t => contains needle t
  end.

(** [s.replace(old, new)] for a non-empty [old]: leftmost, non-overlapping
    occurrences.  [skip] counts the characters of a matched occurrence that
    are still to be dropped. *)
Fixpoint replace_from (old new : str) (skip : nat) (s : str) : str :=
  match s with
  | [] => []
  | c :: t =>
      match skip with
      | S k => replace_from old new k t
      | O =>
          if startswith s old
          then new ++ replace_from old new (length old - 1) t
          else c :: replace_from old new 0 t
      end
  end.

Definition replace (s old new : str) : str := replace_from old new 0 s.

(** [s.split(sep)[0]] for a one-character separator. *)
Fixpoint split_first (sep : ascii) (s : str) : str :=
  match s with
  | [] => []
  | c :: t => if Ascii.eqb c sep then [] else c :: split_first sep t
  end.

(** [s.count(c)] for a one-character pattern. *)
Definition count (c : ascii) (s : str) : nat :=
  length (filter (Ascii.eqb c) s).

(** [s.count(sub)] for a non-empty [sub]: occurrences that do not overlap,
    from the left.  [skip] counts the characters of a counted occurrence
    that are still to be passed. *)
Fixpoint count_from (sub : str) (skip : nat) (s : str) : nat :=
  match s with
  | [] => 0
  | _ :: t =>
      match skip with
      | S k => count_from sub k t
      | O =>
          if startswith s sub
          then 1 + count_from sub (length sub - 1) t
          else count_from sub 0 t
      end
  end.

Definition count_str (sub s : str) : nat := count_from sub 0 s.

(** [s.split(sep)] for a one-character separator. *)
Fixpoint split (sep : ascii) (s : str) : list str :=
  match s with
  | [] => [[]]
  | c :: t =>
      if Ascii.eqb c sep then [] :: split sep t
      else match split sep t with
           | part :: parts => (c :: part) :: parts
           | [] => [[c]]
           end
  end.

(** [sep.join(parts)]. *)
Fixpoint join (sep : str) (parts : list str) : str :=
  match parts with
  | [] => []
  | [p] => p
  | p :: ps => p ++ sep ++ join sep ps
  end.

(** Truthiness of a [str]. *)
Definition truthy (s : str) : bool :=
  match s with [] => false | _ :: _ => true end.

Definition digit_val (c : ascii) : nat := nat_of_ascii c - 48.

(** [int(s)] on text made of decimal digits with optional blanks around
    (the only texts the date and time patterns capture). *)
Definition int (s : str) : nat :=
  fold_left (fun acc c => 10 * acc + digit_val c) (strip s) 0.

Definition digit_char (n : nat) : ascii := ascii_of_nat (48 + n).

(** Decimal digits of [n], most significant first; [fuel] bounds the
    number of digits. *)
Fixpoint digits_fuel (fuel n : nat) (acc : str) : str :=
  match fuel with
  | O => acc
  | S f =>
      let acc' := digit_char (n mod 10) :: acc in
      if n / 10 =? 0 then acc' else digits_fuel f (n / 10) acc'
  end.

Definition digits (n : nat) : str := digits_fuel (S n) n [].

(** The format specification [{n:02d}]. *)
Definition fmt_02d (n : nat) : str :=
  let ds := digits n in
  if length ds <? 2 then "0"%char :: ds else ds.

End Py.

Import Py.

(* ================================================================== *)
(** * [datetime.datetime.strptime] for the four formats of the script *)
(* ================================================================== *)

Module Strptime.

(** One piece of the regular expression that [_strptime] builds from a
    format: a capturing group of ordered alternatives (each a sequence of
    character classes), a literal character, or [\s+]. *)
Inductive item :=
| Cap (alts : list (list (ascii -> bool)))
| Lit (c : ascii)
| WsPlus.

Definition is_char (c : ascii) : ascii -> bool := Ascii.eqb c.

(** [%H]: [2[0-3]|[0-1]\d|\d] *)
Definition re_H : item :=
  Cap [ [is_char "2"; in_range "0" "3"]; [in_range "0" "1"; is_digit]; [is_digit] ].
(** [%M]: [[0-5]\d|\d] *)
Definition re_M : item :=
  Cap [ [in_range "0" "5"; is_digit]; [is_digit] ].
(** [%S]: [6[0-1]|[0-5]\d|\d] *)
Definition re_S : item :=
  Cap [ [is_char "6"; in_range "0" "1"]; [in_range "0" "5"; is_digit]; [is_digit] ].
(** [%Y]: [\d\d\d\d] *)
Definition re_Y : item :=
  Cap [ [is_digit; is_digit; is_digit; is_digit] ].
(** [%m]: [1[0-2]|0[1-9]|[1-9]] *)
Definition re_m : item :=
  Cap [ [is_char "1"; in_range "0" "2"]; [is_char "0"; in_range "1" "9"]; [in_range "1" "9"] ].
(** [%d]: [3[0-1]|[1-2]\d|0[1-9]|[1-9]| [1-9]] *)
Definition re_d : item :=
  Cap [ [is_char "3"; in_range "0" "1"]; [in_range "1" "2"; is_digit];
        [is_char "0"; in_range "1" "9"]; [in_range "1" "9"];
        [is_char " "; in_range "1" "9"] ].

Fixpoint match_alt (alt : list (ascii -> bool)) (s : str) : option (str * str) :=
  match alt with
  | [] => Some ([], s)
  | p :: alt' =>
      match s with
      | c :: s' =>
          if p c
          then match match_alt alt' s' with
               | Some (m, r) => Some (c :: m, r)
               | None => None
               end
          else None
      | [] => None
      end
  end.

(** All the ways a group matches at the start of [s], in the order the
    backtracking matcher tries them; each with the text left over. *)
Definition match_group (alts : list (list (ascii -> bool))) (s : str)
  : list (str * str) :=
  flat_map (fun alt => match match_alt alt s with
                       | Some x => [x]
                       | None => []
                       end) alts.

(** [\s+] is greedy: the longest run first, then shorter ones. *)
Fixpoint match_ws_plus (s : str) : list (str * str) :=
  match s with
  | c :: s' =>
      if is_space c
      then map (fun mr => (c :: fst mr, snd mr)) (match_ws_plus s') ++ [([c], s')]
      else []
  | [] => []
  end.

Definition match_item (it : item) (s : str) : list (list str * str) :=
  match it with
  | Cap alts => map (fun mr => ([fst mr], snd mr)) (match_group alts s)
  | Lit c =>
      match s with
      | c' :: r => if Ascii.eqb c c' then [([], r)] else []
      | [] => []
      end
  | WsPlus => map (fun mr => ([], snd mr)) (match_ws_plus s)
  end.

(** Every match of the whole pattern at the start of [s], in backtracking
    order: the captured texts and the unconsumed rest. *)
Fixpoint match_regex (re : list item) (s : str) : list (list str * str) :=
  match re with
  | [] => [([], s)]
  | it :: re' =>
      flat_map (fun cr =>
                  map (fun cr' => (fst cr ++ fst cr', snd cr'))
                      (match_regex re' (snd cr)))
               (match_item it s)
  end.

(** [format_regex.match(data_string)] followed by the check that no
    unconverted data remains: the first match is the one that counts. *)
Definition regex_fullmatch (re : list item) (s : str) : result (list str) :=
  match match_regex re s with
  | [] => Raise ValueError
  | (caps, rest) :: _ =>
      match rest with
      | [] => Ok caps
      | _ :: _ => Raise ValueError
      end
  end.

Record time := { t_hour : nat; t_minute : nat; t_second : nat }.

Record datetime := {
  year : nat; month : nat; day : nat;
  hour : nat; minute : nat; second : nat
}.

Definition is_leap (y : nat) : bool :=
  (y mod 4 =? 0) && (negb (y mod 100 =? 0) || (y mod 400 =? 0)).

Definition days_in_month (y m : nat) : nat :=
  match m with
  | 2 => if is_leap y then 29 else 28
  | 4 | 6 | 9 | 11 => 30
  | _ => 31
  end.

(** The range checks of the [datetime] constructor. *)
Definition datetime_new (y mo d h mi s : nat) : result datetime :=
  if (1 <=? y) && (y <=? 9999) && (1 <=? mo) && (mo <=? 12)
     && (1 <=? d) && (d <=? days_in_month y mo)
     && (h <=? 23) && (mi <=? 59) && (s <=? 59)
  then Ok {| year := y; month := mo; day := d;
             hour := h; minute := mi; second := s |}
  else Raise ValueError.

Definition fmt_HMS : list item := [re_H; Lit ":"; re_M; Lit ":"; re_S].
Definition fmt_HM : list item := [re_H; Lit ":"; re_M].
Definition fmt_Ymd : list item := [re_Y; Lit "-"; re_m; Lit "-"; re_d].
Definition fmt_Ymd_HMS : list item :=
  [re_Y; re_m; re_d; WsPlus; re_H; Lit ":"; re_M; Lit ":"; re_S].

(** [strptime(s, '%H:%M:%S')]: the date defaults to 1900-01-01. *)
Definition strptime_HMS (s : str) : result datetime :=
  caps <- regex_fullmatch fmt_HMS s ;;
  match caps with
  | [h; mi; se] => datetime_new 1900 1 1 (int h) (int mi) (int se)
  | _ => Raise ValueError
  end.

(** [strptime(s, '%H:%M')] *)
Definition strptime_HM (s : str) : result datetime :=
  caps <- regex_fullmatch fmt_HM s ;;
  match caps with
  | [h; mi] => datetime_new 1900 1 1 (int h) (int mi) 0
  | _ => Raise ValueError
  end.

(** [strptime(s, '%Y-%m-%d')] *)
Definition strptime_Ymd (s : str) : result datetime :=
  caps <- regex_fullmatch fmt_Ymd s ;;
  match caps with
  | [y; mo; d] => datetime_new (int y) (int mo) (int d) 0 0 0
  | _ => Raise ValueError
  end.

(** [strptime(s, '%Y%m%d %H:%M:%S')] *)
Definition strptime_Ymd_HMS (s : str) : result datetime :=
  caps <- regex_fullmatch fmt_Ymd_HMS s ;;
  match caps with
  | [y; mo; d; h; mi; se] =>
      datetime_new (int y) (int mo) (int d) (int h) (int mi) (int se)
  | _ => Raise ValueError
  end.

(** [datetime.time()] *)
Definition time_of (dt : datetime) : time :=
  {| t_hour := hour dt; t_minute := minute dt; t_second := second dt |}.

End Strptime.

Import Strptime.


(* ================================================================== *)
(** * The script *)
(* ================================================================== *)

(** A tz-aware [pd.Timestamp]: nanoseconds since the epoch.  Two of them
    compare by this number. *)
Definition Timestamp := Z.

(** [try: body except (caught): handler] *)
Definition try_except {A} (body : result A) (caught : exn -> bool)
    (handler : result A) : result A :=
  match body with
  | Ok a => Ok a
  | Raise e => if caught e then handler else Raise e
  end.

Definition is_ValueError (e : exn) : bool :=
  match e with ValueError => true | _ => false end.

Definition is_ValueError_or_TypeError (e : exn) : bool :=
  match e with ValueError | TypeError | ConversionError => true | _ => false end.

(** ** Data read from the session folder *)

(** One row of the schedule frame.  A cell is [None] when pandas holds a
    missing value (a blank cell), and otherwise carries [str(cell)]. *)
Record Row := {
  time_str : option str;
  song_artist : option str;
  score : option str;
  observation : option str
}.

(** [str(cell)]: a missing value prints as [nan]. *)
Definition str_of_cell (c : option str) : str :=
  match c with
  | Some s => s
  | None => lit "nan"
  end.

(** [str(cell).strip() if pd.notna(cell) else ""] *)
Definition text_of_cell (c : option str) : str :=
  match c with
  | Some s => strip s
  | None => []
  end.

Record Event := {
  e_time : Timestamp;
  e_song : str;
  e_score : str;
  e_obs : str
}.

Record Annotation := { a_time : Timestamp; a_text : str }.

(** The dictionary [load_music_schedule] returns. *)
Record Schedule := {
  annotations : list Annotation;
  music_start : option Timestamp;
  music_end : option Timestamp
}.

(** What [pd.read_csv] makes of a file. *)
Inductive csv_read (A : Type) : Type :=
| ReadError
| Frame (a : A).
Arguments ReadError {A}.
Arguments Frame {A} a.

Section Visualizer.

(** A cell of a channel's value column; it is plotted as it is. *)
Variable Value : Type.

(** [pd.Timestamp(dt_naive, tz='US/Eastern')]: the time-zone database, and
    [None] where pandas raises, with a [ValueError] (a date out of bounds,
    a clock time that the zone skips). *)
Variable tz_localize : datetime -> option Timestamp.

(** A channel frame: its column names, and per row the converted
    [LocalTimestamp] ([None] for [NaT]) with what the row holds under the
    label [value] once the last column has been renamed to it (the cell of
    the last column). *)
Record ChannelFrame := {
  columns : list str;
  rows : list (option Timestamp * Value)
}.

(** An entry of a session folder.  [f_exists] is [os.path.exists] of the
    entry (false for a link whose target is gone); the two reads are what
    [pd.read_csv] returns for the file under the schedule's and under a
    channel's reading ([ReadError] also when the timestamp conversion
    raises). *)
Record File := {
  f_name : str;
  f_exists : bool;
  f_schedule : csv_read (list Row);
  f_channel : csv_read ChannelFrame
}.

(** What the script observes at a path.  [is_dir] is [os.path.isdir] of
    the path; [plots_is_file] tells that [plots] under the path exists and
    is not a directory; [entries] are the entries that [glob] finds under
    the path, in its order: the entries of the directory, when the path
    has no pattern character, and the entries of every directory the path
    matches as a pattern, when it has one ([glob] reads [*], [?] and [[]
    in the folder part of its argument too, so that a folder named
    [S01 [am]] is not listed under its own name). *)
Record Folder := {
  folder_path : str;
  is_dir : bool;
  plots_is_file : bool;
  entries : list File
}.

(** [glob.has_magic] *)
Definition has_magic (s : str) : bool :=
  existsb (fun c => Ascii.eqb c "*" || Ascii.eqb c "?" || Ascii.eqb c "[") s.

(** [glob.glob(os.path.join(folder, '*' + suffix))]: the entries found
    under the path, in the order [glob] returns them, whose name ends with
    [suffix]; the wildcard does not match a leading dot.  A path without
    pattern characters that is not a directory lists nothing. *)
Definition glob_star (folder : Folder) (suffix : str) : list File :=
  if has_magic (folder_path folder) || is_dir folder
  then filter (fun f => negb (startswith (f_name f) (lit "."))
                        && endswith (f_name f) suffix)
              (entries folder)
  else [].

(** [os.makedirs(os.path.join(folder, 'plots'), exist_ok=True)] *)
Definition makedirs_plots (folder : Folder) : result unit :=
  if plots_is_file folder then Raise FileExistsError else Ok tt.

(** Reading a link whose target is gone raises, like any failed read. *)
Definition read_schedule (file : File) : csv_read (list Row) :=
  if f_exists file then f_schedule file else ReadError.

Definition read_channel (file : File) : csv_read ChannelFrame :=
  if f_exists file then f_channel file else ReadError.

(** ** [load_music_schedule] *)

Definition pd_Timestamp (dt_naive : datetime) : result Timestamp :=
  match tz_localize dt_naive with
  | Some t => Ok t
  | None => Raise ValueError
  end.

(** [time_str.lower().replace('am', '').replace('pm', '').strip()] *)
Definition cleaned_time_str (time_str : str) : str :=
  strip (replace (replace (lower time_str) (lit "am") []) (lit "pm") []).

(** The [try] / [except ValueError] that reads the clock time, first with
    seconds and then without. *)
Definition time_obj_of (cleaned : str) : result time :=
  try_except (dt <- strptime_HMS cleaned ;; Ok (time_of dt))
             is_ValueError
             (dt <- strptime_HM cleaned ;; Ok (time_of dt)).

Definition parse_time (time_str date_str : str) (is_pm : bool)
  : result Timestamp :=
  let cleaned := cleaned_time_str time_str in
  time_obj <- time_obj_of cleaned ;;
  let hour := t_hour time_obj in
  let hour := if is_pm && (1 <=? hour) && (hour <=? 11) then hour + 12 else hour in
  let full_datetime_str :=
    date_str ++ lit " " ++ fmt_02d hour ++ lit ":"
             ++ fmt_02d (t_minute time_obj) ++ lit ":"
             ++ fmt_02d (t_second time_obj) in
  dt_naive <- strptime_Ymd_HMS full_datetime_str ;;
  pd_Timestamp dt_naive.

(** [df_schedule.dropna(how='all')] *)
Definition dropna_all (df : list Row) : list Row :=
  filter (fun row => match time_str row, song_artist row, score row, observation row with
                     | None, None, None, None => false
                     | _, _, _, _ => true
                     end) df.

(** The loop over [df_schedule.iterrows()] that fills [all_events]. *)
Fixpoint all_events_of (df : list Row) (experiment_date_str : str)
    (is_afternoon : bool) : result (list Event) :=
  match df with
  | [] => Ok []
  | row :: df' =>
      match parse_time (strip (str_of_cell (time_str row)))
                       experiment_date_str is_afternoon with
      | Ok current_row_time =>
          let event := {| e_time := current_row_time;
                          e_song := text_of_cell (song_artist row);
                          e_score := text_of_cell (score row);
                          e_obs := text_of_cell (observation row) |} in
          rest <- all_events_of df' experiment_date_str is_afternoon ;;
          Ok (event :: rest)
      | Raise e =>
          if is_ValueError_or_TypeError e
          then all_events_of df' experiment_date_str is_afternoon
          else Raise e
      end
  end.

(** The loop that determines the start and the end of the music session;
    it returns [(first_song_start_time, final_end_time)] as they stand
    when the loop is left. *)
Fixpoint scan_session (events : list Event)
    (first_song_start_time : option Timestamp)
  : option Timestamp * option Timestamp :=
  match events with
  | [] => (first_song_start_time, None)
  | event :: events' =>
      let first_song_start_time :=
        match first_song_start_time with
        | None => if truthy (e_song event) then Some (e_time event) else None
        | Some t => Some t
        end in
      if contains (lit "music end") (lower (e_obs event))
      then (first_song_start_time, Some (e_time event))
      else scan_session events' first_song_start_time
  end.

Definition annotation_of (event : Event) : Annotation :=
  let text_parts := [] in
  let text_parts :=
    if truthy (e_song event) then text_parts ++ [e_song event] else text_parts in
  let text_parts :=
    if truthy (e_score event)
    then text_parts ++ [lit "(Score: " ++ e_score event ++ lit ")"]
    else text_parts in
  let text_parts :=
    if truthy (e_obs event) then text_parts ++ [e_obs event] else text_parts in
  let combined_text := join [ascii_of_nat 10] text_parts in
  {| a_time := e_time event; a_text := combined_text |}.

(** [file] is the schedule file at [file_path].  The result is [None] for
    the value [None] of the source. *)
Definition load_music_schedule (file : File) (experiment_date_str : str)
    (data_folder_path : str) : result (option Schedule) :=
  if negb (f_exists file) then Ok None else
  match read_schedule file with
  | ReadError => Ok None
  | Frame df_schedule =>
      let df_schedule := dropna_all df_schedule in
      match df_schedule with
      | [] => Ok None
      | _ :: _ =>
          let is_afternoon := contains (lit "afternoon") (lower data_folder_path) in
          all_events <- all_events_of df_schedule experiment_date_str is_afternoon ;;
          match all_events with
          | [] => Ok None
          | first :: _ =>
              let '(first_song_start_time, final_end_time) :=
                scan_session all_events None in
              let final_end_time :=
                match final_end_time with
                | None => Some (e_time (last all_events first))
                | Some t => Some t
                end in
              Ok (Some {| annotations := map annotation_of all_events;
                          music_start := first_song_start_time;
                          music_end := final_end_time |})
          end
      end
  end.


(** ** [load_emotibit_data] *)

Fixpoint str_eqb (a b : str) : bool :=
  match a, b with
  | [], [] => true
  | x :: a', y :: b' => Ascii.eqb x y && str_eqb a' b'
  | _, _ => false
  end.

(** A [dict] with [str] keys, in insertion order. *)
Definition dict (V : Type) := list (str * V).

(** [d[k] = v] *)
Fixpoint dict_set {V} (d : dict V) (k : str) (v : V) : dict V :=
  match d with
  | [] => [(k, v)]
  | (k', v') :: d' =>
      if str_eqb k' k then (k', v) :: d' else (k', v') :: dict_set d' k v
  end.

(** [d.get(k, default)] *)
Fixpoint dict_get {V} (d : dict V) (k : str) (default : V) : V :=
  match d with
  | [] => default
  | (k', v') :: d' => if str_eqb k' k then v' else dict_get d' k default
  end.

Definition is_ValueError_or_IndexError (e : exn) : bool :=
  match e with ValueError | IndexError => true | _ => false end.

(** The loop over [all_files] that extracts [experiment_date_str]. *)
Fixpoint experiment_date_of (all_files : list File) : result (option str) :=
  match all_files with
  | [] => Ok None
  | file_path :: all_files' =>
      let basename := f_name file_path in
      let date_part := split_first "_" basename in
      match strptime_Ymd date_part with
      | Ok _ => Ok (Some (replace date_part (lit "-") []))
      | Raise e =>
          if is_ValueError_or_IndexError e
          then experiment_date_of all_files'
          else Raise e
      end
  end.

Definition Series := list (option Timestamp * Value).

(** The last column is renamed to [value] and the frame cut down to
    [df[['est_time', 'value']]]: when the last column is the one named
    [est_time], the renaming takes that label away and the selection
    raises [KeyError]. *)
Definition est_time_and_value (df : ChannelFrame) : result Series :=
  let signal_column_name := last (columns df) [] in
  if str_eqb signal_column_name (lit "est_time")
  then Raise KeyError
  else Ok (rows df).

(** The loop over [signals_to_plot] that fills [dataframes]; the
    [except Exception] of its body goes on with the next code. *)
Fixpoint dataframes_of (folder : Folder) (signals_to_plot : list str)
    (dataframes : dict Series) : dict Series :=
  match signals_to_plot with
  | [] => dataframes
  | signal_type :: signals' =>
      let found_files :=
        glob_star folder (lit "_" ++ signal_type ++ lit ".csv") in
      match found_files with
      | [] => dataframes_of folder signals' dataframes
      | file_path :: _ =>
          match read_channel file_path with
          | ReadError => dataframes_of folder signals' dataframes
          | Frame df =>
              if negb (existsb (str_eqb (lit "LocalTimestamp")) (columns df))
                 || (length (columns df) <? 2)
              then dataframes_of folder signals' dataframes
              else
                match est_time_and_value df with
                | Ok frame =>
                    dataframes_of folder signals'
                      (dict_set dataframes signal_type frame)
                | Raise _ => dataframes_of folder signals' dataframes
                end
          end
      end
  end.

Definition load_emotibit_data (folder : Folder) (signals_to_plot : list str)
  : result (dict Series * option str) :=
  let dataframes := [] in
  let all_files := glob_star folder (lit ".csv") in
  match all_files with
  | [] => Ok ([], None)
  | _ :: _ =>
      experiment_date_str <- experiment_date_of all_files ;;
      match experiment_date_str with
      | None | Some [] => Ok ([], None)
      | Some (_ :: _) =>
          Ok (dataframes_of folder signals_to_plot dataframes,
              experiment_date_str)
      end
  end.

(** ** [plot_and_save_signal] *)

(** One [ax.annotate] call: the text, the instant of the anchor [xy], the
    instant of the text box [xytext], and the stagger level that fixes the
    height of the box. *)
Record Placed := {
  p_text : str;
  p_xy : Timestamp;
  p_xytext : Timestamp;
  p_level : nat
}.

(** What is drawn and saved for one channel. *)
Record Chart := {
  c_label : str;
  c_line : Series;
  c_annotation_lines : nat;
  c_xlim : Timestamp * Timestamp;
  c_axvspan : option (Timestamp * Timestamp);
  c_annotate : list Placed;
  c_title : str * str;
  c_filename : str
}.

(** What stands for [matplotlib] beyond the calls the script makes.
    [mathtext_parses] is its parser of mathematics, asked for a line of
    text that is read as mathematics; [figure_fails] is what else the
    library raises, if anything, while the figure is built, drawn and
    saved (a value column it cannot convert, an image beyond the size
    limit of the backend, an output file it cannot write). *)
Record Matplotlib := {
  mathtext_parses : str -> bool;
  figure_fails : Chart -> option exn
}.

Variable mpl : Matplotlib.

(** [cbook.is_math_text]: the text holds an even number, not zero, of
    dollar signs that are not escaped. *)
Definition is_math_text (s : str) : bool :=
  let dollar_count := count "$" s - count_str (lit "\$") s in
  (0 <? dollar_count) && Nat.even dollar_count.

(** Laying out a text raises [ValueError] when one of its lines is read
    as mathematics and the parser rejects it. *)
Definition text_fails (s : str) : bool :=
  existsb (fun line => is_math_text line && negb (mathtext_parses mpl line))
          (split (ascii_of_nat 10) s).

Definition is_empty {A} (l : list A) : bool :=
  match l with [] => true | _ :: _ => false end.

Definition is_null {A} (x : option A) : bool :=
  match x with None => true | Some _ => false end.

(** [df['est_time'].min()] and [.max()] skip [NaT]. *)
Fixpoint est_time_min (df : Series) : option Timestamp :=
  match df with
  | [] => None
  | (None, _) :: df' => est_time_min df'
  | (Some t, _) :: df' =>
      match est_time_min df' with
      | None => Some t
      | Some m => Some (Z.min t m)
      end
  end.

Fixpoint est_time_max (df : Series) : option Timestamp :=
  match df with
  | [] => None
  | (None, _) :: df' => est_time_max df'
  | (Some t, _) :: df' =>
      match est_time_max df' with
      | None => Some t
      | Some m => Some (Z.max t m)
      end
  end.

(** The loop over [annotations] that places the text boxes. *)
Fixpoint annotate_all (annotations : list Annotation)
    (min_time_data max_time_data : Timestamp) (stagger_level : nat)
  : list Placed :=
  match annotations with
  | [] => []
  | annotation :: annotations' =>
      let time_point := a_time annotation in
      let annotation_text := a_text annotation in
      if negb ((min_time_data <=? time_point)%Z && (time_point <=? max_time_data)%Z)
      then annotate_all annotations' min_time_data max_time_data stagger_level
      else {| p_text := annotation_text; p_xy := time_point;
              p_xytext := time_point; p_level := stagger_level |}
           :: annotate_all annotations' min_time_data max_time_data
                           (stagger_level + 1)
  end.

(** The result is [Ok None] when the function returns without drawing,
    and [Ok (Some chart)] when the figure is saved.  [ax.plot] raises
    [ConversionError] on a series of instants with a time zone that holds
    an invalid one; [fig.savefig] lays out the texts of the boxes. *)
Definition plot_and_save_signal (signal_name : str) (df : Series)
    (schedule_data : option Schedule) (channel_map : dict str)
  : result (option Chart) :=
  if is_empty df || forallb (fun row => is_null (fst row)) df then Ok None else
  let annotations :=
    match schedule_data with Some sd => annotations sd | None => [] end in
  let music_start :=
    match schedule_data with Some sd => music_start sd | None => None end in
  let music_end :=
    match schedule_data with Some sd => music_end sd | None => None end in
  let total_annotation_lines :=
    list_sum (map (fun item => count (ascii_of_nat 10) (a_text item) + 1)
                  annotations) in
  if existsb (fun row => is_null (fst row)) df then Raise ConversionError else
  match est_time_min df, est_time_max df with
  | Some min_time_data, Some max_time_data =>
      let chart :=
        {| c_label := signal_name;
           c_line := df;
           c_annotation_lines := total_annotation_lines;
           c_xlim := (min_time_data, max_time_data);
           c_axvspan :=
             match music_start, music_end with
             | Some s, Some e => Some (s, e)
             | _, _ => None
             end;
           c_annotate :=
             annotate_all annotations min_time_data max_time_data 0;
           c_title := (signal_name, dict_get channel_map signal_name signal_name);
           c_filename := signal_name ++ lit "_plot.png" |} in
      if existsb (fun box => text_fails (p_text box)) (c_annotate chart)
      then Raise ValueError
      else match figure_fails mpl chart with
           | Some e => Raise e
           | None => Ok (Some chart)
           end
  | _, _ => Ok None
  end.

(** ** [process_folder] and the batch *)

Definition CHANNELS : dict str :=
  map (fun kv => (lit (fst kv), lit (snd kv)))
    [ ("AX", "Accelerometer X"); ("AY", "Accelerometer Y"); ("AZ", "Accelerometer Z");
      ("GX", "Gyroscope X"); ("GY", "Gyroscope Y"); ("GZ", "Gyroscope Z");
      ("EA", "Electrodermal Activity"); ("EL", "Electrodermal Level");
      ("SF", "SCR Frequency"); ("SA", "SCR Amplitude"); ("SR", "SCR Rise Time");
      ("T1", "Temperature"); ("TH", "Thermopile Temperature");
      ("PI", "PPG Infrared"); ("PR", "PPG Red"); ("PG", "PPG Green");
      ("BI", "Beat Interval"); ("HR", "Heart Rate") ]%string.

Definition SIGNALS_TO_PLOT : list str := map fst CHANNELS.

(** The loop over [emotibit_data.items()]: the charts saved, in order. *)
Fixpoint plot_all (emotibit_data : dict Series)
    (schedule_data : option Schedule) : result (list Chart) :=
  match emotibit_data with
  | [] => Ok []
  | (signal, df) :: emotibit_data' =>
      saved <- plot_and_save_signal signal df schedule_data CHANNELS ;;
      charts <- plot_all emotibit_data' schedule_data ;;
      Ok (match saved with
          | Some chart => chart :: charts
          | None => charts
          end)
  end.

(** The charts [process_folder] saves under [plots]. *)
Definition process_folder (folder : Folder) : result (list Chart) :=
  match glob_star folder (lit " Combined Observations.csv") with
  | [] => Raise IndexError
  | music_schedule_path :: _ =>
      if negb (is_dir folder) then Ok [] else
      if negb (f_exists music_schedule_path) then Ok [] else
      _ <- makedirs_plots folder ;;
      loaded <- load_emotibit_data folder SIGNALS_TO_PLOT ;;
      let '(emotibit_data, date_str) := loaded in
      match date_str with
      | None | Some [] => Ok []
      | Some ((_ :: _) as date_str) =>
          schedule_data <- load_music_schedule music_schedule_path date_str
                                               (folder_path folder) ;;
          match emotibit_data with
          | [] => Ok []
          | _ :: _ => plot_all emotibit_data schedule_data
          end
      end
  end.

(** The loop of the main program over [subfolders]. *)
Fixpoint process_all (subfolders : list Folder) : result (list (list Chart)) :=
  match subfolders with
  | [] => Ok []
  | folder :: subfolders' =>
      charts <- process_folder folder ;;
      rest <- process_all subfolders' ;;
      Ok (charts :: rest)
  end.

(** The main program, given the entries of the root data set folder. *)
Definition main (root_entries : list Folder) : result (list (list Chart)) :=
  let subfolders := filter is_dir root_entries in
  process_all subfolders.

End Visualizer.

(* ================================================================== *)
(** * A sample time zone and sample sessions *)
(* ================================================================== *)

Module Sample.

(** Days from 1970-01-01 to a date of the proleptic Gregorian calendar. *)
Definition days_from_civil (y m d : Z) : Z :=
  let y' := if (m <=? 2)%Z then (y - 1)%Z else y in
  let era := (y' / 400)%Z in
  let yoe := (y' - era * 400)%Z in
  let mp := ((m + 9) mod 12)%Z in
  let doy := ((153 * mp + 2) / 5 + d - 1)%Z in
  let doe := (yoe * 365 + yoe / 4 - yoe / 100 + doy)%Z in
  (era * 146097 + doe - 719468)%Z.

(** A time zone at a fixed five hours behind UTC (Eastern Standard Time
    with no daylight saving), in nanoseconds. *)
Definition est (dt : datetime) : option Timestamp :=
  let days := days_from_civil (Z.of_nat (year dt)) (Z.of_nat (month dt))
                              (Z.of_nat (day dt)) in
  let secs := (days * 86400 + Z.of_nat (hour dt) * 3600
               + Z.of_nat (minute dt) * 60 + Z.of_nat (second dt)
               + 5 * 3600)%Z in
  Some (secs * 1000000000)%Z.

Definition cell (s : string) : option str :=
  match s with
  | EmptyString => None
  | _ => Some (lit s)
  end.

Definition row (t song sc obs : string) : Row :=
  {| time_str := cell t; song_artist := cell song;
     score := cell sc; observation := cell obs |}.

(** The three-row schedule of the specification's scenario.  The score
    column has a blank cell, so that pandas reads it as floating-point
    numbers and [str] prints them with a decimal. *)
Definition three_rows : list Row :=
  [ row "09:00" "SongA" "8.0" ""; row "09:05" "SongB" "9.0" "";
    row "09:10" "" "" "Music end" ].

(** A schedule whose first row notes the end of the music before any song
    is named. *)
Definition end_before_song : list Row :=
  [ row "09:00" "" "" "Music end"; row "09:05" "SongA" "8.0" "" ].

Definition schedule_file (name : string) (df : list Row) : File Z :=
  {| f_name := lit name; f_exists := true;
     f_schedule := Frame df; f_channel := ReadError |}.

Definition channel_file (name : string) (series : list (option Timestamp * Z))
  : File Z :=
  {| f_name := lit name; f_exists := true;
     f_schedule := ReadError;
     f_channel := Frame {| columns := [lit "LocalTimestamp"; lit "value"];
                           rows := series |} |}.

(** An instant of 5 January 2024, given as a clock time of the zone. *)
Definition jan5 (h m : Z) : Timestamp :=
  ((1704412800 + 5 * 3600 + h * 3600 + m * 60) * 1000000000)%Z.

(** A heart-rate series from 09:03 to 09:07. *)
Definition hr_series : list (option Timestamp * Z) :=
  [ (Some (jan5 9 3), 71%Z); (Some (jan5 9 5), 73%Z); (Some (jan5 9 7), 74%Z) ].

(** A heart-rate series with one invalid instant (a blank
    [LocalTimestamp] cell). *)
Definition gappy_series : list (option Timestamp * Z) :=
  [ (Some (jan5 9 3), 71%Z); (None, 0%Z); (Some (jan5 9 7), 74%Z) ].

(** A library whose parser of mathematics rejects what it is given and
    that meets no other failure. *)
Definition agg : Matplotlib Z :=
  {| mathtext_parses := fun _ => false; figure_fails := fun _ => None |}.

(** An electrodermal series from 08:55 to 09:15. *)
Definition ea_series : list (option Timestamp * Z) :=
  [ (Some (jan5 8 55), 12%Z); (Some (jan5 9 15), 15%Z) ].

Definition hr_file : File Z := channel_file "2024-01-05_09-00-00_HR.csv" hr_series.
Definition ea_file : File Z := channel_file "2024-01-05_09-00-00_EA.csv" ea_series.

(** The same channels, and no schedule file. *)
Definition no_schedule_session : Folder Z :=
  {| folder_path := lit "/data/S02 morning"; is_dir := true;
     plots_is_file := false;
     entries := [ hr_file; ea_file ] |}.

(** The same channels, and a schedule file with a header row only. *)
Definition blank_schedule : File Z :=
  schedule_file "S03 Combined Observations.csv" [].

Definition blank_schedule_session : Folder Z :=
  {| folder_path := lit "/data/S03 morning"; is_dir := true;
     plots_is_file := false;
     entries := [ hr_file; ea_file; blank_schedule ] |}.

(** A session whose file names carry no date. *)
Definition undated_session : Folder Z :=
  {| folder_path := lit "/data/S04 morning"; is_dir := true;
     plots_is_file := false;
     entries := [ channel_file "recording_HR.csv" hr_series;
                  schedule_file "S04 Combined Observations.csv" three_rows ] |}.

(** A row whose time cannot be read. *)
Definition bad_row : Row := row "half past nine" "SongX" "" "".

Definition three_rows_file : File Z :=
  schedule_file "S01 Combined Observations.csv" three_rows.

(** The three-row schedule with the unreadable row after its first row. *)
Definition four_rows_file : File Z :=
  schedule_file "S01 Combined Observations.csv"
    ([row "09:00" "SongA" "8.0" ""]
       ++ bad_row :: [row "09:05" "SongB" "9.0" ""; row "09:10" "" "" "Music end"]).

(** A session with two channels and the three-row schedule. *)
Definition morning_session : Folder Z :=
  {| folder_path := lit "/data/S01 morning"; is_dir := true;
     plots_is_file := false;
     entries := [ hr_file; ea_file; three_rows_file ] |}.

Definition end_before_song_file : File Z :=
  schedule_file "S05 Combined Observations.csv" end_before_song.

Definition date_20240105 : str := lit "20240105".

(** What the three-row schedule loads to in a morning session. *)
Definition three_rows_schedule : Schedule :=
  {| annotations :=
       [ {| a_time := jan5 9 0;
            a_text := lit "SongA" ++ [ascii_of_nat 10] ++ lit "(Score: 8.0)" |};
         {| a_time := jan5 9 5;
            a_text := lit "SongB" ++ [ascii_of_nat 10] ++ lit "(Score: 9.0)" |};
         {| a_time := jan5 9 10; a_text := lit "Music end" |} ];
     music_start := Some (jan5 9 0);
     music_end := Some (jan5 9 10) |}.

(** The charts of the morning session. *)
Definition morning_charts : list (Chart Z) :=
  match process_folder est agg morning_session with
  | Ok charts => charts
  | Raise _ => []
  end.

End Sample.

(* ================================================================== *)
(** * Vocabulary of the statements *)
(* ================================================================== *)

Unset Implicit Arguments.

Definition all_ascii : list ascii := map ascii_of_nat (seq 0 256).

(** [sub p q]: every character of class [p] is of class [q]. *)
Definition sub (p q : ascii -> bool) : bool :=
  forallb (fun c => implb (p c) (q c)) all_ascii.

Definition is_colon : ascii -> bool := Ascii.eqb ":".
Definition clock_char (c : ascii) : bool := is_digit c || is_colon c.
Definition not_space (c : ascii) : bool := negb (is_space c).
Definition not_colon (c : ascii) : bool := negb (is_colon c).
Definition fixed_by_lower (c : ascii) : bool := Ascii.eqb (lower_char c) c.
Definition differs_from (c x : ascii) : bool := negb (Ascii.eqb c x).

(** The texts a pattern matches, with the texts its groups capture. *)
Fixpoint regex_lang (re : list item) (caps : list str) (m : str) : Prop :=
  match re with
  | [] => caps = [] /\ m = []
  | Cap alts :: re' =>
      exists t caps' m',
        caps = t :: caps' /\ m = t ++ m' /\
        (exists alt, In alt alts /\ Forall2 (fun p c => p c = true) alt t) /\
        regex_lang re' caps' m'
  | Lit c :: re' => exists m', m = c :: m' /\ regex_lang re' caps m'
  | WsPlus :: re' =>
      exists w m',
        w <> [] /\ forallb is_space w = true /\ m = w ++ m' /\
        regex_lang re' caps m'
  end.

(** Every character a piece of pattern can match is of class [P]. *)
Definition item_within (P : ascii -> bool) (it : item) : bool :=
  match it with
  | Cap alts => forallb (forallb (fun p => sub p P)) alts
  | Lit c => P c
  | WsPlus => sub is_space P
  end.

(** A clock text that [strptime] accepts as [%H:%M:%S] or as [%H:%M]. *)
Definition accepted_clock_text (s : str) : Prop :=
  (exists dt, strptime_HMS s = Ok dt) \/ (exists dt, strptime_HM s = Ok dt).

(** The AM / PM markers in every letter case. *)
Definition am_pm_suffixes : list str :=
  map lit ["am"; "AM"; "Am"; "aM"; "pm"; "PM"; "Pm"; "pM"]%string.

(** What [{n:02d}] must satisfy for a two-digit field. *)
Definition two_digit_ok (n : nat) : bool :=
  (length (fmt_02d n) =? 2) && forallb is_digit (fmt_02d n)
  && (int (fmt_02d n) =? n).

(** Two characters that differ at most by letter case. *)
Definition same_letter (a b : ascii) : Prop := lower_char a = lower_char b.

(** [needle] occurs in [s] when letter case is ignored. *)
Definition occurs_ignoring_case (needle s : str) : Prop :=
  exists pre mid post, s = pre ++ mid ++ post /\ Forall2 same_letter mid needle.

(** The instant [load_music_schedule] reads from the time cell of a row. *)
Definition row_time (tz_localize : datetime -> option Timestamp)
    (date_str : str) (is_afternoon : bool) (row : Row) : result Timestamp :=
  parse_time tz_localize (strip (str_of_cell (time_str row))) date_str is_afternoon.

(** The rows whose time parses, in file order. *)
Definition usable_rows (tz_localize : datetime -> option Timestamp)
    (date_str : str) (is_afternoon : bool) (df : list Row) : list Row :=
  filter (fun row => match row_time tz_localize date_str is_afternoon row with
                     | Ok _ => true
                     | Raise _ => false
                     end) df.

(** An event carries the instant of its row and the three texts of the
    row, blanks trimmed and a blank cell read as the empty text. *)
Definition row_event (tz_localize : datetime -> option Timestamp)
    (date_str : str) (is_afternoon : bool) (row : Row) (e : Event) : Prop :=
  row_time tz_localize date_str is_afternoon row = Ok (e_time e)
  /\ e_song e = text_of_cell (song_artist row)
  /\ e_score e = text_of_cell (score row)
  /\ e_obs e = text_of_cell (observation row).

(** The session is an afternoon one when the folder path says so. *)
Definition afternoon_path (data_folder_path : str) : bool :=
  contains (lit "afternoon") (lower data_folder_path).

(** The instant of the first event with a label. *)
Definition first_labelled (events : list Event) : option Timestamp :=
  option_map e_time (find (fun e => truthy (e_song e)) events).

Definition notes_music_end (e : Event) : bool :=
  contains (lit "music end") (lower (e_obs e)).

(** The events up to the first one that notes the end of the music, that
    one included. *)
Fixpoint through_music_end (events : list Event) : list Event :=
  match events with
  | [] => []
  | e :: events' =>
      if notes_music_end e then [e] else e :: through_music_end events'
  end.

Definition newline : ascii := ascii_of_nat 10.

(** The text of an annotation, case by case on which parts are present. *)
Definition composed_text (label score_text obs : str) : str :=
  let score_part := lit "(Score: " ++ score_text ++ lit ")" in
  match label, score_text, obs with
  | [], [], [] => []
  | _ :: _, [], [] => label
  | [], _ :: _, [] => score_part
  | [], [], _ :: _ => obs
  | _ :: _, _ :: _, [] => label ++ [newline] ++ score_part
  | _ :: _, [], _ :: _ => label ++ [newline] ++ obs
  | [], _ :: _, _ :: _ => score_part ++ [newline] ++ obs
  | _ :: _, _ :: _, _ :: _ =>
      label ++ [newline] ++ score_part ++ [newline] ++ obs
  end.

(** A text that neither starts nor ends with a blank character. *)
Definition trimmed (s : str) : Prop :=
  (forall c t, s = c :: t -> is_space c = false)
  /\ (forall c t, s = t ++ [c] -> is_space c = false).

(** The hour of an afternoon session: 1 to 11 move to 13 to 23. *)
Definition pm_adjusted (h : nat) : nat :=
  if (1 <=? h) && (h <=? 11) then h + 12 else h.

(** The observation cell of the row holds a text in which "music end"
    occurs, letter case ignored. *)
Definition row_notes_music_end (row : Row) : Prop :=
  exists s, observation row = Some s
            /\ occurs_ignoring_case (lit "music end") s.

(** The label cell of the row holds more than blanks. *)
Definition row_has_label (row : Row) : Prop :=
  text_of_cell (song_artist row) <> [].

(** The annotations of the schedule data handed to the plots. *)
Definition annotations_of (schedule_data : option Schedule) : list Annotation :=
  match schedule_data with
  | Some sd => annotations sd
  | None => []
  end.

(** The instant of the annotation lies in the closed range. *)
Definition within (lo hi : Timestamp) (a : Annotation) : bool :=
  ((lo <=? a_time a) && (a_time a <=? hi))%Z.

(** A series with at least one row whose instant is valid. *)
Definition renderable {Value : Type} (df : list (option Timestamp * Value)) : bool :=
  negb (is_empty df || forallb (fun row => is_null (fst row)) df).

(** [lo] is the least and [hi] the greatest valid instant of the series. *)
Definition instant_range {Value : Type} (df : list (option Timestamp * Value))
    (lo hi : Timestamp) : Prop :=
  (exists v, In (Some lo, v) df) /\ (exists v, In (Some hi, v) df)
  /\ (forall t v, In (Some t, v) df -> (lo <= t <= hi)%Z).

(** The marker of the schedule file name. *)
Definition schedule_marker : str := lit " Combined Observations.csv".

(** The leading token of a file name, up to the first underscore. *)
Definition date_token {Value : Type} (f : File Value) : str :=
  split_first "_" (f_name f).

(** A clock text in two-digit fields. *)
Definition clock_text_HMS (h m s : nat) : str :=
  fmt_02d h ++ lit ":" ++ fmt_02d m ++ lit ":" ++ fmt_02d s.

Definition clock_text_HM (h m : nat) : str :=
  fmt_02d h ++ lit ":" ++ fmt_02d m.

(** The file with other rows in its schedule frame, and the folder with
    other entries. *)
Definition with_rows {Value : Type} (f : File Value) (df : list Row) : File Value :=
  {| f_name := f_name f; f_exists := f_exists f;
     f_schedule := Frame df; f_channel := f_channel f |}.

Definition with_entries {Value : Type} (folder : Folder Value)
    (l : list (File Value)) : Folder Value :=
  {| folder_path := folder_path folder; is_dir := is_dir folder;
     plots_is_file := plots_is_file folder; entries := l |}.

(** The annotation of a row: at the instant of the row, with the text
    composed of its three cells. *)
Definition row_annotation (tz_localize : datetime -> option Timestamp)
    (date_str : str) (is_afternoon : bool) (row : Row) (a : Annotation) : Prop :=
  row_time tz_localize date_str is_afternoon row = Ok (a_time a)
  /\ a_text a = composed_text (text_of_cell (song_artist row))
                              (text_of_cell (score row))
                              (text_of_cell (observation row)).

(** Two files that a session cannot tell apart: the same name, the same
    existence, the same channel frame, and the same schedule loaded. *)
Definition same_for_session {Value : Type}
    (tz_localize : datetime -> option Timestamp) (path : str)
    (f g : File Value) : Prop :=
  f_name f = f_name g
  /\ f_exists f = f_exists g
  /\ f_channel f = f_channel g
  /\ (forall date, load_music_schedule tz_localize f date path
                   = load_music_schedule tz_localize g date path).

(** A text with no line break. *)
Definition single_line (s : str) : Prop :=
  forallb (differs_from newline) s = true.

(** The number of parts of an annotation text that are present. *)
Definition parts_present (e : Event) : nat :=
  Nat.b2n (truthy (e_song e)) + Nat.b2n (truthy (e_score e))
  + Nat.b2n (truthy (e_obs e)).

(** The event that gives the end of the window: the first that notes the
    end of the music, else the last one. *)
Definition end_event (events : list Event) (d : Event) : Event :=
  match find notes_music_end events with
  | Some e => e
  | None => last events d
  end.

(** The series a channel code loads to, if any: the rows of the first
    listed file named with the code, when the file reads as a frame that
    has a [LocalTimestamp] column and at least two columns, the last of
    them not named [est_time]. *)
Definition loaded_as {Value : Type} (folder : Folder Value) (signal : str)
    (series : Series Value) : Prop :=
  exists file rest df,
    glob_star folder (lit "_" ++ signal ++ lit ".csv") = file :: rest
    /\ read_channel file = Frame df
    /\ In (lit "LocalTimestamp") (columns df)
    /\ 2 <= length (columns df)
    /\ last (columns df) [] <> lit "est_time"
    /\ series = rows df.

(** The same, as a function. *)
Definition channel_of {Value : Type} (folder : Folder Value) (signal : str)
  : option (Series Value) :=
  match glob_star folder (lit "_" ++ signal ++ lit ".csv") with
  | [] => None
  | file :: _ =>
      match read_channel file with
      | ReadError => None
      | Frame df =>
          if existsb (str_eqb (lit "LocalTimestamp")) (columns df)
             && (2 <=? length (columns df))
             && negb (str_eqb (last (columns df) []) (lit "est_time"))
          then Some (rows df) else None
      end
  end.

Definition is_some {A : Type} (x : option A) : bool :=
  match x with Some _ => true | None => false end.

(** No text occurs twice in the list. *)
Fixpoint distinct (l : list str) : bool :=
  match l with
  | [] => true
  | x :: l' => negb (existsb (str_eqb x) l') && distinct l'
  end.

(** A character of an experiment date text. *)
Definition date_char (c : ascii) : bool := is_digit c || is_space c.

(** The alternatives of a capturing group, and the texts it can capture. *)
Definition alternatives (it : item) : list (list (ascii -> bool)) :=
  match it with
  | Cap alts => alts
  | _ => []
  end.

Definition captured_by (it : item) (t : str) : Prop :=
  exists alt, In alt (alternatives it) /\ Forall2 (fun p c => p c = true) alt t.

(** The texts [%m] and [%d] can capture. *)
Definition month_texts : list str :=
  map lit [ "10"; "11"; "12";
            "01"; "02"; "03"; "04"; "05"; "06"; "07"; "08"; "09";
            "1"; "2"; "3"; "4"; "5"; "6"; "7"; "8"; "9" ]%string.

Definition day_texts : list str :=
  map lit [ "30"; "31";
            "10"; "11"; "12"; "13"; "14"; "15"; "16"; "17"; "18"; "19";
            "20"; "21"; "22"; "23"; "24"; "25"; "26"; "27"; "28"; "29";
            "01"; "02"; "03"; "04"; "05"; "06"; "07"; "08"; "09";
            "1"; "2"; "3"; "4"; "5"; "6"; "7"; "8"; "9";
            " 1"; " 2"; " 3"; " 4"; " 5"; " 6"; " 7"; " 8"; " 9" ]%string.

(** What a captured month or day text must satisfy. *)
Definition field_text_ok (t : str) : bool :=
  forallb date_char t && forallb (differs_from "-") t
  && (1 <=? length t) && (length t <=? 2).

(** A blank followed by a digit: a one-digit day as [%d] also reads it. *)
Definition blank_then_digit (t : str) : bool :=
  match t with
  | [b; d] => Ascii.eqb b " " && is_digit d
  | _ => false
  end.

(** The date text of a session: the leading token of a file name with the
    hyphens taken out. *)
Definition date_text_of {Value : Type} (f : File Value) : str :=
  replace (date_token f) (lit "-") [].

(** More sample data: the heart-rate chart of the morning session, what
    the session loads to, and two data set folders. *)
Module MoreSamples.

Definition morning_data : list (str * list (option Timestamp * Z)) :=
  [ (lit "EA", Sample.ea_series); (lit "HR", Sample.hr_series) ].

Definition hr_chart : Chart Z :=
  {| c_label := lit "HR";
     c_line := Sample.hr_series;
     c_annotation_lines := 5;
     c_xlim := (Sample.jan5 9 3, Sample.jan5 9 7);
     c_axvspan := Some (Sample.jan5 9 0, Sample.jan5 9 10);
     c_annotate :=
       [ {| p_text := lit "SongB" ++ [ascii_of_nat 10] ++ lit "(Score: 9.0)";
            p_xy := Sample.jan5 9 5; p_xytext := Sample.jan5 9 5;
            p_level := 0 |} ];
     c_title := (lit "HR", lit "Heart Rate");
     c_filename := lit "HR_plot.png" |}.

(** An entry of the data set folder that is not a directory. *)
Definition notes_file : Folder Z :=
  {| folder_path := lit "/data/notes.txt"; is_dir := false;
     plots_is_file := false; entries := [] |}.

(** A data set in which every session has a schedule file. *)
Definition complete_dataset : list (Folder Z) :=
  [ Sample.morning_session; notes_file; Sample.blank_schedule_session ].

(** A data set whose second session has no schedule file. *)
Definition broken_dataset : list (Folder Z) :=
  [ Sample.morning_session; Sample.no_schedule_session;
    Sample.blank_schedule_session ].

(** An event with a label and a score and no observation. *)
Definition song_event : Event :=
  {| e_time := Sample.jan5 9 0; e_song := lit "SongA";
     e_score := lit "8.0"; e_obs := [] |}.

(** The morning session with an invalid instant in its heart-rate file. *)
Definition gappy_session : Folder Z :=
  with_entries Sample.morning_session
    [ Sample.channel_file "2024-01-05_09-00-00_HR.csv" Sample.gappy_series;
      Sample.ea_file; Sample.three_rows_file ].

(** The morning session with a file in the place of [plots]. *)
Definition plots_taken_session : Folder Z :=
  {| folder_path := lit "/data/S01 morning"; is_dir := true;
     plots_is_file := true;
     entries := [ Sample.hr_file; Sample.ea_file; Sample.three_rows_file ] |}.

(** The morning session with a heart-rate file whose last column is named
    [est_time]. *)
Definition est_time_session : Folder Z :=
  with_entries Sample.morning_session
    [ {| f_name := lit "2024-01-05_09-00-00_HR.csv"; f_exists := true;
         f_schedule := ReadError;
         f_channel := Frame {| columns := [lit "LocalTimestamp"; lit "est_time"];
                               rows := Sample.hr_series |} |};
      Sample.ea_file; Sample.three_rows_file ].

(** The morning session with an observation that is read as mathematics. *)
Definition braces_session : Folder Z :=
  with_entries Sample.morning_session
    [ Sample.hr_file; Sample.ea_file;
      Sample.schedule_file "S01 Combined Observations.csv"
        [ Sample.row "09:05" "SongB" "" "${$" ] ].

(** A folder whose name holds pattern characters, with nothing found
    under its path read as a pattern. *)
Definition brackets_session : Folder Z :=
  {| folder_path := lit "/data/S06 [am]"; is_dir := true;
     plots_is_file := false; entries := [] |}.

Definition jan5_midnight : datetime :=
  {| year := 2024; month := 1; day := 5; hour := 0; minute := 0; second := 0 |}.

End MoreSamples.



(* ================================================================== *)
(** * Characters and strings *)
(* ================================================================== *)

Lemma in_all_ascii c : In c all_ascii.
Proof.
  unfold all_ascii. rewrite <- (ascii_nat_embedding c).
  apply in_map, in_seq. pose proof (nat_ascii_bounded c). lia.
Qed.

Lemma sub_sound p q : sub p q = true -> forall c, p c = true -> q c = true.
Proof.
  unfold sub. rewrite forallb_forall. intros H c Hp.
  specialize (H c (in_all_ascii c)). rewrite Hp in H. exact H.
Qed.

Lemma forallb_app_iff {A} (f : A -> bool) l1 l2 :
  forallb f (l1 ++ l2) = true <-> forallb f l1 = true /\ forallb f l2 = true.
Proof. rewrite forallb_app, andb_true_iff. tauto. Qed.

Lemma forallb_sub p q s :
  sub p q = true -> forallb p s = true -> forallb q s = true.
Proof.
  intros Hs. rewrite !forallb_forall. intros H c Hc.
  apply (sub_sound _ _ Hs), H, Hc.
Qed.

(** ** [lower] *)

Lemma lower_fixed s : forallb fixed_by_lower s = true -> lower s = s.
Proof.
  induction s as [|c s IH]; simpl; [reflexivity|].
  rewrite andb_true_iff. intros [Hc Hs].
  apply Ascii.eqb_eq in Hc. rewrite Hc, (IH Hs). reflexivity.
Qed.

Lemma lower_app s1 s2 : lower (s1 ++ s2) = lower s1 ++ lower s2.
Proof. apply map_app. Qed.

(** ** [strip] *)

Lemma lstrip_spaces w s : forallb is_space w = true -> lstrip (w ++ s) = lstrip s.
Proof.
  induction w as [|c w IH]; simpl; [reflexivity|].
  rewrite andb_true_iff. intros [Hc Hw]. rewrite Hc. auto.
Qed.

Lemma lstrip_head c s : is_space c = false -> lstrip (c :: s) = c :: s.
Proof. simpl. intros ->. reflexivity. Qed.

Lemma rstrip_spaces s w : forallb is_space w = true -> rstrip (s ++ w) = rstrip s.
Proof.
  intros Hw. unfold rstrip. rewrite rev_app_distr, lstrip_spaces; [reflexivity|].
  rewrite forallb_forall in *. intros c Hc. apply Hw, in_rev, Hc.
Qed.

Lemma rstrip_last s c : is_space c = false -> rstrip (s ++ [c]) = s ++ [c].
Proof.
  intros Hc. unfold rstrip. rewrite rev_app_distr. simpl.
  rewrite Hc. simpl. rewrite rev_involutive. reflexivity.
Qed.

(** A text with no blank at either end is left alone by [strip], whatever
    blanks are put after it. *)
Lemma strip_core s w :
  s <> [] -> forallb not_space s = true -> forallb is_space w = true ->
  strip (s ++ w) = s.
Proof.
  intros Hne Hs Hw. unfold strip.
  destruct s as [|c s]; [congruence|]. simpl in Hs.
  apply andb_true_iff in Hs as [Hc Hs]. unfold not_space in Hc.
  apply negb_true_iff in Hc.
  change ((c :: s) ++ w) with (c :: (s ++ w)). rewrite (lstrip_head _ _ Hc).
  change (c :: (s ++ w)) with ((c :: s) ++ w). rewrite (rstrip_spaces _ _ Hw).
  destruct (exists_last (l := c :: s)) as [s' [d Hd]]; [discriminate|].
  rewrite Hd. apply rstrip_last.
  assert (Hall : forallb not_space (c :: s) = true).
  { simpl. unfold not_space at 1. rewrite Hc. exact Hs. }
  rewrite Hd in Hall. apply forallb_app_iff in Hall as [_ Hl]. simpl in Hl.
  rewrite andb_true_r in Hl. unfold not_space in Hl.
  apply negb_true_iff in Hl. exact Hl.
Qed.

(** ** [replace] *)

Lemma startswith_head s c old :
  startswith s (c :: old) = true -> exists t, s = c :: t.
Proof.
  destruct s as [|x t]; simpl; [discriminate|].
  rewrite andb_true_iff. intros [H _]. apply Ascii.eqb_eq in H. subst. eauto.
Qed.

Lemma startswith_app s t : startswith (s ++ t) s = true.
Proof.
  induction s as [|c s IH]; simpl; [reflexivity|].
  rewrite Ascii.eqb_refl. exact IH.
Qed.

(** Text in which the first character of [old] does not occur passes
    through [replace] untouched. *)
Lemma replace_from_skip_prefix c old new pre rest :
  forallb (differs_from c) pre = true ->
  replace_from (c :: old) new 0 (pre ++ rest)
  = pre ++ replace_from (c :: old) new 0 rest.
Proof.
  induction pre as [|x pre IH]; simpl; [reflexivity|].
  rewrite andb_true_iff. intros [Hx Hpre].
  apply negb_true_iff in Hx. rewrite Hx. simpl.
  rewrite (IH Hpre). reflexivity.
Qed.

Lemma replace_from_drop old new t rest :
  replace_from old new (length t) (t ++ rest) = replace_from old new 0 rest.
Proof.
  induction t as [|x t IH]; simpl; [|exact IH].
  destruct rest; reflexivity.
Qed.

Lemma replace_from_occurrence c old new rest :
  replace_from (c :: old) new 0 ((c :: old) ++ rest)
  = new ++ replace_from (c :: old) new 0 rest.
Proof.
  simpl. rewrite Ascii.eqb_refl, startswith_app. simpl.
  rewrite Nat.sub_0_r, replace_from_drop. reflexivity.
Qed.

Lemma replace_absent c old new s :
  forallb (differs_from c) s = true ->
  replace s (c :: old) new = s.
Proof.
  intros H. unfold replace.
  rewrite <- (app_nil_r s) at 1.
  rewrite (replace_from_skip_prefix _ _ _ _ _ H). simpl. apply app_nil_r.
Qed.

Lemma replace_one c old pre post :
  forallb (differs_from c) pre = true ->
  forallb (differs_from c) post = true ->
  replace (pre ++ (c :: old) ++ post) (c :: old) [] = pre ++ post.
Proof.
  intros Hpre Hpost. unfold replace.
  rewrite (replace_from_skip_prefix _ _ _ _ _ Hpre), replace_from_occurrence.
  simpl. f_equal. apply (replace_absent _ _ _ _ Hpost).
Qed.

(* ================================================================== *)
(** * The pattern matcher *)
(* ================================================================== *)

Lemma match_alt_sound alt : forall s m r,
  match_alt alt s = Some (m, r) ->
  s = m ++ r /\ Forall2 (fun p c => p c = true) alt m.
Proof.
  induction alt as [|p alt IH]; simpl; intros s m r H.
  - inversion H; subst. split; [reflexivity|constructor].
  - destruct s as [|c s]; [discriminate|].
    destruct (p c) eqn:Hp; [|discriminate].
    destruct (match_alt alt s) as [[m' r']|] eqn:Hm; [|discriminate].
    inversion H; subst. destruct (IH _ _ _ Hm) as [-> HF].
    split; [reflexivity|constructor; assumption].
Qed.

Lemma match_group_sound alts s m r :
  In (m, r) (match_group alts s) ->
  s = m ++ r /\ exists alt, In alt alts /\ Forall2 (fun p c => p c = true) alt m.
Proof.
  unfold match_group. rewrite in_flat_map. intros [alt [Halt Hin]].
  destruct (match_alt alt s) as [[m' r']|] eqn:Hm; simpl in Hin; [|tauto].
  destruct Hin as [Heq|[]]. inversion Heq; subst.
  destruct (match_alt_sound _ _ _ _ Hm) as [-> HF]. eauto.
Qed.

Lemma match_ws_plus_sound : forall s m r,
  In (m, r) (match_ws_plus s) ->
  s = m ++ r /\ m <> [] /\ forallb is_space m = true.
Proof.
  induction s as [|c s IH]; simpl; intros m r H; [tauto|].
  destruct (is_space c) eqn:Hc; [|destruct H].
  apply in_app_or in H as [H|H].
  - apply in_map_iff in H as [[m' r'] [Heq Hin]]. simpl in Heq.
    inversion Heq; subst. destruct (IH _ _ Hin) as [-> [_ Hsp]].
    repeat split; [discriminate|]. simpl. rewrite Hc. exact Hsp.
  - destruct H as [Heq|[]]. inversion Heq; subst.
    repeat split; [discriminate|]. simpl. rewrite Hc. reflexivity.
Qed.

Lemma match_regex_sound re : forall s caps r,
  In (caps, r) (match_regex re s) ->
  exists m, s = m ++ r /\ regex_lang re caps m.
Proof.
  induction re as [|it re IH]; simpl; intros s caps r H.
  - destruct H as [H|[]]. inversion H; subst. exists []. auto.
  - apply in_flat_map in H as [[c1 r1] [H1 H2]].
    apply in_map_iff in H2 as [[c2 r2] [Heq H2]]. simpl in Heq, H2.
    inversion Heq; subst. destruct (IH _ _ _ H2) as [m2 [-> HL]].
    destruct it as [alts|c|]; simpl in H1.
    + apply in_map_iff in H1 as [[t rt] [Heq1 H1]]. simpl in Heq1.
      inversion Heq1; subst.
      destruct (match_group_sound _ _ _ _ H1) as [-> Halt].
      exists (t ++ m2). split; [apply app_assoc|].
      exists t, c2, m2. auto.
    + destruct s as [|c' s]; [destruct H1|].
      destruct (Ascii.eqb c c') eqn:Hc; [|destruct H1].
      destruct H1 as [H1|[]]. inversion H1; subst.
      apply Ascii.eqb_eq in Hc. subst.
      exists (c' :: m2). split; [reflexivity|]. exists m2. auto.
    + apply in_map_iff in H1 as [[w rw] [Heq1 H1]]. simpl in Heq1.
      inversion Heq1; subst.
      destruct (match_ws_plus_sound _ _ _ H1) as [-> [Hne Hsp]].
      exists (w ++ m2). split; [apply app_assoc|].
      exists w, m2. auto.
Qed.

Lemma regex_fullmatch_sound re s caps :
  regex_fullmatch re s = Ok caps -> regex_lang re caps s.
Proof.
  unfold regex_fullmatch.
  destruct (match_regex re s) as [|[caps' rest] l] eqn:Hm; [discriminate|].
  destruct rest; [|discriminate]. intros H. inversion H; subst.
  destruct (match_regex_sound re s caps []) as [m [Hs HL]].
  - rewrite Hm. left. reflexivity.
  - rewrite app_nil_r in Hs. subst. exact HL.
Qed.

Lemma regex_fullmatch_raises re s e :
  regex_fullmatch re s = Raise e -> e = ValueError.
Proof.
  unfold regex_fullmatch.
  destruct (match_regex re s) as [|[caps rest] l]; [congruence|].
  destruct rest; congruence.
Qed.

Lemma alt_within P alts alt t :
  forallb (forallb (fun p => sub p P)) alts = true ->
  In alt alts -> Forall2 (fun p c => p c = true) alt t ->
  forallb P t = true.
Proof.
  intros Hall Hin HF. rewrite forallb_forall in Hall.
  specialize (Hall _ Hin). clear Hin.
  induction HF as [|p c alt t Hpc HF IH]; [reflexivity|].
  simpl in Hall |- *. apply andb_true_iff in Hall as [Hp Halt].
  rewrite (sub_sound _ _ Hp _ Hpc). auto.
Qed.

(** A text matched by a pattern is made of the characters its pieces allow,
    and so is every captured text. *)
Lemma regex_lang_within P re : forall caps m,
  forallb (item_within P) re = true ->
  regex_lang re caps m ->
  forallb P m = true /\ Forall (fun t => forallb P t = true) caps.
Proof.
  induction re as [|it re IH]; simpl; intros caps m Hre HL.
  - destruct HL as [-> ->]. auto.
  - apply andb_true_iff in Hre as [Hit Hre].
    destruct it as [alts|c|]; simpl in Hit.
    + destruct HL as [t [caps' [m' [-> [-> [[alt [Hin HF]] HL]]]]]].
      destruct (IH _ _ Hre HL) as [Hm Hc].
      pose proof (alt_within _ _ _ _ Hit Hin HF) as Ht.
      split; [apply forallb_app_iff; auto|constructor; auto].
    + destruct HL as [m' [-> HL]]. destruct (IH _ _ Hre HL) as [Hm Hc].
      simpl. rewrite Hit. auto.
    + destruct HL as [w [m' [_ [Hw [-> HL]]]]].
      destruct (IH _ _ Hre HL) as [Hm Hc].
      split; [|exact Hc]. apply forallb_app_iff. split; [|exact Hm].
      apply (forallb_sub _ _ _ Hit Hw).
Qed.

(** ** The four formats *)

Lemma datetime_new_fields y mo d h mi s dt :
  datetime_new y mo d h mi s = Ok dt ->
  dt = {| year := y; month := mo; day := d; hour := h; minute := mi; second := s |}
  /\ h <= 23 /\ mi <= 59 /\ s <= 59.
Proof.
  unfold datetime_new.
  destruct (_ && _) eqn:Hc; [|discriminate].
  intros H. inversion H; subst. split; [reflexivity|].
  repeat (apply andb_true_iff in Hc as [Hc ?]).
  repeat match goal with H : (_ <=? _) = true |- _ => apply Nat.leb_le in H end.
  auto.
Qed.

Lemma datetime_new_raises y mo d h mi s e :
  datetime_new y mo d h mi s = Raise e -> e = ValueError.
Proof. unfold datetime_new. destruct (_ && _); congruence. Qed.

Lemma strptime_HMS_raises s e : strptime_HMS s = Raise e -> e = ValueError.
Proof.
  unfold strptime_HMS.
  destruct (regex_fullmatch fmt_HMS s) as [caps|e'] eqn:Hm; simpl.
  - destruct caps as [|? [|? [|? [|]]]]; try congruence.
    apply datetime_new_raises.
  - intros H. inversion H; subst. eapply regex_fullmatch_raises; eauto.
Qed.

Lemma strptime_HM_raises s e : strptime_HM s = Raise e -> e = ValueError.
Proof.
  unfold strptime_HM.
  destruct (regex_fullmatch fmt_HM s) as [caps|e'] eqn:Hm; simpl.
  - destruct caps as [|? [|? [|]]]; try congruence.
    apply datetime_new_raises.
  - intros H. inversion H; subst. eapply regex_fullmatch_raises; eauto.
Qed.

Lemma strptime_Ymd_raises s e : strptime_Ymd s = Raise e -> e = ValueError.
Proof.
  unfold strptime_Ymd.
  destruct (regex_fullmatch fmt_Ymd s) as [caps|e'] eqn:Hm; simpl.
  - destruct caps as [|? [|? [|? [|]]]]; try congruence.
    apply datetime_new_raises.
  - intros H. inversion H; subst. eapply regex_fullmatch_raises; eauto.
Qed.

Lemma strptime_Ymd_HMS_raises s e : strptime_Ymd_HMS s = Raise e -> e = ValueError.
Proof.
  unfold strptime_Ymd_HMS.
  destruct (regex_fullmatch fmt_Ymd_HMS s) as [caps|e'] eqn:Hm; simpl.
  - destruct caps as [|? [|? [|? [|? [|? [|? [|]]]]]]]; try congruence.
    apply datetime_new_raises.
  - intros H. inversion H; subst. eapply regex_fullmatch_raises; eauto.
Qed.

(** A text that either clock format accepts is made of digits and colons
    and is not empty. *)
Lemma strptime_HMS_clock_chars s dt :
  strptime_HMS s = Ok dt -> s <> [] /\ forallb clock_char s = true.
Proof.
  unfold strptime_HMS.
  destruct (regex_fullmatch fmt_HMS s) as [caps|] eqn:Hm; simpl; [|discriminate].
  intros _. apply regex_fullmatch_sound in Hm.
  split.
  - simpl in Hm. destruct Hm as [t [c' [m' [_ [-> [[alt [Hin HF]] Hm]]]]]].
    destruct Hm as [m'' [-> _]]. destruct t; discriminate.
  - apply (regex_lang_within clock_char fmt_HMS caps s); [vm_compute; reflexivity|exact Hm].
Qed.

Lemma strptime_HM_clock_chars s dt :
  strptime_HM s = Ok dt -> s <> [] /\ forallb clock_char s = true.
Proof.
  unfold strptime_HM.
  destruct (regex_fullmatch fmt_HM s) as [caps|] eqn:Hm; simpl; [|discriminate].
  intros _. apply regex_fullmatch_sound in Hm.
  split.
  - simpl in Hm. destruct Hm as [t [c' [m' [_ [-> [[alt [Hin HF]] Hm]]]]]].
    destruct Hm as [m'' [-> _]]. destruct t; discriminate.
  - apply (regex_lang_within clock_char fmt_HM caps s); [vm_compute; reflexivity|exact Hm].
Qed.

(* ================================================================== *)
(** * [parse_time] *)
(* ================================================================== *)

Lemma fmt_02d_two_digits n :
  n < 100 ->
  length (fmt_02d n) = 2 /\ forallb is_digit (fmt_02d n) = true
  /\ int (fmt_02d n) = n.
Proof.
  intros Hn.
  assert (Hall : forallb two_digit_ok (seq 0 100) = true) by (vm_compute; reflexivity).
  rewrite forallb_forall in Hall.
  assert (Hin : In n (seq 0 100)) by (apply in_seq; lia).
  specialize (Hall n Hin). unfold two_digit_ok in Hall.
  apply andb_true_iff in Hall as [Hall H3].
  apply andb_true_iff in Hall as [H1 H2].
  apply Nat.eqb_eq in H1, H3. auto.
Qed.

(** Cutting a text at its last character of class [P] is unambiguous. *)
Lemma split_last_unique (P : ascii -> bool) : forall l1 c1 r1 l2 c2 r2,
  l1 ++ c1 :: r1 = l2 ++ c2 :: r2 ->
  P c1 = true -> P c2 = true ->
  forallb (fun c => negb (P c)) r1 = true ->
  forallb (fun c => negb (P c)) r2 = true ->
  l1 = l2 /\ c1 = c2 /\ r1 = r2.
Proof.
  induction l1 as [|x l1 IH]; intros c1 r1 l2 c2 r2 Heq H1 H2 Hr1 Hr2.
  - destruct l2 as [|y l2]; simpl in Heq; inversion Heq; subst; [auto|].
    exfalso. apply forallb_app_iff in Hr1 as [_ Hr1]. simpl in Hr1.
    rewrite H2 in Hr1. discriminate.
  - destruct l2 as [|y l2]; simpl in Heq; injection Heq as Hx Ht; subst.
    + exfalso. apply forallb_app_iff in Hr2 as [_ Hr2]. simpl in Hr2.
      rewrite H1 in Hr2. discriminate.
    + destruct (IH _ _ _ _ _ Ht H1 H2 Hr1 Hr2) as [-> [-> ->]]. auto.
Qed.

Lemma digits_no_colon s :
  forallb is_digit s = true -> forallb (fun c => negb (is_colon c)) s = true.
Proof. apply forallb_sub. vm_compute. reflexivity. Qed.

Lemma digits_no_space s :
  forallb is_digit s = true -> forallb (fun c => negb (is_space c)) s = true.
Proof. apply forallb_sub. vm_compute. reflexivity. Qed.

(** Reading back the text that [parse_time] prints gives the clock fields
    that were printed, whatever the date text in front. *)
Lemma strptime_Ymd_HMS_reads_clock date_str h mi se dt :
  h <= 23 -> mi <= 59 -> se <= 59 ->
  strptime_Ymd_HMS (date_str ++ lit " " ++ fmt_02d h ++ lit ":"
                             ++ fmt_02d mi ++ lit ":" ++ fmt_02d se) = Ok dt ->
  hour dt = h /\ minute dt = mi /\ second dt = se.
Proof.
  intros Hh Hmi Hse. unfold strptime_Ymd_HMS.
  destruct (regex_fullmatch _ _) as [caps|] eqn:Hm; simpl; [|discriminate].
  apply regex_fullmatch_sound in Hm.
  destruct (fmt_02d_two_digits h) as [_ [Dh Ih]]; [lia|].
  destruct (fmt_02d_two_digits mi) as [_ [Dmi Imi]]; [lia|].
  destruct (fmt_02d_two_digits se) as [_ [Dse Ise]]; [lia|].
  simpl in Hm.
  destruct Hm as [tY [c1 [m1 [-> [E1 [AY Hm]]]]]].
  destruct Hm as [tm [c2 [m2 [-> [-> [Am Hm]]]]]].
  destruct Hm as [td [c3 [m3 [-> [-> [Ad Hm]]]]]].
  destruct Hm as [w [m4 [Hw [Sw [-> Hm]]]]].
  destruct Hm as [tH [c5 [m5 [-> [-> [[aH [IH FH]] Hm]]]]]].
  destruct Hm as [m6 [-> Hm]].
  destruct Hm as [tM [c7 [m7 [-> [-> [[aM [IM FM]] Hm]]]]]].
  destruct Hm as [m8 [-> Hm]].
  destruct Hm as [tS [c9 [m9 [-> [-> [[aS [IS FS]] [-> ->]]]]]]].
  assert (DH : forallb is_digit tH = true).
  { apply (alt_within is_digit _ _ _ (eq_refl : item_within is_digit re_H = true) IH FH). }
  assert (DM : forallb is_digit tM = true).
  { apply (alt_within is_digit _ _ _ (eq_refl : item_within is_digit re_M = true) IM FM). }
  assert (DS : forallb is_digit tS = true).
  { apply (alt_within is_digit _ _ _ (eq_refl : item_within is_digit re_S = true) IS FS). }
  rewrite app_nil_r in E1.
  change (lit ":") with [":"%char] in E1. change (lit " ") with [" "%char] in E1.
  cbn [app] in E1.
  (* the seconds *)
  assert (E2 : (tY ++ tm ++ td ++ w ++ tH ++ [":"%char] ++ tM) ++ ":"%char :: tS
               = (date_str ++ [" "%char] ++ fmt_02d h ++ [":"%char] ++ fmt_02d mi)
                   ++ ":"%char :: fmt_02d se).
  { repeat rewrite <- app_assoc. cbn [app]. symmetry. exact E1. }
  apply (split_last_unique is_colon) in E2
    as [E3 [_ ES]]; try reflexivity; try (apply digits_no_colon; assumption).
  (* the minutes *)
  assert (E4 : (tY ++ tm ++ td ++ w ++ tH) ++ ":"%char :: tM
               = (date_str ++ [" "%char] ++ fmt_02d h) ++ ":"%char :: fmt_02d mi).
  { repeat rewrite <- app_assoc. cbn [app].
    repeat rewrite <- app_assoc in E3. cbn [app] in E3. exact E3. }
  apply (split_last_unique is_colon) in E4
    as [E5 [_ EM]]; try reflexivity; try (apply digits_no_colon; assumption).
  (* the hour: cut at the last blank *)
  destruct (exists_last Hw) as [w' [b Hb]]. subst w.
  apply forallb_app_iff in Sw as [_ Sb]. simpl in Sb. rewrite andb_true_r in Sb.
  assert (E6 : (tY ++ tm ++ td ++ w') ++ b :: tH = date_str ++ " "%char :: fmt_02d h).
  { repeat rewrite <- app_assoc. cbn [app].
    repeat rewrite <- app_assoc in E5. cbn [app] in E5. exact E5. }
  apply (split_last_unique is_space) in E6
    as [_ [_ EH]]; try reflexivity; try assumption;
    try (apply digits_no_space; assumption).
  subst tH tM tS. intros Hdt.
  apply datetime_new_fields in Hdt as [-> _]. simpl.
  rewrite Ih, Imi, Ise. auto.
Qed.

Lemma strptime_HMS_bounds s dt :
  strptime_HMS s = Ok dt -> hour dt <= 23 /\ minute dt <= 59 /\ second dt <= 59.
Proof.
  unfold strptime_HMS.
  destruct (regex_fullmatch fmt_HMS s) as [caps|]; simpl; [|discriminate].
  destruct caps as [|? [|? [|? [|]]]]; try discriminate.
  intros H. apply datetime_new_fields in H as [-> H]. exact H.
Qed.

Lemma strptime_HM_bounds s dt :
  strptime_HM s = Ok dt -> hour dt <= 23 /\ minute dt <= 59 /\ second dt <= 59.
Proof.
  unfold strptime_HM.
  destruct (regex_fullmatch fmt_HM s) as [caps|]; simpl; [|discriminate].
  destruct caps as [|? [|? [|]]]; try discriminate.
  intros H. apply datetime_new_fields in H as [-> H]. exact H.
Qed.

Lemma time_obj_of_bounds cleaned t :
  time_obj_of cleaned = Ok t ->
  t_hour t <= 23 /\ t_minute t <= 59 /\ t_second t <= 59.
Proof.
  unfold time_obj_of, try_except.
  destruct (strptime_HMS cleaned) as [dt|e] eqn:H1; simpl.
  - intros H. inversion H; subst. apply (strptime_HMS_bounds _ _ H1).
  - destruct (is_ValueError e); [|discriminate].
    destruct (strptime_HM cleaned) as [dt|e'] eqn:H2; simpl; [|discriminate].
    intros H. inversion H; subst. apply (strptime_HM_bounds _ _ H2).
Qed.

Lemma time_obj_of_raises cleaned e :
  time_obj_of cleaned = Raise e -> e = ValueError.
Proof.
  unfold time_obj_of, try_except.
  destruct (strptime_HMS cleaned) as [dt|e1] eqn:H1; simpl; [discriminate|].
  apply strptime_HMS_raises in H1. subst. simpl.
  destruct (strptime_HM cleaned) as [dt|e'] eqn:H2; simpl; [discriminate|].
  intros H. inversion H; subst. apply (strptime_HM_raises _ _ H2).
Qed.

Section ParseTime.

Variable tz_localize : datetime -> option Timestamp.

(** [parse_time] raises nothing but [ValueError]. *)
Lemma parse_time_raises time_str date_str is_pm e :
  parse_time tz_localize time_str date_str is_pm = Raise e -> e = ValueError.
Proof.
  unfold parse_time.
  destruct (time_obj_of _) as [t|e1] eqn:H1; simpl.
  - destruct (strptime_Ymd_HMS _) as [dt|e2] eqn:H2; simpl.
    + unfold pd_Timestamp. destruct (tz_localize dt); congruence.
    + intros H. inversion H; subst. apply (strptime_Ymd_HMS_raises _ _ H2).
  - intros H. inversion H; subst. apply (time_obj_of_raises _ _ H1).
Qed.

(** The instant depends on the time text through its cleaned form only. *)
Lemma parse_time_cleaned s1 s2 date_str is_pm :
  cleaned_time_str s1 = cleaned_time_str s2 ->
  parse_time tz_localize s1 date_str is_pm = parse_time tz_localize s2 date_str is_pm.
Proof. unfold parse_time. intros ->. reflexivity. Qed.

End ParseTime.

Lemma clock_text_cleaned s w :
  s <> [] -> forallb clock_char s = true -> forallb is_space w = true ->
  strip (s ++ w) = s.
Proof.
  intros Hne Hs Hw. apply strip_core; auto.
  revert Hs. apply forallb_sub. vm_compute. reflexivity.
Qed.

Lemma accepted_clock_chars s :
  accepted_clock_text s -> s <> [] /\ forallb clock_char s = true.
Proof.
  intros [[dt H]|[dt H]];
    [apply (strptime_HMS_clock_chars _ _ H)|apply (strptime_HM_clock_chars _ _ H)].
Qed.

Lemma cleaned_clock_text s :
  s <> [] -> forallb clock_char s = true -> cleaned_time_str s = s.
Proof.
  intros Hne Hs. unfold cleaned_time_str.
  rewrite lower_fixed by (revert Hs; apply forallb_sub; vm_compute; reflexivity).
  change (lit "am") with ["a"; "m"]%char. change (lit "pm") with ["p"; "m"]%char.
  rewrite (replace_absent "a" ["m"%char] [] s)
    by (revert Hs; apply forallb_sub; vm_compute; reflexivity).
  rewrite (replace_absent "p" ["m"%char] [] s)
    by (revert Hs; apply forallb_sub; vm_compute; reflexivity).
  rewrite <- (app_nil_r s) at 1. apply clock_text_cleaned; auto.
Qed.

Lemma cleaned_suffixed s w1 sfx w2 :
  s <> [] -> forallb clock_char s = true ->
  In sfx am_pm_suffixes ->
  forallb is_space w1 = true -> forallb is_space w2 = true ->
  cleaned_time_str (s ++ w1 ++ sfx ++ w2) = s.
Proof.
  intros Hne Hs Hsfx Hw1 Hw2. unfold cleaned_time_str.
  assert (Ls : lower s = s)
    by (apply lower_fixed; revert Hs; apply forallb_sub; vm_compute; reflexivity).
  assert (L1 : lower w1 = w1)
    by (apply lower_fixed; revert Hw1; apply forallb_sub; vm_compute; reflexivity).
  assert (L2 : lower w2 = w2)
    by (apply lower_fixed; revert Hw2; apply forallb_sub; vm_compute; reflexivity).
  assert (As : forallb (differs_from "a") s = true)
    by (revert Hs; apply forallb_sub; vm_compute; reflexivity).
  assert (Ps : forallb (differs_from "p") s = true)
    by (revert Hs; apply forallb_sub; vm_compute; reflexivity).
  assert (A1 : forallb (differs_from "a") w1 = true)
    by (revert Hw1; apply forallb_sub; vm_compute; reflexivity).
  assert (P1 : forallb (differs_from "p") w1 = true)
    by (revert Hw1; apply forallb_sub; vm_compute; reflexivity).
  assert (A2 : forallb (differs_from "a") w2 = true)
    by (revert Hw2; apply forallb_sub; vm_compute; reflexivity).
  assert (P2 : forallb (differs_from "p") w2 = true)
    by (revert Hw2; apply forallb_sub; vm_compute; reflexivity).
  assert (Hl : lower sfx = ["a"; "m"]%char \/ lower sfx = ["p"; "m"]%char).
  { unfold am_pm_suffixes in Hsfx. simpl in Hsfx.
    repeat (destruct Hsfx as [<-|Hsfx]; [vm_compute; auto|]). destruct Hsfx. }
  rewrite !lower_app, Ls, L1, L2.
  change (lit "am") with ["a"; "m"]%char. change (lit "pm") with ["p"; "m"]%char.
  rewrite (app_assoc s w1).
  destruct Hl as [-> | ->].
  - rewrite (replace_one "a" ["m"%char] (s ++ w1) w2);
      [|apply forallb_app_iff; auto|assumption].
    rewrite (replace_absent "p" ["m"%char] [] ((s ++ w1) ++ w2))
      by (repeat (apply forallb_app_iff; split); assumption).
    rewrite <- app_assoc. apply clock_text_cleaned; auto.
    apply forallb_app_iff; auto.
  - rewrite (replace_absent "a" ["m"%char] [] ((s ++ w1) ++ ["p"; "m"]%char ++ w2))
      by (repeat (apply forallb_app_iff; split); try assumption; reflexivity).
    rewrite (replace_one "p" ["m"%char] (s ++ w1) w2);
      [|apply forallb_app_iff; auto|assumption].
    rewrite <- app_assoc. apply clock_text_cleaned; auto.
    apply forallb_app_iff; auto.
Qed.

(** ** Texts in two-digit fields are accepted *)

Lemma match_regex_first it re s c r cs r' :
  hd_error (match_item it s) = Some (c, r) ->
  hd_error (match_regex re r) = Some (cs, r') ->
  hd_error (match_regex (it :: re) s) = Some (c ++ cs, r').
Proof.
  cbn [match_regex].
  destruct (match_item it s) as [|[c0 r0] l]; [discriminate|].
  intros H. inversion H; subst. cbn [flat_map fst snd].
  destruct (match_regex re r) as [|[cs0 r1] l']; [discriminate|].
  intros H'. inversion H'; subst. reflexivity.
Qed.

Lemma match_lit_first c r : hd_error (match_item (Lit c) (c :: r)) = Some ([], r).
Proof. cbn [match_item]. rewrite Ascii.eqb_refl. reflexivity. Qed.

Lemma match_hour_first h rest :
  h <= 23 ->
  hd_error (match_item re_H (fmt_02d h ++ rest)) = Some ([fmt_02d h], rest).
Proof.
  intros Hh. do 24 (destruct h as [|h]; [vm_compute; reflexivity|]). lia.
Qed.

Lemma match_minute_first m rest :
  m <= 59 ->
  hd_error (match_item re_M (fmt_02d m ++ rest)) = Some ([fmt_02d m], rest).
Proof.
  intros Hm. do 60 (destruct m as [|m]; [vm_compute; reflexivity|]). lia.
Qed.

Lemma match_second_first s rest :
  s <= 59 ->
  hd_error (match_item re_S (fmt_02d s ++ rest)) = Some ([fmt_02d s], rest).
Proof.
  intros Hs. do 60 (destruct s as [|s]; [vm_compute; reflexivity|]). lia.
Qed.

Lemma regex_fullmatch_first re s caps :
  hd_error (match_regex re s) = Some (caps, []) ->
  regex_fullmatch re s = Ok caps.
Proof.
  unfold regex_fullmatch.
  destruct (match_regex re s) as [|[c r] l]; [discriminate|].
  intros H. inversion H; subst. reflexivity.
Qed.

Lemma datetime_new_clock h m s :
  h <= 23 -> m <= 59 -> s <= 59 ->
  datetime_new 1900 1 1 h m s
  = Ok {| year := 1900; month := 1; day := 1;
          hour := h; minute := m; second := s |}.
Proof.
  intros Hh Hm Hs. unfold datetime_new.
  apply Nat.leb_le in Hh, Hm, Hs. rewrite Hh, Hm, Hs.
  assert (Hpre : (1 <=? 1900) && (1900 <=? 9999) && (1 <=? 1) && (1 <=? 12)
                 && (1 <=? 1) && (1 <=? days_in_month 1900 1) = true)
    by (vm_compute; reflexivity).
  rewrite Hpre. reflexivity.
Qed.

(** Every clock text in two-digit fields within range is accepted, and
    read as its fields. *)
Lemma clock_text_HMS_accepted h m s :
  h <= 23 -> m <= 59 -> s <= 59 ->
  strptime_HMS (clock_text_HMS h m s)
  = Ok {| year := 1900; month := 1; day := 1;
          hour := h; minute := m; second := s |}.
Proof.
  intros Hh Hm Hs. unfold strptime_HMS, clock_text_HMS, fmt_HMS.
  change (lit ":") with [":"%char]. cbn [app].
  rewrite (regex_fullmatch_first _ _ [fmt_02d h; fmt_02d m; fmt_02d s]).
  - cbn [bind].
    destruct (fmt_02d_two_digits h) as [_ [_ ->]]; [lia|].
    destruct (fmt_02d_two_digits m) as [_ [_ ->]]; [lia|].
    destruct (fmt_02d_two_digits s) as [_ [_ ->]]; [lia|].
    apply datetime_new_clock; assumption.
  - apply (match_regex_first _ _ _ [fmt_02d h] _ [fmt_02d m; fmt_02d s] []
             (match_hour_first h _ Hh)).
    apply (match_regex_first _ _ _ [] _ [fmt_02d m; fmt_02d s] []
             (match_lit_first _ _)).
    apply (match_regex_first _ _ _ [fmt_02d m] _ [fmt_02d s] []
             (match_minute_first m _ Hm)).
    apply (match_regex_first _ _ _ [] _ [fmt_02d s] []
             (match_lit_first _ _)).
    rewrite <- (app_nil_r (fmt_02d s)) at 1.
    apply (match_regex_first _ _ _ [fmt_02d s] _ [] []
             (match_second_first s _ Hs)).
    reflexivity.
Qed.

Lemma clock_text_HM_accepted h m :
  h <= 23 -> m <= 59 ->
  strptime_HM (clock_text_HM h m)
  = Ok {| year := 1900; month := 1; day := 1;
          hour := h; minute := m; second := 0 |}.
Proof.
  intros Hh Hm. unfold strptime_HM, clock_text_HM, fmt_HM.
  change (lit ":") with [":"%char]. cbn [app].
  rewrite (regex_fullmatch_first _ _ [fmt_02d h; fmt_02d m]).
  - cbn [bind].
    destruct (fmt_02d_two_digits h) as [_ [_ ->]]; [lia|].
    destruct (fmt_02d_two_digits m) as [_ [_ ->]]; [lia|].
    apply datetime_new_clock; [assumption|assumption|lia].
  - apply (match_regex_first _ _ _ [fmt_02d h] _ [fmt_02d m] []
             (match_hour_first h _ Hh)).
    apply (match_regex_first _ _ _ [] _ [fmt_02d m] []
             (match_lit_first _ _)).
    rewrite <- (app_nil_r (fmt_02d m)) at 1.
    apply (match_regex_first _ _ _ [fmt_02d m] _ [] []
             (match_minute_first m _ Hm)).
    reflexivity.
Qed.

Lemma two_digit_clock_texts_accepted h m s :
  h <= 23 -> m <= 59 -> s <= 59 ->
  accepted_clock_text (clock_text_HMS h m s)
  /\ accepted_clock_text (clock_text_HM h m).
Proof.
  intros Hh Hm Hs. split.
  - left. eexists. apply (clock_text_HMS_accepted h m s Hh Hm Hs).
  - right. eexists. apply (clock_text_HM_accepted h m Hh Hm).
Qed.

(* ================================================================== *)
(** * Substrings, and texts without blanks at the ends *)
(* ================================================================== *)

Lemma startswith_iff prefix : forall s,
  startswith s prefix = true <-> exists post, s = prefix ++ post.
Proof.
  induction prefix as [|p prefix IH]; simpl; intros s.
  - split; [eauto|reflexivity].
  - destruct s as [|c s].
    + split; [discriminate|]. intros [post H]. discriminate.
    + rewrite andb_true_iff, Ascii.eqb_eq, IH. split.
      * intros [-> [post ->]]. eauto.
      * intros [post H]. inversion H; subst. eauto.
Qed.

Lemma contains_iff needle : forall s,
  contains needle s = true <-> exists pre post, s = pre ++ needle ++ post.
Proof.
  induction s as [|c s IH]; simpl.
  - rewrite orb_false_r, startswith_iff. split.
    + intros [post H]. exists [], post. exact H.
    + intros [pre [post H]]. destruct pre as [|x pre]; [eauto|discriminate].
  - rewrite orb_true_iff, startswith_iff, IH. split.
    + intros [[post H]|[pre [post H]]].
      * exists [], post. exact H.
      * exists (c :: pre), post. rewrite H. reflexivity.
    + intros [pre [post H]]. destruct pre as [|x pre].
      * left. eauto.
      * right. inversion H; subst. eauto.
Qed.

Lemma same_letter_lower mid : forall needle,
  Forall2 same_letter mid needle <-> lower mid = lower needle.
Proof.
  induction mid as [|a mid IH]; intros [|b needle]; simpl.
  - split; [reflexivity|constructor].
  - split; [intros H; inversion H|discriminate].
  - split; [intros H; inversion H|discriminate].
  - split; intros H.
    + inversion H; subst. unfold same_letter in *. f_equal; [assumption|].
      apply IH. assumption.
    + injection H as Ha Hm. constructor; [exact Ha|apply IH; exact Hm].
Qed.

(** The test [needle in s.lower()] of the source, for a needle in lower
    case, is the occurrence of the needle when letter case is ignored. *)
Lemma contains_lower_iff needle s :
  lower needle = needle ->
  contains needle (lower s) = true <-> occurs_ignoring_case needle s.
Proof.
  intros Hn. rewrite contains_iff. unfold occurs_ignoring_case. split.
  - intros [pre' [post' H]]. unfold lower in H.
    apply map_eq_app in H as [pre [rest [-> [Hpre H]]]].
    apply map_eq_app in H as [mid [post [-> [Hmid Hpost]]]].
    exists pre, mid, post. split; [reflexivity|].
    apply same_letter_lower. unfold lower at 1. rewrite Hmid, Hn. reflexivity.
  - intros [pre [mid [post [-> H]]]]. apply same_letter_lower in H.
    exists (lower pre), (lower post). rewrite !lower_app, H, Hn. reflexivity.
Qed.

Lemma lstrip_suffix s : exists w, s = w ++ lstrip s.
Proof.
  induction s as [|c s [w IH]]; simpl.
  - exists []. reflexivity.
  - destruct (is_space c).
    + exists (c :: w). simpl. f_equal. exact IH.
    + exists []. reflexivity.
Qed.

Lemma lstrip_head_not_space s c t : lstrip s = c :: t -> is_space c = false.
Proof.
  induction s as [|x s IH]; simpl; [discriminate|].
  destruct (is_space x) eqn:Hx; [exact IH|].
  intros H. inversion H; subst. exact Hx.
Qed.

Lemma strip_trimmed s : trimmed (strip s).
Proof.
  unfold strip, rstrip. split; intros c t H.
  - destruct (lstrip_suffix (rev (lstrip s))) as [w Hw].
    apply (f_equal (@rev ascii)) in Hw.
    rewrite rev_involutive, rev_app_distr, H in Hw. simpl in Hw.
    apply (lstrip_head_not_space s c _ Hw).
  - apply (f_equal (@rev ascii)) in H.
    rewrite rev_involutive, rev_app_distr in H. simpl in H.
    apply (lstrip_head_not_space _ c _ H).
Qed.

Lemma text_of_cell_trimmed c : trimmed (text_of_cell c).
Proof.
  destruct c as [s|]; simpl; [apply strip_trimmed|].
  split; intros c t H; [discriminate|]. destruct t; discriminate.
Qed.

(** ** Trimming keeps the occurrences of a trimmed needle *)

Lemma lstrip_app_not_space a c b :
  is_space c = false -> lstrip (a ++ c :: b) = lstrip a ++ c :: b.
Proof.
  intros Hc. induction a as [|x a IH]; simpl.
  - rewrite Hc. reflexivity.
  - destruct (is_space x); [exact IH|reflexivity].
Qed.

Lemma rstrip_app_not_space a c b :
  is_space c = false -> rstrip (a ++ c :: b) = a ++ c :: rstrip b.
Proof.
  intros Hc. unfold rstrip.
  rewrite rev_app_distr. simpl. rewrite <- app_assoc. simpl.
  rewrite (lstrip_app_not_space _ _ _ Hc).
  rewrite rev_app_distr. simpl. rewrite rev_involutive, <- app_assoc.
  reflexivity.
Qed.

Lemma strip_around pre c mid d post :
  is_space c = false -> is_space d = false ->
  strip (pre ++ c :: mid ++ d :: post)
  = lstrip pre ++ c :: mid ++ d :: rstrip post.
Proof.
  intros Hc Hd. unfold strip. rewrite (lstrip_app_not_space _ _ _ Hc).
  change (lstrip pre ++ c :: mid ++ d :: post)
    with (lstrip pre ++ (c :: mid) ++ d :: post).
  rewrite !app_assoc. rewrite (rstrip_app_not_space _ _ _ Hd).
  rewrite <- !app_assoc. reflexivity.
Qed.

Lemma strip_single pre c post :
  is_space c = false ->
  strip (pre ++ c :: post) = lstrip pre ++ c :: rstrip post.
Proof.
  intros Hc. unfold strip. rewrite (lstrip_app_not_space _ _ _ Hc).
  apply (rstrip_app_not_space _ _ _ Hc).
Qed.

Lemma rstrip_prefix s : exists w, s = rstrip s ++ w.
Proof.
  unfold rstrip. destruct (lstrip_suffix (rev s)) as [w Hw].
  exists (rev w). rewrite <- rev_app_distr, <- Hw, rev_involutive. reflexivity.
Qed.

Lemma strip_infix s : exists w1 w2, s = w1 ++ strip s ++ w2.
Proof.
  unfold strip. destruct (lstrip_suffix s) as [w1 H1].
  destruct (rstrip_prefix (lstrip s)) as [w2 H2].
  exists w1, w2. rewrite <- H2. exact H1.
Qed.

Lemma is_space_lower c : is_space (lower_char c) = is_space c.
Proof.
  assert (H : sub (fun c => true)
                  (fun c => Bool.eqb (is_space (lower_char c)) (is_space c)) = true)
    by (vm_compute; reflexivity).
  apply Bool.eqb_prop. apply (sub_sound _ _ H c). reflexivity.
Qed.

Lemma same_letter_space a b : same_letter a b -> is_space a = is_space b.
Proof.
  unfold same_letter. intros H.
  rewrite <- (is_space_lower a), <- (is_space_lower b), H. reflexivity.
Qed.

(** A needle with no blank at either end occurs in the trimmed text
    exactly when it occurs in the text. *)
Lemma occurs_strip needle s :
  needle <> [] -> trimmed needle ->
  occurs_ignoring_case needle (strip s) <-> occurs_ignoring_case needle s.
Proof.
  intros Hne [Hfirst Hlast]. split.
  - intros [pre [mid [post [H HF]]]].
    destruct (strip_infix s) as [w1 [w2 Hs]]. rewrite H in Hs.
    exists (w1 ++ pre), mid, (post ++ w2). split; [|exact HF].
    rewrite Hs, <- !app_assoc. reflexivity.
  - intros [pre [mid [post [-> HF]]]].
    destruct needle as [|n0 needle]; [congruence|].
    inversion HF as [|c n0' mid' needle' Hc HF']; subst.
    assert (Sc : is_space c = false).
    { rewrite (same_letter_space _ _ Hc). apply (Hfirst n0 needle eq_refl). }
    destruct (exists_last (l := n0 :: needle)) as [nb [nl Hn]]; [discriminate|].
    destruct mid' as [|m1 mid'].
    + inversion HF'; subst. simpl.
      rewrite (strip_single _ _ _ Sc).
      exists (lstrip pre), [c], (rstrip post). split; [reflexivity|exact HF].
    + destruct (exists_last (l := m1 :: mid')) as [mb [d Hm]]; [discriminate|].
      assert (Sd : is_space d = false).
      { assert (HF2 : Forall2 same_letter ((c :: mb) ++ [d]) (nb ++ [nl])).
        { rewrite <- Hn. simpl. rewrite <- Hm. exact HF. }
        apply Forall2_app_inv_l in HF2 as [l1 [l2 [_ [H2 E]]]].
        inversion H2 as [|? x ? ? Hd Hnil]; subst. inversion Hnil; subst.
        apply app_inj_tail in E as [_ <-].
        rewrite (same_letter_space _ _ Hd). apply (Hlast nl nb Hn). }
      rewrite Hm. simpl. rewrite <- app_assoc. simpl.
      rewrite (strip_around _ _ _ _ _ Sc Sd).
      exists (lstrip pre), (c :: mb ++ [d]), (rstrip post).
      split; [simpl; rewrite <- app_assoc; reflexivity|].
      rewrite <- Hm. exact HF.
Qed.

Lemma music_end_trimmed : lit "music end" <> [] /\ trimmed (lit "music end").
Proof.
  split; [discriminate|]. split; intros c t H.
  - inversion H. reflexivity.
  - change (lit "music end") with (lit "music en" ++ ["d"%char]) in H.
    apply app_inj_tail in H as [_ <-]. reflexivity.
Qed.

(** The test of the source on an event is the property of its row. *)
Lemma notes_music_end_row tz date_str flag row e :
  row_event tz date_str flag row e ->
  notes_music_end e = true <-> row_notes_music_end row.
Proof.
  intros [_ [_ [_ Hobs]]]. unfold notes_music_end, row_notes_music_end.
  rewrite contains_lower_iff by reflexivity. rewrite Hobs.
  destruct music_end_trimmed as [Hne Htr].
  destruct (observation row) as [s|]; simpl.
  - rewrite (occurs_strip _ s Hne Htr). split.
    + intros H. exists s. auto.
    + intros [s' [Hs H]]. inversion Hs; subst. exact H.
  - split.
    + intros [pre [mid [post [H HF]]]].
      destruct pre; [|discriminate]. destruct mid; [|discriminate].
      inversion HF.
    + intros [s [Hs _]]. discriminate.
Qed.

(* ================================================================== *)
(** * [load_music_schedule] *)
(* ================================================================== *)

Lemma find_first {A} (f : A -> bool) pre e post :
  f e = true -> (forall x, In x pre -> f x = false) ->
  find f (pre ++ e :: post) = Some e.
Proof.
  intros He. induction pre as [|x pre IH]; simpl; intros Hpre.
  - rewrite He. reflexivity.
  - rewrite (Hpre x) by auto. apply IH. intros y Hy. apply Hpre. auto.
Qed.

Lemma find_absent {A} (f : A -> bool) l :
  (forall x, In x l -> f x = false) -> find f l = None.
Proof.
  induction l as [|x l IH]; simpl; intros H; [reflexivity|].
  rewrite (H x) by auto. apply IH. intros y Hy. apply H. auto.
Qed.

Lemma last_is_last {A} (l : list A) (d : A) :
  l <> [] -> exists pre, l = pre ++ [last l d].
Proof.
  intros Hne. destruct (exists_last Hne) as [pre [x ->]].
  exists pre. rewrite last_last. reflexivity.
Qed.

Lemma scan_session_started events : forall t,
  fst (scan_session events (Some t)) = Some t.
Proof.
  induction events as [|e events IH]; simpl; intros t; [reflexivity|].
  destruct (contains _ _); [reflexivity|apply IH].
Qed.

(** The start the loop finds is the first label among the events it
    visits: those up to the first note of the end of the music. *)
Lemma scan_session_start events :
  fst (scan_session events None) = first_labelled (through_music_end events).
Proof.
  unfold first_labelled.
  induction events as [|e events IH]; simpl; [reflexivity|].
  unfold notes_music_end.
  destruct (truthy (e_song e)) eqn:Hs;
    destruct (contains (lit "music end") (lower (e_obs e))) eqn:Hc;
    simpl; rewrite ?Hs; simpl; try reflexivity.
  - apply scan_session_started.
  - exact IH.
Qed.

Lemma scan_session_end events : forall st,
  snd (scan_session events st)
  = option_map e_time (find notes_music_end events).
Proof.
  induction events as [|e events IH]; simpl; intros st; [reflexivity|].
  unfold notes_music_end at 1.
  destruct (contains (lit "music end") (lower (e_obs e))); [reflexivity|].
  apply IH.
Qed.

Lemma nan_is_no_time :
  time_obj_of (cleaned_time_str (strip (lit "nan"))) = Raise ValueError.
Proof. vm_compute. reflexivity. Qed.

Section ScheduleLoader.

Variable Value : Type.
Variable tz_localize : datetime -> option Timestamp.
Variable date_str : str.
Variable is_afternoon : bool.

Let row_time' := row_time tz_localize date_str is_afternoon.
Let usable_rows' := usable_rows tz_localize date_str is_afternoon.
Let row_event' := row_event tz_localize date_str is_afternoon.

Lemma blank_row_unusable row :
  time_str row = None -> row_time' row = Raise ValueError.
Proof.
  unfold row_time', row_time, parse_time. intros ->. simpl str_of_cell.
  rewrite nan_is_no_time. reflexivity.
Qed.

(** The loop over the rows never raises: it returns one event per usable
    row, in file order. *)
Lemma all_events_of_spec df :
  exists events,
    all_events_of tz_localize df date_str is_afternoon = Ok events
    /\ Forall2 row_event' (usable_rows' df) events.
Proof.
  induction df as [|row df [events [IH HF]]].
  - exists []. split; [reflexivity|constructor].
  - unfold usable_rows', usable_rows in *. cbn [all_events_of filter].
    unfold row_time at 1.
    destruct (parse_time tz_localize (strip (str_of_cell (time_str row)))
                date_str is_afternoon) as [t|e] eqn:Ht.
    + rewrite IH. cbn [bind]. eexists. split; [reflexivity|].
      constructor; [|exact HF].
      unfold row_event', row_event, row_time.
      cbn [e_time e_song e_score e_obs]. auto.
    + apply parse_time_raises in Ht. subst e.
      cbn [is_ValueError_or_TypeError]. exists events. auto.
Qed.

Lemma dropna_keeps_usable row :
  (match time_str row, song_artist row, score row, observation row with
   | None, None, None, None => false
   | _, _, _, _ => true
   end) = false ->
  parse_time tz_localize (strip (str_of_cell (time_str row))) date_str is_afternoon
  = Raise ValueError.
Proof.
  intros H. apply blank_row_unusable.
  destruct (time_str row); [discriminate|reflexivity].
Qed.

Lemma usable_rows_dropna df : usable_rows' (dropna_all df) = usable_rows' df.
Proof.
  unfold usable_rows', usable_rows, dropna_all.
  induction df as [|row df IH]; [reflexivity|].
  cbn [filter].
  destruct (match time_str row, song_artist row, score row, observation row with
            | None, None, None, None => false
            | _, _, _, _ => true
            end) eqn:Hk.
  - cbn [filter]. rewrite IH. reflexivity.
  - unfold row_time at 2. rewrite (dropna_keeps_usable row Hk). exact IH.
Qed.

Lemma all_events_of_dropna df :
  all_events_of tz_localize (dropna_all df) date_str is_afternoon
  = all_events_of tz_localize df date_str is_afternoon.
Proof.
  unfold dropna_all.
  induction df as [|row df IH]; [reflexivity|].
  cbn [filter all_events_of].
  destruct (match time_str row, song_artist row, score row, observation row with
            | None, None, None, None => false
            | _, _, _, _ => true
            end) eqn:Hk.
  - cbn [all_events_of]. rewrite IH. reflexivity.
  - rewrite (dropna_keeps_usable row Hk). exact IH.
Qed.

(** Removing a row whose time does not parse changes neither list. *)
Lemma usable_rows_skip r1 bad r2 :
  (forall t, row_time' bad <> Ok t) ->
  usable_rows' (r1 ++ bad :: r2) = usable_rows' (r1 ++ r2).
Proof.
  intros Hbad. unfold usable_rows', usable_rows.
  rewrite !filter_app. cbn [filter]. fold row_time'.
  destruct (row_time' bad) as [t|e]; [destruct (Hbad t); reflexivity|reflexivity].
Qed.

Lemma all_events_of_skip r1 bad r2 :
  (forall t, row_time' bad <> Ok t) ->
  all_events_of tz_localize (r1 ++ bad :: r2) date_str is_afternoon
  = all_events_of tz_localize (r1 ++ r2) date_str is_afternoon.
Proof.
  intros Hbad. induction r1 as [|row r1 IH]; cbn [app all_events_of].
  - unfold row_time', row_time in Hbad.
    destruct (parse_time _ _ _ _) as [t|e] eqn:Ht; [destruct (Hbad t); reflexivity|].
    apply parse_time_raises in Ht. subst. reflexivity.
  - rewrite IH. reflexivity.
Qed.

End ScheduleLoader.

Section LoadSchedule.

Variable Value : Type.
Variable tz_localize : datetime -> option Timestamp.

(** What a loaded schedule is made of: the events of the usable rows of
    the frame, their annotations, and the two bounds the scan leaves. *)
Lemma load_music_schedule_inv (file : File Value) date_str path sched :
  load_music_schedule tz_localize file date_str path = Ok (Some sched) ->
  exists df first events,
    read_schedule file = Frame df
    /\ Forall2 (row_event tz_localize date_str (afternoon_path path))
               (usable_rows tz_localize date_str (afternoon_path path) df)
               (first :: events)
    /\ annotations sched = map annotation_of (first :: events)
    /\ music_start sched = first_labelled (through_music_end (first :: events))
    /\ music_end sched
       = Some (match find notes_music_end (first :: events) with
               | Some e => e_time e
               | None => e_time (last (first :: events) first)
               end).
Proof.
  intros H. unfold load_music_schedule in H.
  destruct (f_exists file) eqn:Hex; simpl in H; [|discriminate].
  destruct (read_schedule file) as [|df] eqn:Hread; [discriminate|].
  destruct (dropna_all df) as [|r0 rs] eqn:Hdrop; [discriminate|].
  rewrite <- Hdrop in H.
  fold (afternoon_path path) in H.
  destruct (all_events_of_spec tz_localize date_str (afternoon_path path)
              (dropna_all df)) as [all_events [Hev HF]].
  rewrite usable_rows_dropna in HF.
  rewrite Hev in H. cbn [bind] in H.
  destruct all_events as [|first events]; [discriminate|].
  pose proof (scan_session_start (first :: events)) as Hs.
  pose proof (scan_session_end (first :: events) None) as He.
  destruct (scan_session (first :: events) None) as [st en].
  simpl fst in Hs. simpl snd in He.
  inversion H; subst sched; clear H.
  exists df, first, events.
  cbn [annotations music_start music_end].
  split; [reflexivity|]. split; [exact HF|]. split; [reflexivity|].
  split; [exact Hs|].
  rewrite He. destruct (find notes_music_end (first :: events)); reflexivity.
Qed.

(** Loading a schedule never raises. *)
Lemma load_music_schedule_total (file : File Value) date_str path :
  exists r, load_music_schedule tz_localize file date_str path = Ok r.
Proof.
  unfold load_music_schedule.
  destruct (f_exists file); simpl; [|eauto].
  destruct (read_schedule file) as [|df]; [eauto|].
  destruct (dropna_all df) as [|r0 rs] eqn:Hdrop; [eauto|].
  rewrite <- Hdrop.
  destruct (all_events_of_spec tz_localize date_str
              (contains (lit "afternoon") (lower path))
              (dropna_all df)) as [all_events [Hev _]].
  rewrite Hev. simpl.
  destruct all_events as [|first events]; [eauto|].
  destruct (scan_session (first :: events) None) as [st en]. eauto.
Qed.

End LoadSchedule.

(** ** The start of the window, event by event *)

Lemma first_labelled_found pre e post :
  truthy (e_song e) = true ->
  (forall x, In x pre -> truthy (e_song x) = false /\ notes_music_end x = false) ->
  first_labelled (through_music_end (pre ++ e :: post)) = Some (e_time e).
Proof.
  intros He. unfold first_labelled.
  induction pre as [|x pre IH]; intros Hpre; cbn [app through_music_end].
  - destruct (notes_music_end e); cbn [find]; rewrite He; reflexivity.
  - destruct (Hpre x (or_introl eq_refl)) as [Hx Hn]. rewrite Hn.
    cbn [find]. rewrite Hx. apply IH. intros y Hy. apply Hpre. right. exact Hy.
Qed.

Lemma first_labelled_cut pre e post :
  notes_music_end e = true ->
  (forall x, In x (pre ++ [e]) -> truthy (e_song x) = false) ->
  first_labelled (through_music_end (pre ++ e :: post)) = None.
Proof.
  intros He. unfold first_labelled.
  induction pre as [|x pre IH]; intros Hpre; cbn [app through_music_end].
  - rewrite He. cbn [find]. rewrite (Hpre e (or_introl eq_refl)). reflexivity.
  - destruct (notes_music_end x); cbn [find];
      rewrite (Hpre x (or_introl eq_refl)); [reflexivity|].
    apply IH. intros y Hy. apply Hpre. right. exact Hy.
Qed.

Lemma through_music_end_incl events x :
  In x (through_music_end events) -> In x events.
Proof.
  induction events as [|e events IH]; cbn [through_music_end]; [tauto|].
  destruct (notes_music_end e); intros [->|H]; simpl; auto. destruct H.
Qed.

Lemma first_labelled_none events :
  (forall x, In x events -> truthy (e_song x) = false) ->
  first_labelled (through_music_end events) = None.
Proof.
  intros H. unfold first_labelled. rewrite find_absent; [reflexivity|].
  intros x Hx. apply H, through_music_end_incl, Hx.
Qed.

Lemma truthy_row_label tz date_str flag row e :
  row_event tz date_str flag row e ->
  truthy (e_song e) = true <-> row_has_label row.
Proof.
  intros [_ [Hs _]]. unfold row_has_label. rewrite <- Hs.
  destruct (e_song e); simpl; split; congruence.
Qed.

(* ================================================================== *)
(** * Events, rows and annotations *)
(* ================================================================== *)

Lemma Forall2_in_right {A B} (R : A -> B -> Prop) l l' y :
  Forall2 R l l' -> In y l' -> exists x, In x l /\ R x y.
Proof.
  induction 1 as [|x y' l l' HR HF IH]; simpl; [tauto|].
  intros [<-|Hy]; [eauto|]. destruct (IH Hy) as [x' [Hx HRx]]. eauto.
Qed.

Lemma Forall2_map_right {A B C} (R : A -> C -> Prop) (f : B -> C) l l' :
  Forall2 (fun a b => R a (f b)) l l' -> Forall2 R l (map f l').
Proof. induction 1; simpl; constructor; auto. Qed.

Section ParseTimeShape.

Variable tz_localize : datetime -> option Timestamp.

(** What a successful [parse_time] went through: the clock time read from
    the cleaned text, and the naive date-time that was localised. *)
Lemma parse_time_inv time_str date_str is_pm ts :
  parse_time tz_localize time_str date_str is_pm = Ok ts ->
  exists time_obj dt_naive,
    time_obj_of (cleaned_time_str time_str) = Ok time_obj
    /\ tz_localize dt_naive = Some ts
    /\ hour dt_naive = (if is_pm then pm_adjusted (t_hour time_obj)
                        else t_hour time_obj)
    /\ minute dt_naive = t_minute time_obj
    /\ second dt_naive = t_second time_obj.
Proof.
  unfold parse_time.
  destruct (time_obj_of _) as [t|] eqn:Ht; [|discriminate]. cbn [bind].
  destruct (strptime_Ymd_HMS _) as [dt|] eqn:Hdt; [|discriminate]. cbn [bind].
  unfold pd_Timestamp. destruct (tz_localize dt) as [ts'|] eqn:Htz; [|discriminate].
  intros H. inversion H; subst ts'. clear H.
  destruct (time_obj_of_bounds _ _ Ht) as [Hh [Hm Hs]].
  apply strptime_Ymd_HMS_reads_clock in Hdt as [Eh [Em Es]]; try assumption.
  - exists t, dt. repeat split; try assumption.
    rewrite Eh. unfold pm_adjusted.
    destruct is_pm; simpl; [|reflexivity].
    destruct ((1 <=? t_hour t) && (t_hour t <=? 11)); reflexivity.
  - destruct (is_pm && (1 <=? t_hour t) && (t_hour t <=? 11)) eqn:Hc; [|exact Hh].
    apply andb_true_iff in Hc as [_ Hc]. apply Nat.leb_le in Hc. lia.
Qed.

End ParseTimeShape.

Lemma annotation_of_text e :
  a_text (annotation_of e) = composed_text (e_song e) (e_score e) (e_obs e).
Proof.
  unfold annotation_of, composed_text. cbn [a_text].
  destruct (e_song e), (e_score e), (e_obs e); reflexivity.
Qed.

Lemma trimmed_between a mid b :
  a <> [] -> b <> [] -> trimmed a -> trimmed b -> trimmed (a ++ mid ++ b).
Proof.
  intros Ha Hb [Fa _] [_ Lb]. split; intros c t H.
  - destruct a as [|x a]; [congruence|]. inversion H; subst.
    apply (Fa c a eq_refl).
  - destruct (exists_last Hb) as [b' [d ->]].
    rewrite !app_assoc in H. apply app_inj_tail in H as [_ <-].
    apply (Lb d b' eq_refl).
Qed.

Lemma trimmed_score_part s : trimmed (lit "(Score: " ++ s ++ lit ")").
Proof.
  split; intros c t H.
  - inversion H. reflexivity.
  - change (lit ")") with [")"%char] in H. rewrite app_assoc in H.
    apply app_inj_tail in H as [_ <-]. reflexivity.
Qed.

Lemma score_part_not_empty s : lit "(Score: " ++ s ++ lit ")" <> [].
Proof. unfold lit. simpl. discriminate. Qed.

(** The composed text has no blank, hence no line break, at either end. *)
Lemma composed_text_trimmed label sc obs :
  trimmed label -> trimmed sc -> trimmed obs ->
  trimmed (composed_text label sc obs).
Proof.
  intros Hl Hs Ho. unfold composed_text.
  pose proof (trimmed_score_part sc) as Hp.
  pose proof (score_part_not_empty sc) as Np.
  destruct label as [|l0 label], sc as [|s0 sc], obs as [|o0 obs];
    cbv beta iota zeta; try assumption.
  - apply (trimmed_between _ [newline] _); try assumption; discriminate.
  - apply (trimmed_between _ [newline] _); try assumption; discriminate.
  - apply (trimmed_between _ [newline] _); try assumption; discriminate.
  - rewrite (app_assoc (lit "(Score: " ++ (s0 :: sc) ++ lit ")")).
    rewrite (app_assoc [newline]).
    apply (trimmed_between _ _ _); try assumption; discriminate.
Qed.

Lemma trimmed_no_line_break_at_ends s :
  trimmed s -> (forall t, s <> newline :: t) /\ (forall t, s <> t ++ [newline]).
Proof.
  intros [F L]. split; intros t H.
  - specialize (F _ _ H). discriminate.
  - specialize (L _ _ H). discriminate.
Qed.

Section LoadScheduleShape.

Variable Value : Type.
Variable tz_localize : datetime -> option Timestamp.

(** [load_music_schedule] with the dropping of blank rows left out: a
    blank row has no time and is skipped by the loop anyway. *)
Lemma load_music_schedule_eq (file : File Value) date_str path :
  load_music_schedule tz_localize file date_str path
  = if negb (f_exists file) then Ok None else
    match read_schedule file with
    | ReadError => Ok None
    | Frame df =>
        all_events <- all_events_of tz_localize df date_str (afternoon_path path) ;;
        match all_events with
        | [] => Ok None
        | first :: _ =>
            let '(first_song_start_time, final_end_time) :=
              scan_session all_events None in
            Ok (Some {| annotations := map annotation_of all_events;
                        music_start := first_song_start_time;
                        music_end :=
                          match final_end_time with
                          | None => Some (e_time (last all_events first))
                          | Some t => Some t
                          end |})
        end
    end.
Proof.
  unfold load_music_schedule. fold (afternoon_path path).
  destruct (negb (f_exists file)); [reflexivity|].
  destruct (read_schedule file) as [|df]; [reflexivity|].
  rewrite <- (all_events_of_dropna tz_localize date_str (afternoon_path path) df).
  destruct (dropna_all df) as [|r0 rs]; reflexivity.
Qed.

(** A readable frame with a usable row loads to a schedule. *)
Lemma load_music_schedule_some (file : File Value) date_str path df :
  read_schedule file = Frame df ->
  usable_rows tz_localize date_str (afternoon_path path) df <> [] ->
  exists sched,
    load_music_schedule tz_localize file date_str path = Ok (Some sched).
Proof.
  intros Hread Hne. rewrite load_music_schedule_eq.
  assert (Hex : f_exists file = true).
  { unfold read_schedule in Hread. destruct (f_exists file); [reflexivity|discriminate]. }
  rewrite Hex, Hread. cbn [negb].
  destruct (all_events_of_spec tz_localize date_str (afternoon_path path) df)
    as [events [Hev HF]].
  rewrite Hev. cbn [bind].
  destruct events as [|first events].
  - inversion HF as [Hnil|]. congruence.
  - destruct (scan_session (first :: events) None) as [st en]. eauto.
Qed.

End LoadScheduleShape.

(* ================================================================== *)
(** * Channels, charts and the session *)
(* ================================================================== *)

Section Session.

Variable Value : Type.
Variable tz_localize : datetime -> option Timestamp.
Variable mpl : Matplotlib Value.

Lemma glob_star_entries (folder : Folder Value) suffix f :
  In f (glob_star folder suffix) -> In f (entries folder).
Proof.
  unfold glob_star. destruct (has_magic _ || is_dir folder); [|intros []].
  intros H. apply filter_In in H as [H _]. exact H.
Qed.

Lemma experiment_date_of_total (files : list (File Value)) :
  exists r, experiment_date_of files = Ok r.
Proof.
  induction files as [|f files IH]; simpl; [eauto|].
  destruct (strptime_Ymd _) as [dt|e] eqn:H; [eauto|].
  apply strptime_Ymd_raises in H. subst. exact IH.
Qed.

Lemma experiment_date_of_no_date (files : list (File Value)) :
  (forall f, In f files -> forall dt, strptime_Ymd (date_token f) <> Ok dt) ->
  experiment_date_of files = Ok None.
Proof.
  induction files as [|f files IH]; simpl; intros H; [reflexivity|].
  fold (date_token f).
  destruct (strptime_Ymd (date_token f)) as [dt|e] eqn:Hd.
  - destruct (H f (or_introl eq_refl) dt Hd).
  - apply strptime_Ymd_raises in Hd. subst. simpl. apply IH.
    intros g Hg. apply H. auto.
Qed.

Lemma load_emotibit_data_total (folder : Folder Value) signals :
  exists data date, load_emotibit_data folder signals = Ok (data, date)
    /\ (date = None \/ date = Some [] -> data = []).
Proof.
  unfold load_emotibit_data.
  destruct (glob_star folder (lit ".csv")) as [|f files]; [eauto|].
  destruct (experiment_date_of_total (f :: files)) as [r ->]. cbn [bind].
  destruct r as [[|c d]|].
  - exists [], None. auto.
  - eexists _, _. split; [reflexivity|]. intros [H|H]; discriminate.
  - exists [], None. auto.
Qed.

(** ** The annotation loop *)

Lemma annotate_all_spec anns lo hi : forall level,
  Forall2 (fun a p => p_text p = a_text a /\ p_xy p = a_time a
                      /\ p_xytext p = a_time a)
          (filter (within lo hi) anns)
          (annotate_all anns lo hi level)
  /\ map p_level (annotate_all anns lo hi level)
     = seq level (length (filter (within lo hi) anns)).
Proof.
  induction anns as [|a anns IH]; intros level.
  - split; [constructor|reflexivity].
  - cbn [annotate_all filter].
    change ((lo <=? a_time a)%Z && (a_time a <=? hi)%Z) with (within lo hi a).
    destruct (within lo hi a); cbn [negb].
    + destruct (IH (level + 1)) as [HF HL]. split.
      * constructor; [cbn; auto|exact HF].
      * cbn [map p_level length seq]. rewrite HL, Nat.add_1_r. reflexivity.
    + apply IH.
Qed.

Lemma est_time_min_spec (df : Series Value) lo :
  est_time_min df = Some lo ->
  (exists v, In (Some lo, v) df)
  /\ (forall t v, In (Some t, v) df -> (lo <= t)%Z).
Proof.
  revert lo. induction df as [|[[t0|] v0] df IH]; simpl; intros lo H.
  - discriminate.
  - destruct (est_time_min df) as [m|] eqn:Hm.
    + inversion H; subst. destruct (IH m eq_refl) as [[v Hv] Hle]. split.
      * destruct (Z.min_spec t0 m) as [[_ ->]|[_ ->]]; eauto.
      * intros t v' [Heq|Hin]; [inversion Heq; subst; lia|].
        specialize (Hle _ _ Hin). lia.
    + inversion H; subst. split; [eauto|].
      intros t v' [Heq|Hin]; [inversion Heq; subst; lia|].
      exfalso. clear -Hm Hin. induction df as [|[[x|] y] df IHdf];
        simpl in *; [tauto| |].
      * destruct (est_time_min df); discriminate.
      * destruct Hin as [Heq|Hin]; [discriminate|auto].
  - destruct (IH lo H) as [[v Hv] Hle]. split; [eauto|].
    intros t v' [Heq|Hin]; [discriminate|eauto].
Qed.

Lemma est_time_max_spec (df : Series Value) hi :
  est_time_max df = Some hi ->
  (exists v, In (Some hi, v) df)
  /\ (forall t v, In (Some t, v) df -> (t <= hi)%Z).
Proof.
  revert hi. induction df as [|[[t0|] v0] df IH]; simpl; intros hi H.
  - discriminate.
  - destruct (est_time_max df) as [m|] eqn:Hm.
    + inversion H; subst. destruct (IH m eq_refl) as [[v Hv] Hle]. split.
      * destruct (Z.max_spec t0 m) as [[_ ->]|[_ ->]]; eauto.
      * intros t v' [Heq|Hin]; [inversion Heq; subst; lia|].
        specialize (Hle _ _ Hin). lia.
    + inversion H; subst. split; [eauto|].
      intros t v' [Heq|Hin]; [inversion Heq; subst; lia|].
      exfalso. clear -Hm Hin. induction df as [|[[x|] y] df IHdf];
        simpl in *; [tauto| |].
      * destruct (est_time_max df); discriminate.
      * destruct Hin as [Heq|Hin]; [discriminate|auto].
  - destruct (IH hi H) as [[v Hv] Hle]. split; [eauto|].
    intros t v' [Heq|Hin]; [discriminate|eauto].
Qed.

Lemma est_time_min_some (df : Series Value) :
  forallb (fun row => is_null (fst row)) df = false ->
  exists lo, est_time_min df = Some lo.
Proof.
  induction df as [|[[t|] v] df IH]; simpl; intros H.
  - discriminate.
  - destruct (est_time_min df); eauto.
  - auto.
Qed.

Lemma est_time_max_some (df : Series Value) :
  forallb (fun row => is_null (fst row)) df = false ->
  exists hi, est_time_max df = Some hi.
Proof.
  induction df as [|[[t|] v] df IH]; simpl; intros H.
  - discriminate.
  - destruct (est_time_max df); eauto.
  - auto.
Qed.

(** ** One chart *)

Lemma plot_and_save_signal_inv signal (df : Series Value) sd cm chart :
  plot_and_save_signal mpl signal df sd cm = Ok (Some chart) ->
  exists lo hi,
    est_time_min df = Some lo /\ est_time_max df = Some hi
    /\ c_label chart = signal /\ c_line chart = df /\ c_xlim chart = (lo, hi)
    /\ c_annotate chart = annotate_all (annotations_of sd) lo hi 0
    /\ c_axvspan chart
       = match sd with
         | Some s => match music_start s, music_end s with
                     | Some a, Some b => Some (a, b)
                     | _, _ => None
                     end
         | None => None
         end
    /\ c_annotation_lines chart
       = list_sum (map (fun item => count newline (a_text item) + 1)
                       (annotations_of sd)).
Proof.
  unfold plot_and_save_signal.
  destruct (is_empty df || _); [discriminate|].
  destruct (existsb _ df); [discriminate|].
  destruct (est_time_min df) as [lo|]; [|discriminate].
  destruct (est_time_max df) as [hi|]; [|discriminate].
  cbv zeta. destruct (existsb _ _); [discriminate|].
  destruct (figure_fails mpl _); [discriminate|].
  intros H. inversion H; subst; clear H. exists lo, hi. cbn.
  destruct sd as [s|]; cbn; repeat split; reflexivity.
Qed.

(** What is saved has the name of its channel. *)
Lemma plot_and_save_signal_names signal (df : Series Value) sd cm chart :
  plot_and_save_signal mpl signal df sd cm = Ok (Some chart) ->
  c_filename chart = c_label chart ++ lit "_plot.png"
  /\ c_title chart = (c_label chart, dict_get cm signal signal)
  /\ c_label chart = signal.
Proof.
  unfold plot_and_save_signal.
  destruct (is_empty df || _); [discriminate|].
  destruct (existsb _ df); [discriminate|].
  destruct (est_time_min df) as [lo|]; [|discriminate].
  destruct (est_time_max df) as [hi|]; [|discriminate].
  cbv zeta. destruct (existsb _ _); [discriminate|].
  destruct (figure_fails mpl _); [discriminate|].
  intros H. inversion H; subst; clear H. cbn. auto.
Qed.

(** A series with a valid instant is drawn, unless the library raises. *)
Lemma plot_and_save_signal_renders signal (df : Series Value) sd cm r :
  renderable df = true ->
  plot_and_save_signal mpl signal df sd cm = Ok r ->
  exists chart, r = Some chart.
Proof.
  unfold renderable, plot_and_save_signal. intros H.
  apply negb_true_iff in H. rewrite H.
  apply orb_false_iff in H as [_ H].
  destruct (est_time_min_some df H) as [lo ->].
  destruct (est_time_max_some df H) as [hi ->].
  destruct (existsb _ df); [discriminate|].
  cbv zeta. destruct (existsb _ _); [discriminate|].
  destruct (figure_fails mpl _); [discriminate|].
  intros E. inversion E; subst. eauto.
Qed.

Lemma plot_and_save_signal_skips signal (df : Series Value) sd cm :
  renderable df = false -> plot_and_save_signal mpl signal df sd cm = Ok None.
Proof.
  unfold renderable, plot_and_save_signal. intros H.
  apply negb_false_iff in H. rewrite H. reflexivity.
Qed.

(** ** The charts of a session *)

Lemma plot_all_labels (data : dict (Series Value)) sd : forall charts,
  plot_all mpl data sd = Ok charts ->
  map (@c_label Value) charts
  = map fst (filter (fun item => renderable (snd item)) data).
Proof.
  induction data as [|[signal df] data IH]; cbn [plot_all]; intros charts H.
  - inversion H; subst. reflexivity.
  - destruct (plot_and_save_signal mpl signal df sd CHANNELS) as [saved|] eqn:Hp;
      [|discriminate]. cbn [bind] in H.
    destruct (plot_all mpl data sd) as [rest|]; [|discriminate].
    cbn [bind] in H. inversion H; subst; clear H.
    cbn [filter snd]. destruct (renderable df) eqn:Hr.
    + destruct (plot_and_save_signal_renders signal df sd CHANNELS saved Hr Hp)
        as [chart ->].
      apply plot_and_save_signal_names in Hp as [_ [_ Hl]].
      cbn [map fst]. rewrite Hl, (IH rest eq_refl). reflexivity.
    + rewrite (plot_and_save_signal_skips signal df sd CHANNELS Hr) in Hp.
      inversion Hp; subst. apply (IH rest eq_refl).
Qed.

Lemma plot_all_in (data : dict (Series Value)) sd : forall charts chart,
  plot_all mpl data sd = Ok charts ->
  In chart charts ->
  exists signal df,
    In (signal, df) data
    /\ plot_and_save_signal mpl signal df sd CHANNELS = Ok (Some chart).
Proof.
  induction data as [|[signal df] data IH]; cbn [plot_all]; intros charts chart H Hin.
  - inversion H; subst. destruct Hin.
  - destruct (plot_and_save_signal mpl signal df sd CHANNELS) as [saved|] eqn:Hp;
      [|discriminate]. cbn [bind] in H.
    destruct (plot_all mpl data sd) as [rest|]; [|discriminate].
    cbn [bind] in H. inversion H; subst; clear H.
    assert (Hrest : In chart rest ->
                    exists signal0 df0,
                      In (signal0, df0) ((signal, df) :: data)
                      /\ plot_and_save_signal mpl signal0 df0 sd CHANNELS
                         = Ok (Some chart)).
    { intros Hr. destruct (IH rest chart eq_refl Hr) as [s0 [d0 [Hd Hc]]].
      exists s0, d0. split; [right; exact Hd|exact Hc]. }
    destruct saved as [c|]; [|exact (Hrest Hin)].
    destruct Hin as [->|Hin]; [|exact (Hrest Hin)].
    exists signal, df. split; [left; reflexivity|exact Hp].
Qed.

(** The charts of a session are drawn, channel after channel, against
    one schedule loaded once. *)
Lemma process_folder_inv (folder : Folder Value) charts :
  process_folder tz_localize mpl folder = Ok charts ->
  charts = [] \/
  exists file rest data date sd,
    glob_star folder schedule_marker = file :: rest
    /\ f_exists file = true
    /\ load_emotibit_data folder SIGNALS_TO_PLOT = Ok (data, Some date)
    /\ load_music_schedule tz_localize file date (folder_path folder) = Ok sd
    /\ plot_all mpl data sd = Ok charts.
Proof.
  unfold process_folder. fold schedule_marker.
  destruct (glob_star folder schedule_marker) as [|file rest]; [discriminate|].
  destruct (negb (is_dir folder)); [intros H; inversion H; auto|].
  destruct (f_exists file) eqn:Hex; simpl; [|intros H; inversion H; auto].
  destruct (makedirs_plots folder); [|discriminate]. cbn [bind].
  destruct (load_emotibit_data folder SIGNALS_TO_PLOT) as [[data date]|] eqn:Hl;
    [|discriminate]. cbn [bind].
  destruct date as [[|c d]|]; try (intros H; inversion H; auto; fail).
  cbn [bind].
  destruct (load_music_schedule tz_localize file (c :: d) (folder_path folder))
    as [sd|] eqn:Hs; [|discriminate]. cbn [bind].
  destruct data as [|item data]; [intros H; inversion H; auto|].
  intros H. right.
  exists file, rest, (item :: data), (c :: d), sd. auto.
Qed.

(** A session that completes with a chart had a directory at its path and
    no file in the place of [plots]. *)
Lemma process_folder_ready (folder : Folder Value) charts :
  process_folder tz_localize mpl folder = Ok charts -> charts <> [] ->
  is_dir folder = true /\ plots_is_file folder = false.
Proof.
  unfold process_folder.
  destruct (glob_star folder _) as [|file rest]; [discriminate|].
  destruct (is_dir folder); cbn [negb]; [|intros H; inversion H; congruence].
  destruct (f_exists file); cbn [negb]; [|intros H; inversion H; congruence].
  unfold makedirs_plots. destruct (plots_is_file folder); [discriminate|]. auto.
Qed.

(** A folder that lists no file with the schedule marker raises
    [IndexError], whatever else it holds. *)
Lemma process_folder_no_schedule (folder : Folder Value) :
  glob_star folder schedule_marker = [] ->
  process_folder tz_localize mpl folder = Raise IndexError.
Proof. unfold process_folder. fold schedule_marker. intros ->. reflexivity. Qed.

End Session.

(* ================================================================== *)
(** * Date texts *)
(* ================================================================== *)

Lemma str_eqb_eq a : forall b, str_eqb a b = true <-> a = b.
Proof.
  induction a as [|x a IH]; intros [|y b]; simpl; split; intros H;
    try reflexivity; try discriminate.
  - apply andb_true_iff in H as [Hx Ha]. apply Ascii.eqb_eq in Hx.
    apply IH in Ha. subst. reflexivity.
  - inversion H; subst. rewrite Ascii.eqb_refl. apply IH. reflexivity.
Qed.

Lemma existsb_str_eqb x l : existsb (str_eqb x) l = true <-> In x l.
Proof.
  rewrite existsb_exists. split.
  - intros [y [Hy H]]. apply str_eqb_eq in H. subst. exact Hy.
  - intros H. exists x. split; [exact H|]. apply str_eqb_eq. reflexivity.
Qed.

Lemma replace_char_filter c s : replace s [c] [] = filter (differs_from c) s.
Proof.
  unfold replace. induction s as [|x s IH]; [reflexivity|].
  cbn [replace_from startswith filter length Nat.sub]. unfold differs_from at 1.
  destruct (Ascii.eqb c x); cbn [andb negb app]; rewrite IH; reflexivity.
Qed.

Lemma filter_all {A} (p : A -> bool) l : forallb p l = true -> filter p l = l.
Proof.
  induction l as [|x l IH]; simpl; [reflexivity|].
  rewrite andb_true_iff. intros [-> H]. rewrite (IH H). reflexivity.
Qed.

Lemma class_members (p : ascii -> bool) c : p c = true -> In c (filter p all_ascii).
Proof. intros H. apply filter_In. split; [apply in_all_ascii|exact H]. Qed.

Ltac enumerate_chars :=
  repeat match goal with
  | H : Forall2 _ (_ :: _) _ |- _ => inversion H; clear H; subst
  | H : Forall2 _ [] _ |- _ => inversion H; clear H; subst
  end;
  repeat match goal with
  | H : _ _ = true |- _ =>
      apply class_members in H; vm_compute in H;
      repeat (destruct H as [<-|H]); [..|destruct H]
  end.

Lemma month_text_cases tm : captured_by re_m tm -> In tm month_texts.
Proof.
  intros [alt [Hin HF]]. cbn [alternatives re_m In] in Hin.
  apply existsb_str_eqb.
  repeat (destruct Hin as [<-|Hin]; [enumerate_chars; vm_compute; reflexivity|]).
  destruct Hin.
Qed.

Lemma day_text_cases td : captured_by re_d td -> In td day_texts.
Proof.
  intros [alt [Hin HF]]. cbn [alternatives re_d In] in Hin.
  apply existsb_str_eqb.
  repeat (destruct Hin as [<-|Hin]; [enumerate_chars; vm_compute; reflexivity|]).
  destruct Hin.
Qed.

Lemma field_texts_ok t :
  In t month_texts \/ In t day_texts -> field_text_ok t = true.
Proof.
  assert (H : forallb field_text_ok (month_texts ++ day_texts) = true)
    by (vm_compute; reflexivity).
  rewrite forallb_forall in H. intros Hin. apply H, in_or_app, Hin.
Qed.

Lemma field_text_facts t :
  field_text_ok t = true ->
  forallb date_char t = true /\ filter (differs_from "-") t = t
  /\ 1 <= length t <= 2.
Proof.
  unfold field_text_ok. intros H.
  apply andb_true_iff in H as [H H4]. apply andb_true_iff in H as [H H3].
  apply andb_true_iff in H as [H1 H2].
  apply Nat.leb_le in H3, H4. split; [exact H1|].
  split; [apply filter_all, H2|lia].
Qed.

Lemma year_text_facts alt tY :
  In alt (alternatives re_Y) -> Forall2 (fun p c => p c = true) alt tY ->
  length tY = 4 /\ forallb is_digit tY = true.
Proof.
  cbn [alternatives re_Y In]. intros [<-|[]] HF.
  repeat match goal with
  | H : Forall2 _ (_ :: _) _ |- _ => inversion H; clear H; subst
  | H : Forall2 _ [] _ |- _ => inversion H; clear H; subst
  end.
  split; [reflexivity|]. cbn [forallb].
  repeat match goal with H : is_digit _ = true |- _ => rewrite H; clear H end.
  reflexivity.
Qed.

(** A text that [%Y-%m-%d] accepts: four digits, a hyphen, a month text,
    a hyphen and a day text. *)
Lemma strptime_Ymd_shape s dt :
  strptime_Ymd s = Ok dt ->
  exists tY tm td,
    s = tY ++ "-"%char :: tm ++ "-"%char :: td
    /\ length tY = 4 /\ forallb is_digit tY = true
    /\ In tm month_texts /\ In td day_texts
    /\ datetime_new (int tY) (int tm) (int td) 0 0 0 = Ok dt.
Proof.
  unfold strptime_Ymd.
  destruct (regex_fullmatch fmt_Ymd s) as [caps|] eqn:Hm; cbn [bind]; [|discriminate].
  apply regex_fullmatch_sound in Hm. unfold fmt_Ymd in Hm.
  cbn [regex_lang re_Y re_m re_d] in Hm.
  destruct Hm as [tY [c1 [m1 [-> [-> [[aY [IY FY]] Hm]]]]]].
  destruct Hm as [m2 [-> Hm]].
  destruct Hm as [tm [c2 [m3 [-> [-> [Am Hm]]]]]].
  destruct Hm as [m4 [-> Hm]].
  destruct Hm as [td [c3 [m5 [-> [-> [Ad [-> ->]]]]]]].
  intros Hdt. exists tY, tm, td. rewrite app_nil_r.
  destruct (year_text_facts aY tY IY FY) as [LY DY].
  split; [reflexivity|]. split; [exact LY|]. split; [exact DY|].
  split; [apply month_text_cases, Am|]. split; [apply day_text_cases, Ad|].
  exact Hdt.
Qed.

Lemma digits_are_date_chars s :
  forallb is_digit s = true ->
  forallb date_char s = true /\ filter (differs_from "-") s = s.
Proof.
  intros H. split.
  - revert H. apply forallb_sub. vm_compute. reflexivity.
  - apply filter_all. revert H. apply forallb_sub. vm_compute. reflexivity.
Qed.

(** The date text of an accepted token: its three fields, one after the
    other. *)
Lemma date_text_fields tY tm td :
  forallb is_digit tY = true -> In tm month_texts -> In td day_texts ->
  replace (tY ++ "-"%char :: tm ++ "-"%char :: td) (lit "-") [] = tY ++ tm ++ td.
Proof.
  intros DY Hm Hd. change (lit "-") with ["-"%char].
  rewrite replace_char_filter.
  destruct (digits_are_date_chars tY DY) as [_ FY].
  destruct (field_text_facts tm (field_texts_ok tm (or_introl Hm))) as [_ [Fm _]].
  destruct (field_text_facts td (field_texts_ok td (or_intror Hd))) as [_ [Fd _]].
  rewrite filter_app. cbn [filter]. change (differs_from "-" "-") with false.
  cbn iota. rewrite filter_app. cbn [filter].
  change (differs_from "-" "-") with false. cbn iota.
  rewrite FY, Fm, Fd. reflexivity.
Qed.

Lemma match_year_first tY rest :
  length tY = 4 -> forallb is_digit tY = true ->
  hd_error (match_item re_Y (tY ++ rest)) = Some ([tY], rest).
Proof.
  destruct tY as [|a [|b [|c [|d [|e tY]]]]]; try discriminate. intros _.
  cbn [forallb]. rewrite !andb_true_iff. intros [Ha [Hb [Hc [Hd _]]]].
  cbn [match_item re_Y match_group flat_map match_alt app].
  rewrite Ha, Hb, Hc, Hd. reflexivity.
Qed.

Lemma match_month_first tm rest :
  In tm month_texts -> length tm = 2 ->
  hd_error (match_item re_m (tm ++ rest)) = Some ([tm], rest).
Proof.
  intros Hin Hlen. unfold month_texts in Hin. cbn [map In] in Hin.
  repeat (destruct Hin as [<-|Hin];
          [first [vm_compute; reflexivity | vm_compute in Hlen; discriminate]|]).
  destruct Hin.
Qed.

Lemma match_day_first td rest :
  In td day_texts -> length td = 2 ->
  hd_error (match_item re_d (td ++ rest)) = Some ([td], rest).
Proof.
  intros Hin Hlen. unfold day_texts in Hin. cbn [map In] in Hin.
  repeat (destruct Hin as [<-|Hin];
          [first [vm_compute; reflexivity | vm_compute in Hlen; discriminate]|]).
  destruct Hin.
Qed.

Lemma match_blank_first h rest :
  h <= 23 ->
  hd_error (match_item WsPlus (" "%char :: fmt_02d h ++ rest))
  = Some ([], fmt_02d h ++ rest).
Proof.
  intros Hh. do 24 (destruct h as [|h]; [vm_compute; reflexivity|]). lia.
Qed.

(** Reading back a date text in padded fields followed by a clock text in
    two-digit fields gives the fields that were written. *)
Lemma strptime_Ymd_HMS_padded tY tm td h m s :
  length tY = 4 -> forallb is_digit tY = true ->
  In tm month_texts -> length tm = 2 ->
  In td day_texts -> length td = 2 ->
  h <= 23 -> m <= 59 -> s <= 59 ->
  strptime_Ymd_HMS ((tY ++ tm ++ td) ++ lit " " ++ fmt_02d h ++ lit ":"
                      ++ fmt_02d m ++ lit ":" ++ fmt_02d s)
  = datetime_new (int tY) (int tm) (int td) h m s.
Proof.
  intros LY DY Hm Lm Hd Ld Hh Hmi Hs. unfold strptime_Ymd_HMS, fmt_Ymd_HMS.
  change (lit ":") with [":"%char]. change (lit " ") with [" "%char].
  repeat rewrite <- app_assoc. cbn [app].
  rewrite (regex_fullmatch_first _ _ [tY; tm; td; fmt_02d h; fmt_02d m; fmt_02d s]).
  - cbn [bind].
    destruct (fmt_02d_two_digits h) as [_ [_ ->]]; [lia|].
    destruct (fmt_02d_two_digits m) as [_ [_ ->]]; [lia|].
    destruct (fmt_02d_two_digits s) as [_ [_ ->]]; [lia|].
    reflexivity.
  - apply (match_regex_first _ _ _ [tY] _ [tm; td; fmt_02d h; fmt_02d m; fmt_02d s] []
             (match_year_first tY _ LY DY)).
    apply (match_regex_first _ _ _ [tm] _ [td; fmt_02d h; fmt_02d m; fmt_02d s] []
             (match_month_first tm _ Hm Lm)).
    apply (match_regex_first _ _ _ [td] _ [fmt_02d h; fmt_02d m; fmt_02d s] []
             (match_day_first td _ Hd Ld)).
    apply (match_regex_first _ _ _ [] _ [fmt_02d h; fmt_02d m; fmt_02d s] []
             (match_blank_first h _ Hh)).
    apply (match_regex_first _ _ _ [fmt_02d h] _ [fmt_02d m; fmt_02d s] []
             (match_hour_first h _ Hh)).
    apply (match_regex_first _ _ _ [] _ [fmt_02d m; fmt_02d s] []
             (match_lit_first _ _)).
    apply (match_regex_first _ _ _ [fmt_02d m] _ [fmt_02d s] []
             (match_minute_first m _ Hmi)).
    apply (match_regex_first _ _ _ [] _ [fmt_02d s] []
             (match_lit_first _ _)).
    rewrite <- (app_nil_r (fmt_02d s)) at 1.
    apply (match_regex_first _ _ _ [fmt_02d s] _ [] []
             (match_second_first s _ Hs)).
    reflexivity.
Qed.

Lemma datetime_new_at_clock y mo d dt h m s :
  datetime_new y mo d 0 0 0 = Ok dt ->
  h <= 23 -> m <= 59 -> s <= 59 ->
  datetime_new y mo d h m s
  = Ok {| year := year dt; month := month dt; day := day dt;
          hour := h; minute := m; second := s |}.
Proof.
  unfold datetime_new. intros H Hh Hm Hs.
  apply Nat.leb_le in Hh, Hm, Hs. rewrite Hh, Hm, Hs.
  destruct ((1 <=? y) && (y <=? 9999) && (1 <=? mo) && (mo <=? 12)
            && (1 <=? d) && (d <=? days_in_month y mo)); [|discriminate].
  cbn [andb Nat.leb] in H |- *. inversion H; subst. reflexivity.
Qed.

Lemma pm_adjusted_bound h : h <= 23 -> pm_adjusted h <= 23.
Proof.
  unfold pm_adjusted. intros H.
  destruct (Nat.leb_spec 1 h); destruct (Nat.leb_spec h 11); cbn [andb]; lia.
Qed.


(* ================================================================== *)
(** * Sessions that differ in a schedule frame only *)
(* ================================================================== *)

Lemma Forall2_filter {A} (R : A -> A -> Prop) (p : A -> bool) l l' :
  (forall x y, R x y -> p x = p y) ->
  Forall2 R l l' -> Forall2 R (filter p l) (filter p l').
Proof.
  intros Hp. induction 1 as [|x y l l' Hxy HF IH]; cbn [filter]; [constructor|].
  rewrite (Hp x y Hxy). destruct (p y); [constructor; assumption|exact IH].
Qed.

Section Related.

Variable Value : Type.
Variable tz_localize : datetime -> option Timestamp.
Variable mpl : Matplotlib Value.
Variable path : str.

Let same := @same_for_session Value tz_localize path.

Lemma same_for_session_refl_list (l : list (File Value)) :
  Forall2 (same_for_session tz_localize path) l l.
Proof.
  induction l as [|f l IH]; constructor; [|exact IH].
  repeat split; reflexivity.
Qed.

Variables A B : Folder Value.
Hypothesis Hpath : folder_path A = folder_path B.
Hypothesis Hdir : is_dir A = is_dir B.
Hypothesis Hplots : plots_is_file A = plots_is_file B.
Hypothesis Hentries : Forall2 same (entries A) (entries B).

Lemma glob_star_related suffix :
  Forall2 same (glob_star A suffix) (glob_star B suffix).
Proof.
  unfold glob_star. rewrite Hpath, Hdir.
  destruct (has_magic _ || is_dir B); [|constructor].
  apply Forall2_filter; [|exact Hentries].
  intros f g [Hn _]. rewrite Hn. reflexivity.
Qed.

Lemma experiment_date_of_related (l l' : list (File Value)) :
  Forall2 same l l' -> experiment_date_of l = experiment_date_of l'.
Proof.
  induction 1 as [|f g l l' [Hn _] HF IH]; cbn [experiment_date_of]; [reflexivity|].
  rewrite Hn, IH. reflexivity.
Qed.

Lemma dataframes_of_related signals : forall acc,
  dataframes_of A signals acc = dataframes_of B signals acc.
Proof.
  induction signals as [|sg signals IH]; intros acc; cbn [dataframes_of];
    [reflexivity|].
  pose proof (glob_star_related (lit "_" ++ sg ++ lit ".csv")) as HF.
  destruct HF as [|f g l l' [_ [Hex [Hch _]]] _]; [apply IH|].
  unfold read_channel. rewrite Hex, Hch.
  destruct (if f_exists g then f_channel g else ReadError) as [|df]; [apply IH|].
  destruct (negb _ || _); [apply IH|].
  destruct (est_time_and_value df); apply IH.
Qed.

Lemma load_emotibit_data_related signals :
  load_emotibit_data A signals = load_emotibit_data B signals.
Proof.
  unfold load_emotibit_data.
  pose proof (glob_star_related (lit ".csv")) as HF.
  rewrite (experiment_date_of_related _ _ HF).
  destruct HF as [|f g l l' _ _]; [reflexivity|].
  rewrite dataframes_of_related. reflexivity.
Qed.

Lemma process_folder_related :
  folder_path A = path ->
  process_folder tz_localize mpl A = process_folder tz_localize mpl B.
Proof.
  intros HA. unfold process_folder, makedirs_plots.
  pose proof (glob_star_related (lit " Combined Observations.csv")) as HF.
  rewrite load_emotibit_data_related, <- Hdir, <- Hplots, <- Hpath.
  destruct HF as [|f g l l' [_ [Hex [_ Hload]]] _]; [reflexivity|].
  rewrite Hex. destruct (negb (is_dir A)); [reflexivity|].
  destruct (negb (f_exists g)); [reflexivity|].
  destruct (plots_is_file A); [reflexivity|]. cbn [bind].
  destruct (load_emotibit_data B SIGNALS_TO_PLOT) as [[data date]|];
    [|reflexivity]. cbn [bind].
  destruct date as [[|c d]|]; try reflexivity.
  rewrite HA, (Hload (c :: d)). reflexivity.
Qed.

End Related.

(* ================================================================== *)
(** * The model at work *)
(* ================================================================== *)

(** [strptime] reads fields without leading zeros and rejects a 61st
    second and a 24th hour. *)
Example strptime_clock_samples :
  strptime_HMS (lit "10:15:30")
  = Ok {| year := 1900; month := 1; day := 1;
          hour := 10; minute := 15; second := 30 |}
  /\ strptime_HM (lit "9:5")
     = Ok {| year := 1900; month := 1; day := 1;
             hour := 9; minute := 5; second := 0 |}
  /\ strptime_HMS (lit "10:15:61") = Raise ValueError
  /\ strptime_HM (lit "24:00") = Raise ValueError
  /\ strptime_Ymd (lit "2023-02-29") = Raise ValueError.
Proof. repeat split; vm_compute; reflexivity. Qed.

(** The matcher backtracks as the regular expression engine does: seven
    digits are read as a two-digit month and a one-digit day, six digits
    as one digit each. *)
Example strptime_backtracks :
  strptime_Ymd_HMS (lit "2024115 09:00:00")
  = Ok {| year := 2024; month := 11; day := 5;
          hour := 9; minute := 0; second := 0 |}
  /\ strptime_Ymd_HMS (lit "202411 09:00:00")
     = Ok {| year := 2024; month := 1; day := 1;
             hour := 9; minute := 0; second := 0 |}.
Proof. split; vm_compute; reflexivity. Qed.

Example replace_is_not_repeated :
  replace (lit "aamm 10:00 PM am") (lit "am") [] = lit "am 10:00 PM ".
Proof. vm_compute. reflexivity. Qed.

(** The scenario of the specification: three rows in a morning session. *)
Example three_rows_scenario :
  load_music_schedule Sample.est Sample.three_rows_file Sample.date_20240105
                      (lit "/data/S01 morning")
  = Ok (Some Sample.three_rows_schedule).
Proof. vm_compute. reflexivity. Qed.

(** The markers of the rows do not count: "9:05 PM" of a morning session
    is 09:05, and "9:05 am" of an afternoon session is 21:05. *)
Example markers_do_not_count :
  parse_time Sample.est (lit "9:05 PM") Sample.date_20240105 false
  = Ok (Sample.jan5 9 5)
  /\ parse_time Sample.est (lit "9:05 am") Sample.date_20240105 true
     = Ok (Sample.jan5 21 5).
Proof. split; vm_compute; reflexivity. Qed.

(** What stops a session: an invalid instant among the valid ones of a
    series, an annotation that is read as mathematics and rejected, a file
    in the place of the [plots] folder, no schedule file found. *)
Example session_failures :
  plot_and_save_signal Sample.agg (lit "HR") Sample.gappy_series None CHANNELS
  = Raise ConversionError
  /\ process_folder Sample.est Sample.agg MoreSamples.gappy_session
     = Raise ConversionError
  /\ process_folder Sample.est Sample.agg MoreSamples.braces_session
     = Raise ValueError
  /\ process_folder Sample.est Sample.agg MoreSamples.plots_taken_session
     = Raise FileExistsError
  /\ process_folder Sample.est Sample.agg MoreSamples.brackets_session
     = Raise IndexError.
Proof. repeat split; vm_compute; reflexivity. Qed.

(** Dollar signs make a line mathematics when they come in pairs and are
    not escaped. *)
Example is_math_text_samples :
  is_math_text (lit "${$") = true
  /\ is_math_text (lit "entry fee $5") = false
  /\ is_math_text (lit "\$5 or \$6") = false
  /\ is_math_text (lit "$5 or $6") = true.
Proof. repeat split; vm_compute; reflexivity. Qed.

(** A channel file whose last column is named [est_time] is passed over,
    and the other channels are loaded. *)
Example est_time_column_is_passed_over :
  exists data,
    load_emotibit_data MoreSamples.est_time_session SIGNALS_TO_PLOT
    = Ok (data, Some Sample.date_20240105)
    /\ map fst data = [lit "EA"].
Proof. eexists. split; vm_compute; reflexivity. Qed.

(** The batch at work: a data set in which every session has a schedule
    file is processed to the end, what is not a directory being passed
    over; one whose second session has none stops there. *)
Example batch_samples :
  (exists plain,
      main Sample.est Sample.agg MoreSamples.complete_dataset
      = Ok [Sample.morning_charts; plain]
      /\ map (@c_label Z) plain = [lit "EA"; lit "HR"])
  /\ main Sample.est Sample.agg MoreSamples.broken_dataset = Raise IndexError.
Proof.
  split; [|vm_compute; reflexivity].
  eexists. split; vm_compute; reflexivity.
Qed.

(* ================================================================== *)
(** * The properties of the specification *)
(* ================================================================== *)

Section TimeParser.

Variable tz_localize : datetime -> option Timestamp.

Lemma accepted_clock_text_read s :
  accepted_clock_text s -> exists time_obj, time_obj_of s = Ok time_obj.
Proof.
  unfold time_obj_of, try_except. intros [[dt H]|[dt H]].
  - rewrite H. cbn [bind]. eauto.
  - destruct (strptime_HMS s) as [dt'|e] eqn:H1; cbn [bind]; [eauto|].
    rewrite (strptime_HMS_raises _ _ H1). cbn [is_ValueError].
    rewrite H. cbn [bind]. eauto.
Qed.

(** C4: for a clock text that [strptime] accepts as [%H:%M:%S] or as
    [%H:%M], any session date and any afternoon flag, an "am" or "pm"
    marker in any letter case, put after the text with any blanks before
    and after it, is taken out before the text is read: the clock time
    read from the marked text is the one read from the bare text, the
    parsed instant is the one of the bare text under the same flag, and
    with the date text of a session it is the instant of that date at the
    clock time, the hour shifted by the PM rule under the flag. *)
Theorem parse_time_am_pm_suffix s w1 sfx w2 date_str is_pm :
  accepted_clock_text s ->
  In sfx am_pm_suffixes ->
  forallb is_space w1 = true ->
  forallb is_space w2 = true ->
  exists time_obj,
    time_obj_of s = Ok time_obj
    /\ time_obj_of (cleaned_time_str (s ++ w1 ++ sfx ++ w2)) = Ok time_obj
    /\ parse_time tz_localize (s ++ w1 ++ sfx ++ w2) date_str is_pm
       = parse_time tz_localize s date_str is_pm
    /\ (forall token dt,
           strptime_Ymd token = Ok dt -> length token = 10 ->
           date_str = replace token (lit "-") [] ->
           parse_time tz_localize (s ++ w1 ++ sfx ++ w2) date_str is_pm
           = pd_Timestamp tz_localize
               {| year := year dt; month := month dt; day := day dt;
                  hour := if is_pm then pm_adjusted (t_hour time_obj)
                          else t_hour time_obj;
                  minute := t_minute time_obj;
                  second := t_second time_obj |}).
Proof.
  intros Hs Hsfx Hw1 Hw2.
  destruct (accepted_clock_chars s Hs) as [Hne Hc].
  destruct (accepted_clock_text_read s Hs) as [t Ht].
  pose proof (cleaned_suffixed s w1 sfx w2 Hne Hc Hsfx Hw1 Hw2) as Hclean.
  exists t. split; [exact Ht|]. split; [rewrite Hclean; exact Ht|]. split.
  - apply parse_time_cleaned. rewrite Hclean.
    symmetry. apply (cleaned_clock_text s Hne Hc).
  - intros token dt Hd Hlen ->.
    destruct (strptime_Ymd_shape _ _ Hd)
      as [tY [tm [td [-> [LY [DY [Hm [Hday Hnew]]]]]]]].
    rewrite (date_text_fields tY tm td DY Hm Hday).
    destruct (field_text_facts tm (field_texts_ok tm (or_introl Hm))) as [_ [_ Lm]].
    destruct (field_text_facts td (field_texts_ok td (or_intror Hday))) as [_ [_ Ld]].
    rewrite length_app in Hlen. cbn [length] in Hlen.
    rewrite length_app in Hlen. cbn [length] in Hlen.
    assert (Lm2 : length tm = 2) by lia. assert (Ld2 : length td = 2) by lia.
    destruct (time_obj_of_bounds _ _ Ht) as [Bh [Bm Bs]].
    unfold parse_time. rewrite Hclean, Ht. cbn [bind].
    set (hr := if is_pm && (1 <=? t_hour t) && (t_hour t <=? 11)
               then t_hour t + 12 else t_hour t).
    assert (Ehr : hr = if is_pm then pm_adjusted (t_hour t) else t_hour t).
    { unfold hr, pm_adjusted. destruct is_pm; reflexivity. }
    assert (Bhr : hr <= 23).
    { rewrite Ehr. destruct is_pm; [apply pm_adjusted_bound|]; exact Bh. }
    rewrite (strptime_Ymd_HMS_padded tY tm td hr _ _ LY DY Hm Lm2 Hday Ld2 Bhr Bm Bs).
    rewrite (datetime_new_at_clock _ _ _ dt hr _ _ Hnew Bhr Bm Bs).
    cbn [bind]. rewrite Ehr. reflexivity.
Qed.


End TimeParser.

Section Schedule.

Variable Value : Type.
Variable tz_localize : datetime -> option Timestamp.

(** The end of the window of a loaded schedule, on the rows of its frame. *)
Lemma music_end_of_loaded (file : File Value) date_str path sched :
  load_music_schedule tz_localize file date_str path = Ok (Some sched) ->
  exists df,
    read_schedule file = Frame df
    /\ let usable := usable_rows tz_localize date_str (afternoon_path path) df in
       let instant := row_time tz_localize date_str (afternoon_path path) in
       (forall pre r post,
              usable = pre ++ r :: post ->
              row_notes_music_end r ->
              (forall x, In x pre -> ~ row_notes_music_end x) ->
              exists t, instant r = Ok t /\ music_end sched = Some t)
       /\ ((forall x, In x usable -> ~ row_notes_music_end x) ->
           exists pre r t,
             usable = pre ++ [r] /\ instant r = Ok t
             /\ music_end sched = Some t).
Proof.
  intros H.
  destruct (load_music_schedule_inv Value tz_localize file _ _ _ H)
    as [df [first [events [Hread [HF [_ [_ Hend]]]]]]].
  exists df. split; [exact Hread|]. cbv zeta.
  set (usable := usable_rows tz_localize date_str (afternoon_path path) df) in *.
  split.
  - intros pre r post Hu Hr Hpre. rewrite Hu in HF.
    apply Forall2_app_inv_l in HF as [pre' [tl [Hp [Ht Heq]]]].
    inversion Ht as [|r' e post0 post' Hre Hpost]; subst.
    exists (e_time e). split; [apply Hre|].
    rewrite Hend, Heq. rewrite (find_first notes_music_end pre' e post'); [reflexivity| |].
    + apply (notes_music_end_row _ _ _ _ _ Hre). exact Hr.
    + intros x Hx. destruct (Forall2_in_right _ _ _ _ Hp Hx) as [rx [Hin Hrx]].
      destruct (notes_music_end x) eqn:Hn; [|reflexivity].
      exfalso. apply (Hpre rx Hin).
      apply (notes_music_end_row _ _ _ _ _ Hrx). exact Hn.
  - intros Hnone.
    assert (Hf : find notes_music_end (first :: events) = None).
    { apply find_absent. intros x Hx.
      destruct (Forall2_in_right _ _ _ _ HF Hx) as [rx [Hin Hrx]].
      destruct (notes_music_end x) eqn:Hn; [|reflexivity].
      exfalso. apply (Hnone rx Hin).
      apply (notes_music_end_row _ _ _ _ _ Hrx). exact Hn. }
    rewrite Hf in Hend.
    destruct (last_is_last (first :: events) first) as [pre' Hl]; [discriminate|].
    rewrite Hl in HF at 1.
    apply Forall2_app_inv_r in HF as [pre [tl [Hp [Ht Heq]]]].
    inversion Ht as [|r e tl0 tl1 Hre Hnil]; subst. inversion Hnil; subst.
    exists pre, r, (e_time (last (first :: events) first)).
    split; [exact Heq|]. split; [apply Hre|exact Hend].
Qed.

(** C3: a schedule frame with at least one usable row loads to a schedule
    whose music end is the instant of the first usable row, in file order,
    whose observation contains "music end" in any letter case; when no
    usable row has such an observation it is the instant of the last
    usable row. *)
Theorem music_end_first_note_else_last (file : File Value) date_str path df :
  read_schedule file = Frame df ->
  usable_rows tz_localize date_str (afternoon_path path) df <> [] ->
  exists sched,
    load_music_schedule tz_localize file date_str path = Ok (Some sched)
    /\ let usable := usable_rows tz_localize date_str (afternoon_path path) df in
       let instant := row_time tz_localize date_str (afternoon_path path) in
       (forall pre r post,
              usable = pre ++ r :: post ->
              row_notes_music_end r ->
              (forall x, In x pre -> ~ row_notes_music_end x) ->
              exists t, instant r = Ok t /\ music_end sched = Some t)
       /\ ((forall x, In x usable -> ~ row_notes_music_end x) ->
           exists pre r t,
             usable = pre ++ [r] /\ instant r = Ok t
             /\ music_end sched = Some t).
Proof.
  intros Hread Hne.
  destruct (load_music_schedule_some Value tz_localize file date_str path df
              Hread Hne) as [sched Hload].
  exists sched. split; [exact Hload|].
  destruct (music_end_of_loaded file date_str path sched Hload) as [df' [Hread' H]].
  rewrite Hread in Hread'. inversion Hread'; subst df'. exact H.
Qed.

(** The annotations of a loaded schedule, on the rows of its frame. *)
Lemma annotations_of_loaded (file : File Value) date_str path sched :
  load_music_schedule tz_localize file date_str path = Ok (Some sched) ->
  exists df,
    read_schedule file = Frame df
    /\ Forall2
         (fun row a =>
            row_time tz_localize date_str (afternoon_path path) row
            = Ok (a_time a)
            /\ a_text a
               = composed_text (text_of_cell (song_artist row))
                               (text_of_cell (score row))
                               (text_of_cell (observation row))
            /\ (forall t, a_text a <> newline :: t)
            /\ (forall t, a_text a <> t ++ [newline])
            /\ (text_of_cell (song_artist row) = [] ->
                text_of_cell (score row) = [] ->
                text_of_cell (observation row) = [] -> a_text a = []))
         (usable_rows tz_localize date_str (afternoon_path path) df)
         (annotations sched).
Proof.
  intros H.
  destruct (load_music_schedule_inv Value tz_localize file _ _ _ H)
    as [df [first [events [Hread [HF [Hann _]]]]]].
  exists df. split; [exact Hread|]. rewrite Hann.
  apply Forall2_map_right.
  revert HF. apply Forall2_impl. intros row e [Ht [Hs [Hsc Ho]]].
  assert (Htext : a_text (annotation_of e)
                  = composed_text (text_of_cell (song_artist row))
                                  (text_of_cell (score row))
                                  (text_of_cell (observation row))).
  { rewrite annotation_of_text, Hs, Hsc, Ho. reflexivity. }
  assert (Htr : trimmed (a_text (annotation_of e))).
  { rewrite Htext. apply composed_text_trimmed; apply text_of_cell_trimmed. }
  destruct (trimmed_no_line_break_at_ends _ Htr) as [Hfirst Hlast].
  split; [exact Ht|]. split; [exact Htext|].
  split; [exact Hfirst|]. split; [exact Hlast|].
  intros E1 E2 E3. rewrite Htext, E1, E2, E3. reflexivity.
Qed.

(** C6: a schedule frame with at least one usable row loads to a schedule
    with exactly one annotation per usable row, in file order, at the
    instant of its row; the text of the annotation is the label, the text
    "(Score: <score>)" and the observation, each left out when empty,
    joined by line breaks in this order; the text neither starts nor ends
    with a line break, and it is empty when the three parts are. *)
Theorem one_annotation_per_usable_row (file : File Value) date_str path df :
  read_schedule file = Frame df ->
  usable_rows tz_localize date_str (afternoon_path path) df <> [] ->
  exists sched,
    load_music_schedule tz_localize file date_str path = Ok (Some sched)
    /\ Forall2
         (fun row a =>
            row_time tz_localize date_str (afternoon_path path) row
            = Ok (a_time a)
            /\ a_text a
               = composed_text (text_of_cell (song_artist row))
                               (text_of_cell (score row))
                               (text_of_cell (observation row))
            /\ (forall t, a_text a <> newline :: t)
            /\ (forall t, a_text a <> t ++ [newline])
            /\ (text_of_cell (song_artist row) = [] ->
                text_of_cell (score row) = [] ->
                text_of_cell (observation row) = [] -> a_text a = []))
         (usable_rows tz_localize date_str (afternoon_path path) df)
         (annotations sched).
Proof.
  intros Hread Hne.
  destruct (load_music_schedule_some Value tz_localize file date_str path df
              Hread Hne) as [sched Hload].
  exists sched. split; [exact Hload|].
  destruct (annotations_of_loaded file date_str path sched Hload) as [df' [Hread' H]].
  rewrite Hread in Hread'. inversion Hread'; subst df'. exact H.
Qed.

(** C7: a row whose time does not parse is skipped, and the rows after
    it are read like those before it: the usable rows of the frame are
    those before the row followed by those after it; loading does not
    raise; when one of them is usable the schedule is loaded, with one
    annotation for each usable row before and after, in file order, at the
    instant and with the text of its row, and none for the skipped row;
    the schedule is the one loaded from the frame without the row, so that
    the row gives no bound of the window; and the session is processed as
    it is without the row. *)
Theorem unparsed_row_is_skipped (file : File Value) r1 bad r2 date_str path :
  f_exists file = true ->
  f_schedule file = Frame (r1 ++ bad :: r2) ->
  (forall t, row_time tz_localize date_str (afternoon_path path) bad <> Ok t) ->
  let usable := usable_rows tz_localize date_str (afternoon_path path) in
  usable (r1 ++ bad :: r2) = usable r1 ++ usable r2
  /\ (exists r, load_music_schedule tz_localize file date_str path = Ok r)
  /\ (usable r1 ++ usable r2 <> [] ->
      exists sched,
        load_music_schedule tz_localize file date_str path = Ok (Some sched)
        /\ Forall2 (row_annotation tz_localize date_str (afternoon_path path))
                   (usable r1 ++ usable r2) (annotations sched))
  /\ load_music_schedule tz_localize file date_str path
     = load_music_schedule tz_localize (with_rows file (r1 ++ r2)) date_str path
  /\ (forall (mpl : Matplotlib Value) folder pre post,
         entries folder = pre ++ file :: post ->
         folder_path folder = path ->
         (forall date t,
             row_time tz_localize date (afternoon_path path) bad <> Ok t) ->
         process_folder tz_localize mpl folder
         = process_folder tz_localize mpl
             (with_entries folder (pre ++ with_rows file (r1 ++ r2) :: post))).
Proof.
  intros Hex Hframe Hbad usable.
  assert (Hread : read_schedule file = Frame (r1 ++ bad :: r2)).
  { unfold read_schedule. rewrite Hex. exact Hframe. }
  assert (Husable : usable (r1 ++ bad :: r2) = usable r1 ++ usable r2).
  { unfold usable.
    rewrite (usable_rows_skip tz_localize date_str (afternoon_path path)
               r1 bad r2 Hbad).
    unfold usable_rows. apply filter_app. }
  assert (Hsame : forall date,
             (forall t, row_time tz_localize date (afternoon_path path) bad <> Ok t) ->
             load_music_schedule tz_localize file date path
             = load_music_schedule tz_localize (with_rows file (r1 ++ r2)) date path).
  { intros date Hd. rewrite !load_music_schedule_eq. unfold read_schedule.
    cbn [with_rows f_exists f_schedule]. rewrite Hex, Hframe. cbn [negb].
    rewrite (all_events_of_skip tz_localize date (afternoon_path path)
               r1 bad r2 Hd).
    reflexivity. }
  split; [exact Husable|]. split; [apply load_music_schedule_total|].
  split; [|split; [apply (Hsame date_str Hbad)|]].
  - intros Hne. rewrite <- Husable in Hne |- *.
    destruct (load_music_schedule_some Value tz_localize file date_str path _
                Hread Hne) as [sched Hload].
    exists sched. split; [exact Hload|].
    destruct (annotations_of_loaded file date_str path sched Hload)
      as [df' [Hread' H]].
    rewrite Hread in Hread'. inversion Hread'; subst df'.
    revert H. apply Forall2_impl. intros row a [Ht [Htext _]].
    split; assumption.
  - intros mpl folder pre post Hentries Hpath Hall.
    apply process_folder_related with (path := path);
      try reflexivity; try exact Hpath.
    cbn [with_entries entries]. rewrite Hentries.
    apply Forall2_app; [apply same_for_session_refl_list|].
    constructor; [|apply same_for_session_refl_list].
    split; [reflexivity|]. split; [reflexivity|]. split; [reflexivity|].
    intros date. apply (Hsame date (Hall date)).
Qed.

(** The hours of a loaded schedule, on the rows of its frame. *)
Lemma afternoon_of_loaded (file : File Value) date_str path sched :
  load_music_schedule tz_localize file date_str path = Ok (Some sched) ->
  exists df is_afternoon,
    read_schedule file = Frame df
    /\ (is_afternoon = true <-> occurs_ignoring_case (lit "afternoon") path)
    /\ Forall2
         (fun row a =>
            exists time_obj dt_naive,
              time_obj_of (cleaned_time_str (strip (str_of_cell (time_str row))))
              = Ok time_obj
              /\ tz_localize dt_naive = Some (a_time a)
              /\ hour dt_naive
                 = (if is_afternoon then pm_adjusted (t_hour time_obj)
                    else t_hour time_obj))
         (usable_rows tz_localize date_str is_afternoon df)
         (annotations sched)
    /\ (forall row s w1 sfx w2,
           time_str row = Some (s ++ w1 ++ sfx ++ w2) ->
           accepted_clock_text s -> In sfx am_pm_suffixes ->
           forallb is_space w1 = true -> forallb is_space w2 = true ->
           row_time tz_localize date_str is_afternoon row
           = parse_time tz_localize s date_str is_afternoon).
Proof.
  intros H.
  destruct (load_music_schedule_inv Value tz_localize file _ _ _ H)
    as [df [first [events [Hread [HF [Hann _]]]]]].
  exists df, (afternoon_path path). split; [exact Hread|]. split; [|split].
  - unfold afternoon_path. apply contains_lower_iff. reflexivity.
  - rewrite Hann. apply Forall2_map_right.
    revert HF. apply Forall2_impl. intros row e [Ht _].
    unfold row_time in Ht.
    destruct (parse_time_inv tz_localize _ _ _ _ Ht)
      as [time_obj [dt [Hobj [Htz [Hh _]]]]].
    exists time_obj, dt. auto.
  - intros row s w1 sfx w2 Hrow Hs Hsfx Hw1 Hw2.
    unfold row_time. rewrite Hrow. cbn [str_of_cell].
    destruct (accepted_clock_chars s Hs) as [Hne Hc].
    apply parse_time_cleaned.
    rewrite (cleaned_clock_text s Hne Hc).
    assert (Hw2' : forallb is_space (@nil ascii) = true) by reflexivity.
    assert (Hstrip : strip (s ++ w1 ++ sfx ++ w2) = s ++ w1 ++ sfx).
    { assert (Hl : exists c1 c2, sfx = [c1; c2] /\ is_space c2 = false).
      { unfold am_pm_suffixes in Hsfx. simpl in Hsfx.
        repeat (destruct Hsfx as [<-|Hsfx];
                [eexists _, _; split; [reflexivity|reflexivity]|]).
        destruct Hsfx. }
      destruct Hl as [c1 [c2 [-> Hc2]]].
      destruct s as [|s0 s']; [congruence|].
      assert (Hs0 : is_space s0 = false).
      { simpl in Hc. apply andb_true_iff in Hc as [Hc _].
        assert (Hsub : sub clock_char not_space = true) by (vm_compute; reflexivity).
        apply (sub_sound _ _ Hsub) in Hc. unfold not_space in Hc.
        apply negb_true_iff in Hc. exact Hc. }
      replace ((s0 :: s') ++ w1 ++ [c1; c2] ++ w2)
        with ([] ++ s0 :: (s' ++ w1 ++ [c1]) ++ c2 :: w2)
        by (simpl; rewrite <- !app_assoc; reflexivity).
      rewrite (strip_around _ _ _ _ _ Hs0 Hc2).
      rewrite (rstrip_spaces [] w2 Hw2 : rstrip w2 = []).
      simpl. rewrite <- !app_assoc. reflexivity. }
    rewrite Hstrip.
    replace (s ++ w1 ++ sfx) with (s ++ w1 ++ sfx ++ []) by (rewrite app_nil_r; reflexivity).
    apply (cleaned_suffixed s w1 sfx [] Hne Hc Hsfx Hw1 Hw2').
Qed.


(** C10: the afternoon flag of a session is the occurrence of "afternoon"
    in the folder path, letter case ignored, and nothing else: a schedule
    frame with at least one usable row loads to a schedule in which, for
    every usable row, the hour of the annotation's date-time is the hour
    read from the cleaned time text, moved by the afternoon rule exactly
    when the path has the word; an AM or PM marker in the time cell changes
    nothing. *)
Theorem afternoon_is_decided_by_folder_path (file : File Value) date_str path df :
  read_schedule file = Frame df ->
  usable_rows tz_localize date_str (afternoon_path path) df <> [] ->
  exists sched is_afternoon,
    load_music_schedule tz_localize file date_str path = Ok (Some sched)
    /\ (is_afternoon = true <-> occurs_ignoring_case (lit "afternoon") path)
    /\ Forall2
         (fun row a =>
            exists time_obj dt_naive,
              time_obj_of (cleaned_time_str (strip (str_of_cell (time_str row))))
              = Ok time_obj
              /\ tz_localize dt_naive = Some (a_time a)
              /\ hour dt_naive
                 = (if is_afternoon then pm_adjusted (t_hour time_obj)
                    else t_hour time_obj))
         (usable_rows tz_localize date_str is_afternoon df)
         (annotations sched)
    /\ (forall row s w1 sfx w2,
           time_str row = Some (s ++ w1 ++ sfx ++ w2) ->
           accepted_clock_text s -> In sfx am_pm_suffixes ->
           forallb is_space w1 = true -> forallb is_space w2 = true ->
           row_time tz_localize date_str is_afternoon row
           = parse_time tz_localize s date_str is_afternoon).
Proof.
  intros Hread Hne.
  destruct (load_music_schedule_some Value tz_localize file date_str path df
              Hread Hne) as [sched Hload].
  destruct (afternoon_of_loaded file date_str path sched Hload)
    as [df' [flag [Hread' H]]].
  rewrite Hread in Hread'. inversion Hread'; subst df'.
  exists sched, flag. split; [exact Hload|exact H].
Qed.

(** X1: a schedule frame with at least one usable row loads to a schedule
    whose music start is the instant of the first usable row with a label,
    provided no usable row before it notes the end of the music; the start
    is absent when the first row that notes the end of the music comes with
    no labelled row at or before it, and when no usable row has a label. *)
Theorem music_start_first_label_before_end (file : File Value) date_str path df :
  read_schedule file = Frame df ->
  usable_rows tz_localize date_str (afternoon_path path) df <> [] ->
  exists sched,
    load_music_schedule tz_localize file date_str path = Ok (Some sched)
    /\ let usable := usable_rows tz_localize date_str (afternoon_path path) df in
       let instant := row_time tz_localize date_str (afternoon_path path) in
       (forall pre r post,
           usable = pre ++ r :: post ->
           row_has_label r ->
           (forall x, In x pre -> ~ row_has_label x /\ ~ row_notes_music_end x) ->
           exists t, instant r = Ok t /\ music_start sched = Some t)
       /\ (forall pre r post,
              usable = pre ++ r :: post ->
              row_notes_music_end r ->
              (forall x, In x (pre ++ [r]) -> ~ row_has_label x) ->
              music_start sched = None)
       /\ ((forall x, In x usable -> ~ row_has_label x) ->
           music_start sched = None).
Proof.
  intros Hread Hne.
  destruct (load_music_schedule_some Value tz_localize file date_str path df
              Hread Hne) as [sched Hload].
  exists sched. split; [exact Hload|]. cbv zeta.
  destruct (load_music_schedule_inv Value tz_localize file _ _ _ Hload)
    as [df' [first [events [Hread' [HF [_ [Hstart _]]]]]]].
  rewrite Hread in Hread'. inversion Hread'; subst df'. clear Hread'.
  set (usable := usable_rows tz_localize date_str (afternoon_path path) df) in *.
  assert (Hno_label : forall rows evs,
             Forall2 (row_event tz_localize date_str (afternoon_path path)) rows evs ->
             (forall x, In x rows -> ~ row_has_label x) ->
             forall y, In y evs -> truthy (e_song y) = false).
  { intros rows evs HF' Hrows y Hy.
    destruct (Forall2_in_right _ _ _ _ HF' Hy) as [rx [Hin Hrx]].
    destruct (truthy (e_song y)) eqn:Ht; [|reflexivity].
    exfalso. apply (Hrows rx Hin).
    apply (truthy_row_label _ _ _ _ _ Hrx). exact Ht. }
  split; [|split].
  - intros pre r post Hu Hr Hpre. rewrite Hu in HF.
    apply Forall2_app_inv_l in HF as [pre' [tl [Hp [Ht Heq]]]].
    inversion Ht as [|r' e post0 post' Hre Hpost]; subst.
    exists (e_time e). split; [apply Hre|].
    rewrite Hstart, Heq. apply first_labelled_found.
    + apply (truthy_row_label _ _ _ _ _ Hre). exact Hr.
    + intros x Hx. destruct (Forall2_in_right _ _ _ _ Hp Hx) as [rx [Hin Hrx]].
      destruct (Hpre rx Hin) as [Hl Hn]. split.
      * destruct (truthy (e_song x)) eqn:Hx'; [|reflexivity].
        exfalso. apply Hl. apply (truthy_row_label _ _ _ _ _ Hrx). exact Hx'.
      * destruct (notes_music_end x) eqn:Hx'; [|reflexivity].
        exfalso. apply Hn. apply (notes_music_end_row _ _ _ _ _ Hrx). exact Hx'.
  - intros pre r post Hu Hr Hpre. rewrite Hu in HF.
    apply Forall2_app_inv_l in HF as [pre' [tl [Hp [Ht Heq]]]].
    inversion Ht as [|r' e post0 post' Hre Hpost]; subst.
    rewrite Hstart, Heq. apply first_labelled_cut.
    + apply (notes_music_end_row _ _ _ _ _ Hre). exact Hr.
    + apply (Hno_label (pre ++ [r]) (pre' ++ [e])); [|exact Hpre].
      apply Forall2_app; [exact Hp|]. constructor; [exact Hre|constructor].
  - intros Hnone. rewrite Hstart. apply first_labelled_none.
    apply (Hno_label usable (first :: events) HF Hnone).
Qed.

End Schedule.

Section Sessions.

Variable Value : Type.
Variable tz_localize : datetime -> option Timestamp.
Variable mpl : Matplotlib Value.

(** C8: when no file name of the session folder starts with a token (the
    text before the first underscore) that [strptime] accepts as a
    [%Y-%m-%d] date, channel loading returns no channel and no date,
    whatever the channel files hold; the session then saves no chart. *)
Theorem no_dated_file_no_channels (folder : Folder Value) signals_to_plot :
  (forall f, In f (entries folder) ->
             forall dt, strptime_Ymd (date_token f) <> Ok dt) ->
  load_emotibit_data folder signals_to_plot = Ok ([], None)
  /\ (forall charts, process_folder tz_localize mpl folder = Ok charts ->
                     charts = []).
Proof.
  intros Hno.
  assert (Hload : forall signals,
             load_emotibit_data folder signals = Ok ([], None)).
  { intros signals. unfold load_emotibit_data.
    destruct (glob_star folder (lit ".csv")) as [|f files] eqn:Hg; [reflexivity|].
    rewrite experiment_date_of_no_date; [reflexivity|].
    intros g Hin. apply Hno.
    apply (glob_star_entries Value folder (lit ".csv")). rewrite Hg. exact Hin. }
  split; [apply Hload|].
  intros charts H.
  destruct (process_folder_inv Value tz_localize mpl folder charts H)
    as [Hnil|[file [rest [data [date [sd [_ [_ [Hl _]]]]]]]]]; [exact Hnil|].
  rewrite Hload in Hl. discriminate.
Qed.

(** C9: the charts of a session are all drawn against one list of
    annotations, that of the schedule loaded once for the session.  On
    each chart the horizontal range is that of the least and greatest valid
    instants of the channel, and the text boxes are exactly the annotations
    of the list whose instant lies in this range, in the order of the
    list, each anchored at its own instant: an annotation outside the
    range gets no box, at no instant. *)
Theorem annotations_outside_range_dropped (folder : Folder Value) charts :
  process_folder tz_localize mpl folder = Ok charts ->
  exists shared : list Annotation,
    (charts <> [] ->
     exists file rest date sd,
       glob_star folder schedule_marker = file :: rest
       /\ load_music_schedule tz_localize file date (folder_path folder) = Ok sd
       /\ shared = annotations_of sd)
    /\ Forall
         (fun chart =>
            exists lo hi,
              c_xlim chart = (lo, hi)
              /\ instant_range (c_line chart) lo hi
              /\ Forall2 (fun a p => p_text p = a_text a /\ p_xy p = a_time a
                                     /\ p_xytext p = a_time a)
                         (filter (within lo hi) shared) (c_annotate chart)
              /\ (forall p, In p (c_annotate chart) -> (lo <= p_xy p <= hi)%Z)
              /\ (forall a, In a shared ->
                            (a_time a < lo \/ hi < a_time a)%Z ->
                            forall p, In p (c_annotate chart) ->
                                      p_xy p <> a_time a))
         charts.
Proof.
  intros H.
  destruct (process_folder_inv Value tz_localize mpl folder charts H)
    as [->|[file [rest [data [date [sd [Hg [_ [_ [Hs Hall]]]]]]]]]].
  - exists []. split; [congruence|constructor].
  - exists (annotations_of sd). split.
    + intros _. exists file, rest, date, sd. auto.
    + apply Forall_forall. intros chart Hin.
      destruct (plot_all_in Value mpl data sd charts chart Hall Hin)
        as [signal [df [_ Hp]]].
      destruct (plot_and_save_signal_inv Value mpl signal df sd CHANNELS chart Hp)
        as [lo [hi [Hmin [Hmax [_ [Hline [Hxlim [Hann _]]]]]]]].
      destruct (est_time_min_spec Value df lo Hmin) as [Hlo Hlo'].
      destruct (est_time_max_spec Value df hi Hmax) as [Hhi Hhi'].
      destruct (annotate_all_spec (annotations_of sd) lo hi 0) as [HF _].
      rewrite <- Hann in HF.
      assert (Hbox : forall p, In p (c_annotate chart) -> (lo <= p_xy p <= hi)%Z).
      { intros p Hp'.
        destruct (Forall2_in_right _ _ _ _ HF Hp') as [a [Ha [_ [Hxy _]]]].
        apply filter_In in Ha as [_ Hw]. unfold within in Hw.
        apply andb_true_iff in Hw as [H1 H2].
        apply Z.leb_le in H1, H2. rewrite Hxy. lia. }
      exists lo, hi. split; [exact Hxlim|]. split; [|split; [exact HF|split]].
      * rewrite Hline. split; [exact Hlo|]. split; [exact Hhi|].
        intros t v Hv. split; [apply (Hlo' t v Hv)|apply (Hhi' t v Hv)].
      * exact Hbox.
      * intros a _ Hout p Hp' Heq. specialize (Hbox p Hp'). lia.
Qed.

End Sessions.

(** C1: a session with two loadable channel files and no file that
    matches the schedule marker is not drawn: [process_folder] raises
    [IndexError] where it takes the first match, before the guard it has
    for a schedule file that is not there, whatever the library does, and
    the batch that contains the session stops there.  The same session
    with a schedule file that holds no row is drawn, one chart per
    channel, with no annotation and no shaded band. *)
Theorem missing_schedule_aborts_batch :
  glob_star Sample.no_schedule_session schedule_marker = []
  /\ (exists data date,
         load_emotibit_data Sample.no_schedule_session SIGNALS_TO_PLOT
         = Ok (data, Some date)
         /\ map fst data = [lit "EA"; lit "HR"])
  /\ (forall mpl, process_folder Sample.est mpl Sample.no_schedule_session
                  = Raise IndexError)
  /\ (forall mpl, main Sample.est mpl
                    [Sample.no_schedule_session; Sample.morning_session]
                  = Raise IndexError)
  /\ (exists charts,
         process_folder Sample.est Sample.agg Sample.blank_schedule_session
         = Ok charts
         /\ map (@c_label Z) charts = [lit "EA"; lit "HR"]
         /\ Forall (fun c => c_annotate c = [] /\ c_axvspan c = None) charts).
Proof.
  split; [reflexivity|]. split.
  - eexists _, _. split; vm_compute; reflexivity.
  - split; [intros mpl; reflexivity|]. split; [intros mpl; reflexivity|].
    eexists. split; [vm_compute; reflexivity|].
    split; [reflexivity|]. repeat constructor.
Qed.

(** C2: on a schedule whose first usable row notes the end of the music
    and whose second usable row is the first with a label, the loop that
    looks for the start stops at the first row: the start is absent, where
    the specification (and the comment of the loop) gives the instant of
    the second row. *)
Theorem music_start_missed_when_end_noted_first :
  exists sched first second t,
    load_music_schedule Sample.est Sample.end_before_song_file
                        Sample.date_20240105 (lit "/data/S05 morning")
    = Ok (Some sched)
    /\ usable_rows Sample.est Sample.date_20240105 false Sample.end_before_song
       = [first; second]
    /\ text_of_cell (song_artist first) = []
    /\ text_of_cell (song_artist second) = lit "SongA"
    /\ row_time Sample.est Sample.date_20240105 false second = Ok t
    /\ music_start sched = None
    /\ music_end sched = Some (Sample.jan5 9 0).
Proof.
  eexists _, _, _, _.
  split; [vm_compute; reflexivity|].
  split; [vm_compute; reflexivity|].
  split; [vm_compute; reflexivity|].
  split; [vm_compute; reflexivity|].
  split; [vm_compute; reflexivity|].
  split; vm_compute; reflexivity.
Qed.

(* ================================================================== *)
(** * Further properties of the script *)
(* ================================================================== *)

Lemma count_app c s1 s2 : count c (s1 ++ s2) = count c s1 + count c s2.
Proof. unfold count. rewrite filter_app, length_app. reflexivity. Qed.

Lemma count_absent c s : forallb (differs_from c) s = true -> count c s = 0.
Proof.
  unfold count. induction s as [|x s IH]; simpl; [reflexivity|].
  rewrite andb_true_iff. intros [Hx Hs]. unfold differs_from in Hx.
  apply negb_true_iff in Hx. rewrite Hx. auto.
Qed.

Lemma count_one c : count c [c] = 1.
Proof. unfold count. simpl. rewrite Ascii.eqb_refl. reflexivity. Qed.

Lemma first_labelled_position events d t :
  first_labelled (through_music_end events) = Some t ->
  exists pre e post,
    events = pre ++ e :: post /\ e_time e = t
    /\ In (end_event events d) (e :: post).
Proof.
  unfold first_labelled, end_event.
  induction events as [|x xs IH]; cbn [through_music_end find]; [discriminate|].
  destruct (notes_music_end x) eqn:Hn.
  - cbn [find option_map]. destruct (truthy (e_song x)); [|discriminate].
    intros H. inversion H; subst. exists [], x, xs.
    split; [reflexivity|]. split; [reflexivity|]. left. reflexivity.
  - cbn [find]. destruct (truthy (e_song x)) eqn:Hs.
    + intros H. inversion H; subst. exists [], x, xs.
      split; [reflexivity|]. split; [reflexivity|].
      destruct (find notes_music_end xs) as [y|] eqn:Hf.
      * right. apply (find_some _ _ Hf).
      * destruct xs as [|x' xs']; [left; reflexivity|].
        right. destruct (exists_last (l := x' :: xs')) as [l [z Hl]];
          [discriminate|].
        change (last (x :: x' :: xs') d) with (last (x' :: xs') d).
        rewrite Hl, last_last. apply in_or_app. right. left. reflexivity.
    + intros H. destruct (IH H) as [pre [e [post [Hxs [He Hin]]]]].
      exists (x :: pre), e, post. split; [rewrite Hxs; reflexivity|].
      split; [exact He|].
      assert (Hlast : last (x :: xs) d = last xs d).
      { rewrite Hxs. destruct pre; reflexivity. }
      rewrite Hlast. exact Hin.
Qed.

Section MoreSchedule.

Variable Value : Type.
Variable tz_localize : datetime -> option Timestamp.

(** X2: loading gives the "no schedule" result exactly when the file
    cannot be read (it is missing, or reading it fails) or when none of
    its rows has a time that parses. *)
Theorem no_schedule_iff_no_usable_row (file : File Value) date_str path :
  load_music_schedule tz_localize file date_str path = Ok None
  <-> (read_schedule file = ReadError
       \/ exists df,
            read_schedule file = Frame df
            /\ usable_rows tz_localize date_str (afternoon_path path) df = []).
Proof.
  rewrite load_music_schedule_eq. unfold read_schedule.
  destruct (f_exists file); cbn [negb]; [|split; auto].
  destruct (f_schedule file) as [|df]; [split; auto|].
  destruct (all_events_of_spec tz_localize date_str (afternoon_path path) df)
    as [events [Hev HF]].
  rewrite Hev. cbn [bind]. split.
  - intros H. right. exists df. split; [reflexivity|].
    destruct events as [|first events].
    + inversion HF. reflexivity.
    + destruct (scan_session (first :: events) None). discriminate.
  - intros [H|[df' [Hdf Hnil]]]; [discriminate|].
    inversion Hdf; subst df'. rewrite Hnil in HF. inversion HF. reflexivity.
Qed.

(** X3: a time text is parsed only if, once the AM / PM markers are taken
    out and the blanks at the ends trimmed, it is not empty and is made of
    digits and colons only. *)
Theorem parsed_time_text_is_digits_and_colons time_str date_str is_pm ts :
  parse_time tz_localize time_str date_str is_pm = Ok ts ->
  cleaned_time_str time_str <> []
  /\ forallb clock_char (cleaned_time_str time_str) = true.
Proof.
  intros H.
  destruct (parse_time_inv tz_localize _ _ _ _ H) as [t [dt [Ht _]]].
  apply accepted_clock_chars.
  unfold time_obj_of, try_except in Ht.
  destruct (strptime_HMS (cleaned_time_str time_str)) as [d1|e1] eqn:H1.
  - left. eauto.
  - right. cbn [bind] in Ht. destruct (is_ValueError e1); [|discriminate].
    destruct (strptime_HM (cleaned_time_str time_str)) as [d2|e2]; [eauto|discriminate].
Qed.

(** X14: when a loaded schedule has a start, the start is the instant of
    a usable row and the end is the instant of that row or of a usable
    row after it in file order. *)
Theorem window_bounds_in_file_order (file : File Value) date_str path sched t :
  load_music_schedule tz_localize file date_str path = Ok (Some sched) ->
  music_start sched = Some t ->
  exists df pre r post r' e,
    read_schedule file = Frame df
    /\ usable_rows tz_localize date_str (afternoon_path path) df
       = pre ++ r :: post
    /\ row_time tz_localize date_str (afternoon_path path) r = Ok t
    /\ In r' (r :: post)
    /\ row_time tz_localize date_str (afternoon_path path) r' = Ok e
    /\ music_end sched = Some e.
Proof.
  intros Hload Hstart.
  destruct (load_music_schedule_inv Value tz_localize file _ _ _ Hload)
    as [df [first [events [Hread [HF [_ [Hs He]]]]]]].
  rewrite Hs in Hstart.
  destruct (first_labelled_position (first :: events) first t Hstart)
    as [pre' [ev [post' [Hev [Ht Hin]]]]].
  rewrite Hev in HF.
  apply Forall2_app_inv_r in HF as [pre [tl [Hp [Htl Hu]]]].
  inversion Htl as [|r ev' post ? Hre Hpost]; subst.
  destruct (Forall2_in_right _ _ _ _ Htl Hin) as [r' [Hr' Hre']].
  exists df, pre, r, post, r', (e_time (end_event (first :: events) first)).
  split; [exact Hread|]. split; [exact Hu|]. split; [apply Hre|].
  split; [exact Hr'|]. split; [apply Hre'|]. rewrite He. unfold end_event.
  destruct (find notes_music_end (first :: events)); reflexivity.
Qed.

End MoreSchedule.

(** X13: the text of an annotation whose label, score and observation
    have no line break has as many lines as it has parts, and one line
    when it has no part at all. *)
Theorem annotation_line_count e :
  single_line (e_song e) -> single_line (e_score e) -> single_line (e_obs e) ->
  count newline (a_text (annotation_of e)) + 1 = Nat.max 1 (parts_present e).
Proof.
  unfold single_line, parts_present. intros Hs Hc Ho.
  rewrite annotation_of_text. unfold composed_text. cbv zeta.
  assert (Hp : count newline (lit "(Score: " ++ e_score e ++ lit ")") = 0).
  { rewrite !count_app, (count_absent _ _ Hc). reflexivity. }
  set (sp := lit "(Score: " ++ e_score e ++ lit ")") in *. clearbody sp.
  apply count_absent in Hs, Ho. clear Hc.
  destruct (e_song e) as [|s0 s], (e_score e) as [|c0 c], (e_obs e) as [|o0 o];
    cbn [truthy Nat.b2n];
    rewrite ?count_app, ?count_one, ?Hs, ?Hp, ?Ho; reflexivity.
Qed.

Section MorePlot.

Variable Value : Type.
Variable tz_localize : datetime -> option Timestamp.
Variable mpl : Matplotlib Value.

(** X10: a channel is not drawn exactly when its series has no valid
    instant (in particular when it is empty). *)
Theorem plot_skips_iff_no_valid_instant signal (df : Series Value) sd cm :
  plot_and_save_signal mpl signal df sd cm = Ok None
  <-> (forall t v, ~ In (Some t, v) df).
Proof.
  split.
  - intros H t v Hin.
    destruct (renderable df) eqn:Hr.
    + destruct (plot_and_save_signal_renders Value mpl signal df sd cm None Hr H)
        as [c Hc].
      discriminate.
    + unfold renderable in Hr. apply negb_false_iff, orb_true_iff in Hr.
      destruct Hr as [Hr|Hr].
      * destruct df; [destruct Hin|discriminate].
      * rewrite forallb_forall in Hr. specialize (Hr _ Hin). discriminate.
  - intros H. apply plot_and_save_signal_skips.
    unfold renderable. apply negb_false_iff, orb_true_iff. right.
    apply forallb_forall. intros [[t|] v] Hin; [destruct (H t v Hin)|reflexivity].
Qed.

(** X11: the text boxes of a chart are staggered at the levels 0, 1, 2,
    ... in the order they are placed, with no level left out for an
    annotation that is dropped; and the line count that sizes the figure
    counts every annotation of the schedule, placed or not, at least
    once. *)
Theorem boxes_staggered_consecutively signal (df : Series Value) sd cm chart :
  plot_and_save_signal mpl signal df sd cm = Ok (Some chart) ->
  map p_level (c_annotate chart) = seq 0 (length (c_annotate chart))
  /\ length (c_annotate chart) <= length (annotations_of sd)
  /\ length (annotations_of sd) <= c_annotation_lines chart.
Proof.
  intros H.
  destruct (plot_and_save_signal_inv Value mpl signal df sd cm chart H)
    as [lo [hi [_ [_ [_ [_ [_ [Hann [_ Hlines]]]]]]]]].
  destruct (annotate_all_spec (annotations_of sd) lo hi 0) as [HF HL].
  rewrite <- Hann in HF, HL.
  pose proof (Forall2_length HF) as Hlen.
  split; [rewrite HL, Hlen; reflexivity|]. split.
  - rewrite <- Hlen. apply filter_length_le.
  - rewrite Hlines. clear. induction (annotations_of sd) as [|a l IH]; simpl; lia.
Qed.

(** X12: on a chart drawn against a loaded schedule the band is shaded
    exactly when the schedule has a start, and it runs from that start to
    the end of the schedule as they are, neither clamped to the range of
    the channel nor put in order. *)
Theorem band_drawn_iff_start_found (file : File Value) date_str path sched
    signal (df : Series Value) cm chart :
  load_music_schedule tz_localize file date_str path = Ok (Some sched) ->
  plot_and_save_signal mpl signal df (Some sched) cm = Ok (Some chart) ->
  exists e,
    music_end sched = Some e
    /\ c_axvspan chart = option_map (fun s => (s, e)) (music_start sched).
Proof.
  intros Hload Hplot.
  destruct (load_music_schedule_inv Value tz_localize file _ _ _ Hload)
    as [d0 [first [events [_ [_ [_ [_ He]]]]]]].
  destruct (plot_and_save_signal_inv Value mpl signal df (Some sched) cm chart Hplot)
    as [lo [hi [_ [_ [_ [_ [_ [_ [Hspan _]]]]]]]]].
  eexists. split; [exact He|]. rewrite Hspan, He.
  destruct (music_start sched); reflexivity.
Qed.

End MorePlot.

(* ================================================================== *)
(** * Channels, sessions and the batch *)
(* ================================================================== *)

Lemma distinct_NoDup l : distinct l = true -> NoDup l.
Proof.
  induction l as [|x l IH]; simpl; intros H; constructor.
  - apply andb_true_iff in H as [H _]. apply negb_true_iff in H.
    intros Hin. apply existsb_str_eqb in Hin. congruence.
  - apply IH. apply andb_true_iff in H as [_ H]. exact H.
Qed.

Lemma SIGNALS_TO_PLOT_NoDup : NoDup SIGNALS_TO_PLOT.
Proof. apply distinct_NoDup. vm_compute. reflexivity. Qed.

Lemma dict_set_fresh {V} (d : dict V) k v :
  ~ In k (map fst d) -> dict_set d k v = d ++ [(k, v)].
Proof.
  induction d as [|[k' v'] d IH]; simpl; intros H; [reflexivity|].
  destruct (str_eqb k' k) eqn:He.
  - apply str_eqb_eq in He. subst. tauto.
  - rewrite IH by tauto. reflexivity.
Qed.

Lemma dict_get_in {V} (d : dict V) k default :
  In k (map fst d) -> In (k, dict_get d k default) d.
Proof.
  induction d as [|[k' v'] d IH]; simpl; [tauto|].
  destruct (str_eqb k' k) eqn:He.
  - apply str_eqb_eq in He. subst. auto.
  - intros [Hk|Hk]; [subst; rewrite (proj2 (str_eqb_eq k k) eq_refl) in He;
                     discriminate|].
    right. apply IH, Hk.
Qed.

Lemma NoDup_map_fst_filter {A B} (p : A * B -> bool) (l : list (A * B)) :
  NoDup (map fst l) -> NoDup (map fst (filter p l)).
Proof.
  induction l as [|x l IH]; simpl; intros H; [constructor|].
  inversion H as [|? ? Hx Hl]; subst.
  destruct (p x); simpl; [|auto]. constructor; [|auto].
  intros Hin. apply Hx. apply in_map_iff in Hin as [y [Hy Hin]].
  apply filter_In in Hin as [Hin _]. apply in_map_iff. eauto.
Qed.

Lemma NoDup_map_app_tail (tail : str) (l : list str) :
  NoDup l -> NoDup (map (fun s => s ++ tail) l).
Proof.
  induction 1 as [|x l Hx Hl IH]; simpl; constructor; [|exact IH].
  intros Hin. apply in_map_iff in Hin as [y [Hy Hin]].
  apply app_inv_tail in Hy. subst. contradiction.
Qed.

Section MoreSessions.

Variable Value : Type.
Variable tz_localize : datetime -> option Timestamp.
Variable mpl : Matplotlib Value.

Lemma channel_of_loaded_as (folder : Folder Value) signal series :
  channel_of folder signal = Some series <-> loaded_as folder signal series.
Proof.
  unfold channel_of, loaded_as. split.
  - destruct (glob_star folder _) as [|file rest]; [discriminate|].
    destruct (read_channel file) as [|df] eqn:Hr; [discriminate|].
    destruct (existsb _ _ && _ && _) eqn:Hc; [|discriminate].
    intros H. inversion H; subst. apply andb_true_iff in Hc as [Hc H3].
    apply andb_true_iff in Hc as [H1 H2].
    apply existsb_str_eqb in H1. apply Nat.leb_le in H2.
    apply negb_true_iff in H3.
    exists file, rest, df. repeat split; try assumption; try reflexivity.
    intros E. apply str_eqb_eq in E. congruence.
  - intros [file [rest [df [-> [-> [H1 [H2 [H3 ->]]]]]]]].
    apply existsb_str_eqb in H1. apply Nat.leb_le in H2.
    rewrite H1, H2. cbn [andb].
    destruct (str_eqb (last (columns df) []) (lit "est_time")) eqn:E;
      [apply str_eqb_eq in E; contradiction|reflexivity].
Qed.

(** The loop over the codes adds, for each code in turn, the series the
    code loads to. *)
Lemma dataframes_of_spec (folder : Folder Value) signals : forall acc,
  NoDup signals ->
  (forall signal, In signal signals -> ~ In signal (map fst acc)) ->
  dataframes_of folder signals acc
  = acc ++ flat_map (fun signal => match channel_of folder signal with
                                   | Some series => [(signal, series)]
                                   | None => []
                                   end) signals.
Proof.
  induction signals as [|sg signals IH]; intros acc Hnd Hfresh;
    cbn [dataframes_of flat_map]; [rewrite app_nil_r; reflexivity|].
  inversion Hnd as [|? ? Hsg Hnd']; subst.
  assert (Hacc : forall sg', In sg' signals -> ~ In sg' (map fst acc)).
  { intros sg' H. apply Hfresh. right. exact H. }
  unfold channel_of.
  destruct (glob_star folder (lit "_" ++ sg ++ lit ".csv")) as [|file rest];
    [apply IH; assumption|].
  destruct (read_channel file) as [|df]; [apply IH; assumption|].
  replace (length (columns df) <? 2) with (negb (2 <=? length (columns df)))
    by (destruct (Nat.leb_spec 2 (length (columns df)));
        destruct (Nat.ltb_spec (length (columns df)) 2); simpl; lia || reflexivity).
  rewrite <- negb_andb.
  destruct (existsb _ _ && _); cbn [negb andb]; [|apply IH; assumption].
  unfold est_time_and_value.
  destruct (str_eqb _ _); cbn [negb]; [apply IH; assumption|].
  rewrite dict_set_fresh by (apply Hfresh; left; reflexivity).
  rewrite IH; [rewrite <- app_assoc; reflexivity|assumption|].
  intros sg' H. rewrite map_app, in_app_iff. simpl.
  intros [Hin|[Heq|[]]]; [apply (Hacc sg' H Hin)|]. subst. contradiction.
Qed.

Lemma load_emotibit_data_dataframes (folder : Folder Value) signals data date :
  NoDup signals ->
  load_emotibit_data folder signals = Ok (data, Some date) ->
  data = flat_map (fun signal => match channel_of folder signal with
                                 | Some series => [(signal, series)]
                                 | None => []
                                 end) signals.
Proof.
  intros Hnd Hload. unfold load_emotibit_data in Hload.
  destruct (glob_star folder (lit ".csv")); [discriminate|].
  destruct (experiment_date_of _) as [[[|c d]|]|]; try discriminate.
  cbn [bind] in Hload. inversion Hload; subst.
  rewrite dataframes_of_spec; [reflexivity|assumption|auto].
Qed.

Lemma loaded_channels_in (folder : Folder Value) signals signal series :
  In (signal, series)
     (flat_map (fun signal => match channel_of folder signal with
                              | Some series => [(signal, series)]
                              | None => []
                              end) signals)
  <-> In signal signals /\ loaded_as folder signal series.
Proof.
  rewrite in_flat_map. split.
  - intros [sg [Hsg H]].
    destruct (channel_of folder sg) as [s|] eqn:Hc; [|destruct H].
    destruct H as [H|[]]. inversion H; subst.
    split; [exact Hsg|]. apply channel_of_loaded_as. exact Hc.
  - intros [Hsg H]. apply channel_of_loaded_as in H.
    exists signal. split; [exact Hsg|]. rewrite H. left. reflexivity.
Qed.

Lemma loaded_channels_keys (folder : Folder Value) signals :
  map fst (flat_map (fun signal => match channel_of folder signal with
                                   | Some series => [(signal, series)]
                                   | None => []
                                   end) signals)
  = filter (fun signal => is_some (channel_of folder signal)) signals.
Proof.
  induction signals as [|sg signals IH]; [reflexivity|].
  cbn [flat_map filter]. rewrite map_app, IH.
  destruct (channel_of folder sg); reflexivity.
Qed.

(** X5: when the date of the session is found, the channels loaded are,
    in the order of the catalog and each once, the codes whose first
    listed file reads as a frame with a [LocalTimestamp] column and at
    least two columns, the last of them not named [est_time], each with
    the rows of that file; a code whose file is missing, unreadable,
    without that column or with that last column is left out and the
    other codes load all the same. *)
Theorem channels_loaded_independently (folder : Folder Value) signals data date :
  NoDup signals ->
  load_emotibit_data folder signals = Ok (data, Some date) ->
  (forall signal series,
      In (signal, series) data
      <-> In signal signals /\ loaded_as folder signal series)
  /\ map fst data
     = filter (fun signal => existsb (str_eqb signal) (map fst data)) signals
  /\ NoDup (map fst data).
Proof.
  intros Hnd Hload.
  rewrite (load_emotibit_data_dataframes folder signals data date Hnd Hload).
  split; [intros signal series; apply loaded_channels_in|].
  rewrite loaded_channels_keys. split.
  - apply filter_ext_in. intros sg Hsg.
    destruct (channel_of folder sg) as [s|] eqn:Hc; cbn [is_some]; symmetry.
    + apply existsb_str_eqb, filter_In. split; [exact Hsg|].
      rewrite Hc. reflexivity.
    + destruct (existsb (str_eqb sg) _) eqn:He; [|reflexivity].
      apply existsb_str_eqb, filter_In in He as [_ He].
      rewrite Hc in He. discriminate.
  - apply NoDup_filter. exact Hnd.
Qed.

Lemma plot_and_save_signal_valid signal (df : Series Value) sd cm chart :
  plot_and_save_signal mpl signal df sd cm = Ok (Some chart) ->
  forallb (fun row => negb (is_null (fst row))) (c_line chart) = true.
Proof.
  intros H.
  destruct (plot_and_save_signal_inv Value mpl signal df sd cm chart H)
    as [lo [hi [_ [_ [_ [-> _]]]]]].
  unfold plot_and_save_signal in H.
  destruct (is_empty df || _); [discriminate|].
  destruct (existsb _ df) eqn:He; [discriminate|].
  apply forallb_forall. intros row Hin.
  destruct (is_null (fst row)) eqn:Hn; [|reflexivity].
  assert (Ht : existsb (fun row => is_null (fst row)) df = true)
    by (apply existsb_exists; eauto).
  congruence.
Qed.

(** X7: in a session directory with an existing schedule file and a
    date, when the session is processed to the end every loaded channel
    that has a valid instant has got exactly one chart, in the order of
    the catalog; each chart is saved under the code of its channel
    followed by [_plot.png], no two charts of the session share a file
    name, and every series drawn has valid instants only. *)
Theorem every_renderable_channel_is_charted (folder : Folder Value) file rest
    data date charts :
  is_dir folder = true ->
  glob_star folder schedule_marker = file :: rest ->
  f_exists file = true ->
  load_emotibit_data folder SIGNALS_TO_PLOT = Ok (data, Some date) ->
  process_folder tz_localize mpl folder = Ok charts ->
  map (@c_label Value) charts
  = map fst (filter (fun item => renderable (snd item)) data)
  /\ Forall (fun c => c_filename c = c_label c ++ lit "_plot.png") charts
  /\ NoDup (map (@c_filename Value) charts)
  /\ Forall (fun c => forallb (fun row => negb (is_null (fst row))) (c_line c)
                      = true) charts.
Proof.
  intros Hdir Hg Hex Hl Hp.
  assert (Hall : exists sd, plot_all mpl data sd = Ok charts).
  { unfold process_folder in Hp. fold schedule_marker in Hp.
    rewrite Hg, Hdir, Hex in Hp. cbn [negb] in Hp.
    destruct (makedirs_plots folder); [|discriminate]. cbn [bind] in Hp.
    rewrite Hl in Hp. cbn [bind] in Hp.
    destruct date as [|c d]; [inversion Hp; subst; exists None|].
    - unfold load_emotibit_data in Hl.
      destruct (glob_star folder (lit ".csv")); [discriminate|].
      destruct (experiment_date_of _) as [[[|c d]|]|]; discriminate.
    - destruct (load_music_schedule tz_localize file (c :: d) (folder_path folder))
        as [sd|]; [|discriminate]. cbn [bind] in Hp.
      exists sd. destruct data; [inversion Hp; reflexivity|exact Hp]. }
  destruct Hall as [sd Hall].
  assert (Hfile : Forall (fun c => c_filename c = c_label c ++ lit "_plot.png")
                         charts).
  { apply Forall_forall. intros chart Hin.
    destruct (plot_all_in Value mpl data sd charts chart Hall Hin)
      as [signal [df [_ Hc]]].
    apply (plot_and_save_signal_names Value mpl signal df sd CHANNELS chart Hc). }
  split; [apply (plot_all_labels Value mpl data sd charts Hall)|].
  split; [exact Hfile|]. split.
  - assert (Hnames : map (@c_filename Value) charts
                     = map (fun s => s ++ lit "_plot.png")
                           (map (@c_label Value) charts)).
    { rewrite map_map. apply map_ext_in. intros chart Hin.
      rewrite Forall_forall in Hfile. apply Hfile, Hin. }
    rewrite Hnames. apply NoDup_map_app_tail.
    rewrite (plot_all_labels Value mpl data sd charts Hall).
    apply NoDup_map_fst_filter.
    rewrite (load_emotibit_data_dataframes folder SIGNALS_TO_PLOT data date
               SIGNALS_TO_PLOT_NoDup Hl).
    rewrite loaded_channels_keys. apply NoDup_filter, SIGNALS_TO_PLOT_NoDup.
  - apply Forall_forall. intros chart Hin.
    destruct (plot_all_in Value mpl data sd charts chart Hall Hin)
      as [signal [df [_ Hc]]].
    apply (plot_and_save_signal_valid signal df sd CHANNELS chart Hc).
Qed.

(** X16: every chart of a session is titled with the code of its channel
    and the full name the catalog gives for that code (the fallback of the
    lookup, the code itself, is never used), and draws the series its
    code loads to. *)
Theorem charts_titled_from_catalog (folder : Folder Value) charts chart :
  process_folder tz_localize mpl folder = Ok charts ->
  In chart charts ->
  exists full series,
    In (c_label chart, full) CHANNELS
    /\ c_title chart = (c_label chart, full)
    /\ loaded_as folder (c_label chart) series
    /\ c_line chart = series.
Proof.
  intros Hp Hin.
  destruct (process_folder_inv Value tz_localize mpl folder charts Hp)
    as [->|[file [rest [data [date [sd [_ [_ [Hl [_ Hall]]]]]]]]]]; [destruct Hin|].
  destruct (plot_all_in Value mpl data sd charts chart Hall Hin)
    as [signal [df [Hd Hc]]].
  rewrite (load_emotibit_data_dataframes folder SIGNALS_TO_PLOT data date
             SIGNALS_TO_PLOT_NoDup Hl) in Hd.
  apply loaded_channels_in in Hd as [Hsig Hload].
  destruct (plot_and_save_signal_names Value mpl signal df sd CHANNELS chart Hc)
    as [_ [Htitle Hlabel]].
  destruct (plot_and_save_signal_inv Value mpl signal df sd CHANNELS chart Hc)
    as [lo [hi [_ [_ [_ [Hline _]]]]]].
  rewrite Hlabel.
  exists (dict_get CHANNELS signal signal), df.
  split; [apply dict_get_in; exact Hsig|].
  split; [rewrite Htitle, Hlabel; reflexivity|]. auto.
Qed.

Lemma process_all_ok (subfolders : list (Folder Value)) : forall results,
  process_all tz_localize mpl subfolders = Ok results
  <-> Forall2 (fun folder charts => process_folder tz_localize mpl folder = Ok charts)
              subfolders results.
Proof.
  induction subfolders as [|folder l IH]; intros results; cbn [process_all].
  - split; [intros H; inversion H; constructor|intros H; inversion H; reflexivity].
  - destruct (process_folder tz_localize mpl folder) as [charts|e] eqn:Hp;
      cbn [bind].
    + destruct (process_all tz_localize mpl l) as [rest|e] eqn:Hl; cbn [bind].
      * split.
        -- intros H. inversion H; subst. constructor; [exact Hp|].
           apply IH. reflexivity.
        -- intros H. inversion H as [|? c' ? r' Hc Hr]; subst.
           apply IH in Hr. congruence.
      * split; [discriminate|].
        intros H. inversion H as [|? c' ? r' Hc Hr]; subst.
        apply IH in Hr. discriminate.
    + split; [discriminate|].
      intros H. inversion H as [|? c' ? r' Hc Hr]; subst. congruence.
Qed.

Lemma process_all_raise (subfolders : list (Folder Value)) e :
  process_all tz_localize mpl subfolders = Raise e
  <-> exists before folder rest,
        subfolders = before ++ folder :: rest
        /\ Forall (fun g => exists charts,
                              process_folder tz_localize mpl g = Ok charts) before
        /\ process_folder tz_localize mpl folder = Raise e.
Proof.
  induction subfolders as [|folder l IH]; cbn [process_all].
  - split; [discriminate|]. intros [before [g [rest [H _]]]].
    destruct before; discriminate.
  - destruct (process_folder tz_localize mpl folder) as [charts|e'] eqn:Hp;
      cbn [bind].
    + destruct (process_all tz_localize mpl l) as [results|e''] eqn:Hl;
        cbn [bind].
      * split; [discriminate|].
        intros [before [g [rest [Heq [Hb Hg]]]]].
        destruct before as [|b before]; cbn [app] in Heq; inversion Heq; subst.
        -- congruence.
        -- inversion Hb as [|? ? Hb1 Hb2]; subst.
           assert (Hr : Ok results = Raise e).
           { apply IH. exists before, g, rest.
             split; [reflexivity|]. split; assumption. }
           discriminate.
      * split.
        -- intros H. inversion H; subst e''.
           destruct (proj1 IH eq_refl) as [before [g [rest [Heq [Hb Hg]]]]].
           exists (folder :: before), g, rest.
           split; [rewrite Heq; reflexivity|]. split; [|exact Hg].
           constructor; [eauto|exact Hb].
        -- intros [before [g [rest [Heq [Hb Hg]]]]].
           destruct before as [|b before]; cbn [app] in Heq; inversion Heq; subst.
           ++ congruence.
           ++ inversion Hb as [|? ? Hb1 Hb2]; subst. apply IH.
              exists before, g, rest. split; [reflexivity|]. split; assumption.
    + split.
      * intros H. inversion H; subst e'. exists [], folder, l.
        split; [reflexivity|]. split; [constructor|exact Hp].
      * intros [before [g [rest [Heq [Hb Hg]]]]].
        destruct before as [|b before]; cbn [app] in Heq; inversion Heq; subst.
        -- congruence.
        -- inversion Hb as [|? ? [c Hc] ?]; subst. congruence.
Qed.

(** X8: the batch completes exactly when every directory under the root
    is processed to the end: the directories are taken in the order of the
    listing, what is not a directory is passed over, and the result holds
    the charts of each directory in turn. *)
Theorem batch_completes (root_entries : list (Folder Value)) results :
  main tz_localize mpl root_entries = Ok results
  <-> Forall2 (fun folder charts => process_folder tz_localize mpl folder = Ok charts)
              (filter (@is_dir Value) root_entries) results.
Proof.
  unfold main. generalize (filter (@is_dir Value) root_entries). intros dirs.
  split; intros H.
  - apply process_all_ok. exact H.
  - apply process_all_ok. exact H.
Qed.

(** X9: the batch raises exactly what the first directory that fails
    raises: the directories before it in the listing have been processed
    to the end, those after it are not processed; and a directory that
    lists no file with the schedule marker fails, with [IndexError]. *)
Theorem batch_stops_at_first_failure (root_entries : list (Folder Value)) e :
  (main tz_localize mpl root_entries = Raise e
   <-> exists before folder rest,
         filter (@is_dir Value) root_entries = before ++ folder :: rest
         /\ Forall (fun g => exists charts,
                               process_folder tz_localize mpl g = Ok charts) before
         /\ process_folder tz_localize mpl folder = Raise e)
  /\ (forall folder : Folder Value,
         glob_star folder schedule_marker = [] ->
         process_folder tz_localize mpl folder = Raise IndexError).
Proof.
  split.
  - unfold main. generalize (filter (@is_dir Value) root_entries). intros dirs.
    split; intros H.
    + apply process_all_raise. exact H.
    + apply process_all_raise. exact H.
  - intros folder Hg. apply process_folder_no_schedule. exact Hg.
Qed.

End MoreSessions.

(* ================================================================== *)
(** * The date of a session *)
(* ================================================================== *)

Section SessionDate.

Variable Value : Type.

Lemma experiment_date_of_spec (files : list (File Value)) date :
  experiment_date_of files = Ok (Some date)
  <-> exists pre file post dt,
        files = pre ++ file :: post
        /\ Forall (fun f => strptime_Ymd (date_token f) = Raise ValueError) pre
        /\ strptime_Ymd (date_token file) = Ok dt
        /\ date = date_text_of file.
Proof.
  split.
  - induction files as [|f files IH]; cbn [experiment_date_of]; [discriminate|].
    fold (date_token f).
    destruct (strptime_Ymd (date_token f)) as [dt|e] eqn:Hd.
    + intros H. inversion H; subst. exists [], f, files, dt.
      split; [reflexivity|]. split; [constructor|]. split; [exact Hd|reflexivity].
    + pose proof (strptime_Ymd_raises _ _ Hd) as ->. cbn [is_ValueError_or_IndexError].
      intros H. destruct (IH H) as [pre [file [post [dt [-> [Hpre [Hf Hdate]]]]]]].
      exists (f :: pre), file, post, dt. split; [reflexivity|].
      split; [constructor; assumption|]. split; assumption.
  - intros [pre [file [post [dt [-> [Hpre [Hf ->]]]]]]].
    induction Hpre as [|f pre Hfail Hpre IH]; cbn [app experiment_date_of].
    + fold (date_token file). rewrite Hf. reflexivity.
    + fold (date_token f). rewrite Hfail. cbn [is_ValueError_or_IndexError].
      exact IH.
Qed.

Lemma date_text_shape (file : File Value) dt :
  strptime_Ymd (date_token file) = Ok dt ->
  forallb date_char (date_text_of file) = true
  /\ 6 <= length (date_text_of file) <= 8.
Proof.
  intros H. unfold date_text_of.
  destruct (strptime_Ymd_shape _ _ H) as [tY [tm [td [-> [LY [DY [Hm [Hd _]]]]]]]].
  rewrite (date_text_fields tY tm td DY Hm Hd).
  destruct (digits_are_date_chars tY DY) as [CY _].
  destruct (field_text_facts tm (field_texts_ok tm (or_introl Hm))) as [Cm [_ Lm]].
  destruct (field_text_facts td (field_texts_ok td (or_intror Hd))) as [Cd [_ Ld]].
  split.
  - repeat (apply forallb_app_iff; split); assumption.
  - rewrite !length_app. lia.
Qed.

Lemma load_emotibit_data_dated (folder : Folder Value) signals data date :
  load_emotibit_data folder signals = Ok (data, Some date) ->
  exists pre file post dt,
    glob_star folder (lit ".csv") = pre ++ file :: post
    /\ Forall (fun f => strptime_Ymd (date_token f) = Raise ValueError) pre
    /\ strptime_Ymd (date_token file) = Ok dt
    /\ date = date_text_of file.
Proof.
  unfold load_emotibit_data. intros H.
  destruct (glob_star folder (lit ".csv")) as [|f files] eqn:Hg; [discriminate|].
  destruct (experiment_date_of (f :: files)) as [[[|c d]|]|] eqn:He;
    try discriminate.
  cbn [bind] in H. inversion H; subst.
  apply experiment_date_of_spec. exact He.
Qed.

(** X6: the date of a session is found exactly when a listed CSV file has
    a leading token (the name up to the first underscore) that reads as a
    date; it is then the token of the first such file in the listing, with
    its hyphens taken out. *)
Theorem experiment_date_is_first_dated_csv (folder : Folder Value) signals date :
  (exists data, load_emotibit_data folder signals = Ok (data, Some date))
  <-> exists pre file post dt,
        glob_star folder (lit ".csv") = pre ++ file :: post
        /\ Forall (fun f => strptime_Ymd (date_token f) = Raise ValueError) pre
        /\ strptime_Ymd (date_token file) = Ok dt
        /\ date = date_text_of file.
Proof.
  split.
  - intros [data H]. apply (load_emotibit_data_dated folder signals data date H).
  - intros [pre [file [post [dt [Hg [Hpre [Hf Hdate]]]]]]].
    assert (He : experiment_date_of (glob_star folder (lit ".csv")) = Ok (Some date)).
    { apply experiment_date_of_spec. exists pre, file, post, dt. auto. }
    unfold load_emotibit_data.
    destruct (glob_star folder (lit ".csv")) as [|f files];
      [destruct pre; discriminate|].
    rewrite He. cbn [bind].
    destruct (date_text_shape file dt Hf) as [_ [Hlen _]].
    rewrite <- Hdate in Hlen. destruct date as [|c d]; [simpl in Hlen; lia|].
    eexists. reflexivity.
Qed.

Lemma field_text_digits tm td :
  In tm month_texts -> In td day_texts ->
  forallb is_digit tm = true
  /\ (forallb is_digit td = true \/ blank_then_digit td = true).
Proof.
  assert (Hm : forallb (forallb is_digit) month_texts = true)
    by (vm_compute; reflexivity).
  assert (Hd : forallb (fun t => forallb is_digit t || blank_then_digit t)
                       day_texts = true) by (vm_compute; reflexivity).
  rewrite forallb_forall in Hm, Hd. intros Im Id.
  split; [apply Hm, Im|]. apply orb_true_iff, Hd, Id.
Qed.

(** X15: the date text of a session is four digits, then a month text
    (10 to 12, 01 to 09 or 1 to 9), then a day text (01 to 31, 1 to 9, or
    a blank and 1 to 9): six to eight characters, all of them digits but
    for the blank of a day written with one. *)
Theorem session_date_text_shape (folder : Folder Value) signals data date :
  load_emotibit_data folder signals = Ok (data, Some date) ->
  exists tY tm td,
    date = tY ++ tm ++ td
    /\ length tY = 4 /\ forallb is_digit (tY ++ tm) = true
    /\ In tm month_texts /\ In td day_texts
    /\ (forallb is_digit td = true
        \/ exists d, td = [" "%char; d] /\ is_digit d = true)
    /\ 6 <= length date <= 8.
Proof.
  intros H.
  destruct (load_emotibit_data_dated folder signals data date H)
    as [pre [file [post [dt [_ [_ [Hf ->]]]]]]].
  destruct (date_text_shape file dt Hf) as [_ Hlen].
  unfold date_text_of in *.
  destruct (strptime_Ymd_shape _ _ Hf) as [tY [tm [td [E [LY [DY [Hm [Hd _]]]]]]]].
  rewrite E in *. rewrite (date_text_fields tY tm td DY Hm Hd) in *.
  destruct (field_text_digits tm td Hm Hd) as [Dm Dd].
  exists tY, tm, td. split; [reflexivity|]. split; [exact LY|].
  split; [apply forallb_app_iff; auto|]. split; [exact Hm|]. split; [exact Hd|].
  split; [|exact Hlen].
  destruct Dd as [Dd|Dd]; [left; exact Dd|right].
  destruct td as [|b [|d [|x td]]]; try discriminate.
  cbn [blank_then_digit] in Dd. apply andb_true_iff in Dd as [Hb Hdg].
  apply Ascii.eqb_eq in Hb. subst b. exists d. auto.
Qed.

End SessionDate.

(* ================================================================== *)
(** * The date of the session in the instants of the schedule *)
(* ================================================================== *)

Section DatedInstants.

Variable tz_localize : datetime -> option Timestamp.

(** X4: with the date text taken from a token in the padded form
    [YYYY-MM-DD], every time text that reads as a clock time gives the
    instant of that date at that clock time, the hour shifted by the PM
    rule when the flag is set. *)
Theorem parse_time_on_session_date time_str token is_pm dt t :
  strptime_Ymd token = Ok dt ->
  length token = 10 ->
  time_obj_of (cleaned_time_str time_str) = Ok t ->
  parse_time tz_localize time_str (replace token (lit "-") []) is_pm
  = pd_Timestamp tz_localize
      {| year := year dt; month := month dt; day := day dt;
         hour := if is_pm then pm_adjusted (t_hour t) else t_hour t;
         minute := t_minute t; second := t_second t |}.
Proof.
  intros Hd Hlen Ht.
  destruct (strptime_Ymd_shape _ _ Hd) as [tY [tm [td [-> [LY [DY [Hm [Hday Hnew]]]]]]]].
  rewrite (date_text_fields tY tm td DY Hm Hday).
  destruct (field_text_facts tm (field_texts_ok tm (or_introl Hm))) as [_ [_ Lm]].
  destruct (field_text_facts td (field_texts_ok td (or_intror Hday))) as [_ [_ Ld]].
  rewrite length_app in Hlen. cbn [length] in Hlen.
  rewrite length_app in Hlen. cbn [length] in Hlen.
  assert (Lm2 : length tm = 2) by lia. assert (Ld2 : length td = 2) by lia.
  destruct (time_obj_of_bounds _ _ Ht) as [Bh [Bm Bs]].
  unfold parse_time. rewrite Ht. cbn [bind].
  set (hr := if is_pm && (1 <=? t_hour t) && (t_hour t <=? 11)
             then t_hour t + 12 else t_hour t).
  assert (Ehr : hr = if is_pm then pm_adjusted (t_hour t) else t_hour t).
  { unfold hr, pm_adjusted. destruct is_pm; reflexivity. }
  assert (Bhr : hr <= 23).
  { rewrite Ehr. destruct is_pm; [apply pm_adjusted_bound|]; exact Bh. }
  rewrite (strptime_Ymd_HMS_padded tY tm td hr _ _ LY DY Hm Lm2 Hday Ld2 Bhr Bm Bs).
  rewrite (datetime_new_at_clock _ _ _ dt hr _ _ Hnew Bhr Bm Bs).
  cbn [bind]. rewrite Ehr. reflexivity.
Qed.

End DatedInstants.

(* ================================================================== *)
(** * The properties at the sample sessions *)
(* ================================================================== *)

Lemma parse_time_am_pm_suffix_witness :
  accepted_clock_text (lit "09:05")
  /\ parse_time Sample.est (lit "09:05" ++ lit " " ++ lit "PM" ++ lit "  ")
                Sample.date_20240105 false
     = Ok (Sample.jan5 9 5)
  /\ exists time_obj,
       time_obj_of (lit "09:05") = Ok time_obj
       /\ time_obj_of (cleaned_time_str
                         (lit "09:05" ++ lit " " ++ lit "PM" ++ lit "  "))
          = Ok time_obj
       /\ parse_time Sample.est (lit "09:05" ++ lit " " ++ lit "PM" ++ lit "  ")
                     Sample.date_20240105 false
          = parse_time Sample.est (lit "09:05") Sample.date_20240105 false
       /\ (forall token dt,
              strptime_Ymd token = Ok dt -> length token = 10 ->
              Sample.date_20240105 = replace token (lit "-") [] ->
              parse_time Sample.est
                         (lit "09:05" ++ lit " " ++ lit "PM" ++ lit "  ")
                         Sample.date_20240105 false
              = pd_Timestamp Sample.est
                  {| year := year dt; month := month dt; day := day dt;
                     hour := t_hour time_obj;
                     minute := t_minute time_obj;
                     second := t_second time_obj |}).
Proof.
  assert (H : accepted_clock_text (lit "09:05")).
  { right. eexists. vm_compute. reflexivity. }
  split; [exact H|]. split; [vm_compute; reflexivity|].
  apply (parse_time_am_pm_suffix Sample.est (lit "09:05") (lit " ") (lit "PM")
           (lit "  ") Sample.date_20240105 false H).
  - unfold am_pm_suffixes. simpl. do 5 right. left. reflexivity.
  - reflexivity.
  - reflexivity.
Defined.


Lemma music_end_first_note_else_last_witness :
  usable_rows Sample.est Sample.date_20240105
              (afternoon_path (lit "/data/S01 morning")) Sample.three_rows <> []
  /\ exists sched,
       load_music_schedule Sample.est Sample.three_rows_file Sample.date_20240105
                           (lit "/data/S01 morning")
       = Ok (Some sched)
       /\ let usable := usable_rows Sample.est Sample.date_20240105
                          (afternoon_path (lit "/data/S01 morning"))
                          Sample.three_rows in
          let instant := row_time Sample.est Sample.date_20240105
                           (afternoon_path (lit "/data/S01 morning")) in
          (forall pre r post,
                 usable = pre ++ r :: post ->
                 row_notes_music_end r ->
                 (forall x, In x pre -> ~ row_notes_music_end x) ->
                 exists t, instant r = Ok t /\ music_end sched = Some t)
          /\ ((forall x, In x usable -> ~ row_notes_music_end x) ->
              exists pre r t,
                usable = pre ++ [r] /\ instant r = Ok t
                /\ music_end sched = Some t).
Proof.
  assert (H : usable_rows Sample.est Sample.date_20240105
                (afternoon_path (lit "/data/S01 morning")) Sample.three_rows <> []).
  { vm_compute. discriminate. }
  split; [exact H|].
  exact (music_end_first_note_else_last Z Sample.est Sample.three_rows_file
           Sample.date_20240105 (lit "/data/S01 morning") Sample.three_rows
           eq_refl H).
Defined.

Lemma one_annotation_per_usable_row_witness :
  usable_rows Sample.est Sample.date_20240105
              (afternoon_path (lit "/data/S01 morning")) Sample.three_rows <> []
  /\ exists sched,
       load_music_schedule Sample.est Sample.three_rows_file Sample.date_20240105
                           (lit "/data/S01 morning")
       = Ok (Some sched)
       /\ Forall2
            (fun row a =>
               row_time Sample.est Sample.date_20240105
                        (afternoon_path (lit "/data/S01 morning")) row
               = Ok (a_time a)
               /\ a_text a
                  = composed_text (text_of_cell (song_artist row))
                                  (text_of_cell (score row))
                                  (text_of_cell (observation row))
               /\ (forall t, a_text a <> newline :: t)
               /\ (forall t, a_text a <> t ++ [newline])
               /\ (text_of_cell (song_artist row) = [] ->
                   text_of_cell (score row) = [] ->
                   text_of_cell (observation row) = [] -> a_text a = []))
            (usable_rows Sample.est Sample.date_20240105
                         (afternoon_path (lit "/data/S01 morning"))
                         Sample.three_rows)
            (annotations sched).
Proof.
  assert (H : usable_rows Sample.est Sample.date_20240105
                (afternoon_path (lit "/data/S01 morning")) Sample.three_rows <> []).
  { vm_compute. discriminate. }
  split; [exact H|].
  exact (one_annotation_per_usable_row Z Sample.est Sample.three_rows_file
           Sample.date_20240105 (lit "/data/S01 morning") Sample.three_rows
           eq_refl H).
Defined.

Lemma unparsed_row_is_skipped_witness :
  (forall t, row_time Sample.est Sample.date_20240105
                      (afternoon_path (lit "/data/S01 morning")) Sample.bad_row
             <> Ok t)
  /\ load_music_schedule Sample.est Sample.four_rows_file Sample.date_20240105
                         (lit "/data/S01 morning")
     = Ok (Some Sample.three_rows_schedule)
  /\ let r1 := [Sample.row "09:00" "SongA" "8.0" ""] in
     let r2 := [Sample.row "09:05" "SongB" "9.0" "";
                Sample.row "09:10" "" "" "Music end"] in
     let usable := usable_rows Sample.est Sample.date_20240105
                     (afternoon_path (lit "/data/S01 morning")) in
     usable (r1 ++ Sample.bad_row :: r2) = usable r1 ++ usable r2
     /\ (exists r, load_music_schedule Sample.est Sample.four_rows_file
                     Sample.date_20240105 (lit "/data/S01 morning") = Ok r)
     /\ (usable r1 ++ usable r2 <> [] ->
         exists sched,
           load_music_schedule Sample.est Sample.four_rows_file
             Sample.date_20240105 (lit "/data/S01 morning") = Ok (Some sched)
           /\ Forall2 (row_annotation Sample.est Sample.date_20240105
                         (afternoon_path (lit "/data/S01 morning")))
                      (usable r1 ++ usable r2) (annotations sched))
     /\ load_music_schedule Sample.est Sample.four_rows_file
          Sample.date_20240105 (lit "/data/S01 morning")
        = load_music_schedule Sample.est
            (with_rows Sample.four_rows_file (r1 ++ r2))
            Sample.date_20240105 (lit "/data/S01 morning")
     /\ (forall (mpl : Matplotlib Z) folder pre post,
            entries folder = pre ++ Sample.four_rows_file :: post ->
            folder_path folder = lit "/data/S01 morning" ->
            (forall date t,
                row_time Sample.est date
                         (afternoon_path (lit "/data/S01 morning"))
                         Sample.bad_row <> Ok t) ->
            process_folder Sample.est mpl folder
            = process_folder Sample.est mpl
                (with_entries folder
                   (pre ++ with_rows Sample.four_rows_file (r1 ++ r2) :: post))).
Proof.
  assert (H : forall t, row_time Sample.est Sample.date_20240105
                          (afternoon_path (lit "/data/S01 morning")) Sample.bad_row
                        <> Ok t).
  { intros t. vm_compute. discriminate. }
  split; [exact H|]. split; [vm_compute; reflexivity|].
  exact (unparsed_row_is_skipped Z Sample.est Sample.four_rows_file
           [Sample.row "09:00" "SongA" "8.0" ""] Sample.bad_row
           [Sample.row "09:05" "SongB" "9.0" ""; Sample.row "09:10" "" "" "Music end"]
           Sample.date_20240105 (lit "/data/S01 morning")
           eq_refl eq_refl H).
Defined.

Lemma afternoon_is_decided_by_folder_path_witness :
  usable_rows Sample.est Sample.date_20240105
              (afternoon_path (lit "/data/S01 morning")) Sample.three_rows <> []
  /\ exists sched is_afternoon,
       load_music_schedule Sample.est Sample.three_rows_file Sample.date_20240105
                           (lit "/data/S01 morning")
       = Ok (Some sched)
       /\ (is_afternoon = true
           <-> occurs_ignoring_case (lit "afternoon") (lit "/data/S01 morning"))
       /\ Forall2
            (fun row a =>
               exists time_obj dt_naive,
                 time_obj_of (cleaned_time_str (strip (str_of_cell (time_str row))))
                 = Ok time_obj
                 /\ Sample.est dt_naive = Some (a_time a)
                 /\ hour dt_naive
                    = (if is_afternoon then pm_adjusted (t_hour time_obj)
                       else t_hour time_obj))
            (usable_rows Sample.est Sample.date_20240105 is_afternoon
                         Sample.three_rows)
            (annotations sched)
       /\ (forall row s w1 sfx w2,
              time_str row = Some (s ++ w1 ++ sfx ++ w2) ->
              accepted_clock_text s -> In sfx am_pm_suffixes ->
              forallb is_space w1 = true -> forallb is_space w2 = true ->
              row_time Sample.est Sample.date_20240105 is_afternoon row
              = parse_time Sample.est s Sample.date_20240105 is_afternoon).
Proof.
  assert (H : usable_rows Sample.est Sample.date_20240105
                (afternoon_path (lit "/data/S01 morning")) Sample.three_rows <> []).
  { vm_compute. discriminate. }
  split; [exact H|].
  exact (afternoon_is_decided_by_folder_path Z Sample.est Sample.three_rows_file
           Sample.date_20240105 (lit "/data/S01 morning") Sample.three_rows
           eq_refl H).
Defined.

Lemma no_dated_file_no_channels_witness :
  (forall f, In f (entries Sample.undated_session) ->
             forall dt, strptime_Ymd (date_token f) <> Ok dt)
  /\ load_emotibit_data Sample.undated_session SIGNALS_TO_PLOT = Ok ([], None)
  /\ (forall charts,
         process_folder Sample.est Sample.agg Sample.undated_session = Ok charts ->
         charts = []).
Proof.
  assert (H : forall f, In f (entries Sample.undated_session) ->
                        forall dt, strptime_Ymd (date_token f) <> Ok dt).
  { intros f [<-|[<-|[]]] dt; vm_compute; discriminate. }
  split; [exact H|].
  exact (no_dated_file_no_channels Z Sample.est Sample.agg Sample.undated_session
           SIGNALS_TO_PLOT H).
Defined.

Lemma annotations_outside_range_dropped_witness :
  process_folder Sample.est Sample.agg Sample.morning_session
  = Ok Sample.morning_charts
  /\ map (@c_label Z) Sample.morning_charts = [lit "EA"; lit "HR"]
  /\ exists shared : list Annotation,
       (Sample.morning_charts <> [] ->
        exists file rest date sd,
          glob_star Sample.morning_session schedule_marker = file :: rest
          /\ load_music_schedule Sample.est file date
               (folder_path Sample.morning_session) = Ok sd
          /\ shared = annotations_of sd)
       /\ Forall
            (fun chart =>
               exists lo hi,
                 c_xlim chart = (lo, hi)
                 /\ instant_range (c_line chart) lo hi
                 /\ Forall2 (fun a p => p_text p = a_text a /\ p_xy p = a_time a
                                        /\ p_xytext p = a_time a)
                            (filter (within lo hi) shared) (c_annotate chart)
                 /\ (forall p, In p (c_annotate chart) -> (lo <= p_xy p <= hi)%Z)
                 /\ (forall a, In a shared ->
                               (a_time a < lo \/ hi < a_time a)%Z ->
                               forall p, In p (c_annotate chart) ->
                                         p_xy p <> a_time a))
            Sample.morning_charts.
Proof.
  assert (H : process_folder Sample.est Sample.agg Sample.morning_session
              = Ok Sample.morning_charts) by (vm_compute; reflexivity).
  split; [exact H|]. split; [vm_compute; reflexivity|].
  exact (annotations_outside_range_dropped Z Sample.est Sample.agg
           Sample.morning_session
           Sample.morning_charts H).
Defined.

Lemma music_start_first_label_before_end_witness :
  usable_rows Sample.est Sample.date_20240105
              (afternoon_path (lit "/data/S01 morning")) Sample.three_rows <> []
  /\ exists sched,
       load_music_schedule Sample.est Sample.three_rows_file Sample.date_20240105
                           (lit "/data/S01 morning")
       = Ok (Some sched)
       /\ let usable := usable_rows Sample.est Sample.date_20240105
                          (afternoon_path (lit "/data/S01 morning"))
                          Sample.three_rows in
          let instant := row_time Sample.est Sample.date_20240105
                           (afternoon_path (lit "/data/S01 morning")) in
          (forall pre r post,
              usable = pre ++ r :: post ->
              row_has_label r ->
              (forall x, In x pre -> ~ row_has_label x /\ ~ row_notes_music_end x) ->
              exists t, instant r = Ok t /\ music_start sched = Some t)
          /\ (forall pre r post,
                 usable = pre ++ r :: post ->
                 row_notes_music_end r ->
                 (forall x, In x (pre ++ [r]) -> ~ row_has_label x) ->
                 music_start sched = None)
          /\ ((forall x, In x usable -> ~ row_has_label x) ->
              music_start sched = None).
Proof.
  assert (H : usable_rows Sample.est Sample.date_20240105
                (afternoon_path (lit "/data/S01 morning")) Sample.three_rows <> []).
  { vm_compute. discriminate. }
  split; [exact H|].
  exact (music_start_first_label_before_end Z Sample.est Sample.three_rows_file
           Sample.date_20240105 (lit "/data/S01 morning") Sample.three_rows
           eq_refl H).
Defined.

(* ================================================================== *)
(** * The further properties at the sample sessions *)
(* ================================================================== *)

Lemma parsed_time_text_is_digits_and_colons_witness :
  parse_time Sample.est (lit "09:05 AM") Sample.date_20240105 false
  = Ok (Sample.jan5 9 5)
  /\ cleaned_time_str (lit "09:05 AM") <> []
  /\ forallb clock_char (cleaned_time_str (lit "09:05 AM")) = true.
Proof.
  assert (H : parse_time Sample.est (lit "09:05 AM") Sample.date_20240105 false
              = Ok (Sample.jan5 9 5)) by (vm_compute; reflexivity).
  split; [exact H|].
  exact (parsed_time_text_is_digits_and_colons Sample.est (lit "09:05 AM")
           Sample.date_20240105 false (Sample.jan5 9 5) H).
Defined.

Lemma parse_time_on_session_date_witness :
  strptime_Ymd (lit "2024-01-05") = Ok MoreSamples.jan5_midnight
  /\ time_obj_of (cleaned_time_str (lit "9:05"))
     = Ok {| t_hour := 9; t_minute := 5; t_second := 0 |}
  /\ parse_time Sample.est (lit "9:05") (replace (lit "2024-01-05") (lit "-") []) true
     = pd_Timestamp Sample.est
         {| year := 2024; month := 1; day := 5;
            hour := 21; minute := 5; second := 0 |}.
Proof.
  assert (Hd : strptime_Ymd (lit "2024-01-05") = Ok MoreSamples.jan5_midnight)
    by (vm_compute; reflexivity).
  assert (Ht : time_obj_of (cleaned_time_str (lit "9:05"))
               = Ok {| t_hour := 9; t_minute := 5; t_second := 0 |})
    by (vm_compute; reflexivity).
  split; [exact Hd|]. split; [exact Ht|].
  exact (parse_time_on_session_date Sample.est (lit "9:05") (lit "2024-01-05") true
           MoreSamples.jan5_midnight _ Hd eq_refl Ht).
Defined.

Lemma channels_loaded_independently_witness :
  load_emotibit_data Sample.morning_session SIGNALS_TO_PLOT
  = Ok (MoreSamples.morning_data, Some Sample.date_20240105)
  /\ (forall signal series,
         In (signal, series) MoreSamples.morning_data
         <-> In signal SIGNALS_TO_PLOT
             /\ loaded_as Sample.morning_session signal series)
  /\ map fst MoreSamples.morning_data
     = filter (fun signal => existsb (str_eqb signal)
                                     (map fst MoreSamples.morning_data))
              SIGNALS_TO_PLOT
  /\ NoDup (map fst MoreSamples.morning_data).
Proof.
  assert (H : load_emotibit_data Sample.morning_session SIGNALS_TO_PLOT
              = Ok (MoreSamples.morning_data, Some Sample.date_20240105))
    by (vm_compute; reflexivity).
  split; [exact H|].
  exact (channels_loaded_independently Z Sample.morning_session SIGNALS_TO_PLOT
           MoreSamples.morning_data Sample.date_20240105
           (distinct_NoDup SIGNALS_TO_PLOT eq_refl) H).
Defined.

Lemma session_date_text_shape_witness :
  load_emotibit_data Sample.morning_session SIGNALS_TO_PLOT
  = Ok (MoreSamples.morning_data, Some Sample.date_20240105)
  /\ exists tY tm td,
       Sample.date_20240105 = tY ++ tm ++ td
       /\ length tY = 4 /\ forallb is_digit (tY ++ tm) = true
       /\ In tm month_texts /\ In td day_texts
       /\ (forallb is_digit td = true
           \/ exists d, td = [" "%char; d] /\ is_digit d = true)
       /\ 6 <= length Sample.date_20240105 <= 8.
Proof.
  assert (H : load_emotibit_data Sample.morning_session SIGNALS_TO_PLOT
              = Ok (MoreSamples.morning_data, Some Sample.date_20240105))
    by (vm_compute; reflexivity).
  split; [exact H|].
  exact (session_date_text_shape Z Sample.morning_session SIGNALS_TO_PLOT
           MoreSamples.morning_data Sample.date_20240105 H).
Defined.

Lemma every_renderable_channel_is_charted_witness :
  glob_star Sample.morning_session schedule_marker = [Sample.three_rows_file]
  /\ load_emotibit_data Sample.morning_session SIGNALS_TO_PLOT
     = Ok (MoreSamples.morning_data, Some Sample.date_20240105)
  /\ process_folder Sample.est Sample.agg Sample.morning_session
     = Ok Sample.morning_charts
  /\ map (@c_label Z) Sample.morning_charts
     = map fst (filter (fun item => renderable (snd item))
                       MoreSamples.morning_data)
  /\ Forall (fun c => c_filename c = c_label c ++ lit "_plot.png")
            Sample.morning_charts
  /\ NoDup (map (@c_filename Z) Sample.morning_charts)
  /\ Forall (fun c => forallb (fun row => negb (is_null (fst row))) (c_line c)
                      = true) Sample.morning_charts.
Proof.
  assert (Hg : glob_star Sample.morning_session schedule_marker
               = [Sample.three_rows_file]) by reflexivity.
  assert (H : load_emotibit_data Sample.morning_session SIGNALS_TO_PLOT
              = Ok (MoreSamples.morning_data, Some Sample.date_20240105))
    by (vm_compute; reflexivity).
  assert (Hp : process_folder Sample.est Sample.agg Sample.morning_session
               = Ok Sample.morning_charts) by (vm_compute; reflexivity).
  split; [exact Hg|]. split; [exact H|]. split; [exact Hp|].
  exact (every_renderable_channel_is_charted Z Sample.est Sample.agg
           Sample.morning_session Sample.three_rows_file []
           MoreSamples.morning_data Sample.date_20240105 Sample.morning_charts
           eq_refl Hg eq_refl H Hp).
Defined.

Lemma charts_titled_from_catalog_witness :
  process_folder Sample.est Sample.agg Sample.morning_session = Ok Sample.morning_charts
  /\ In MoreSamples.hr_chart Sample.morning_charts
  /\ exists full series,
       In (c_label MoreSamples.hr_chart, full) CHANNELS
       /\ c_title MoreSamples.hr_chart = (c_label MoreSamples.hr_chart, full)
       /\ loaded_as Sample.morning_session (c_label MoreSamples.hr_chart) series
       /\ c_line MoreSamples.hr_chart = series.
Proof.
  assert (H : process_folder Sample.est Sample.agg Sample.morning_session
              = Ok Sample.morning_charts) by (vm_compute; reflexivity).
  assert (Hin : In MoreSamples.hr_chart Sample.morning_charts).
  { apply (nth_error_In _ 1). vm_compute. reflexivity. }
  split; [exact H|]. split; [exact Hin|].
  exact (charts_titled_from_catalog Z Sample.est Sample.agg Sample.morning_session
           Sample.morning_charts MoreSamples.hr_chart H Hin).
Defined.

Lemma boxes_staggered_consecutively_witness :
  plot_and_save_signal Sample.agg (lit "HR") Sample.hr_series
                       (Some Sample.three_rows_schedule) CHANNELS
  = Ok (Some MoreSamples.hr_chart)
  /\ map p_level (c_annotate MoreSamples.hr_chart)
     = seq 0 (length (c_annotate MoreSamples.hr_chart))
  /\ length (c_annotate MoreSamples.hr_chart)
     <= length (annotations_of (Some Sample.three_rows_schedule))
  /\ length (annotations_of (Some Sample.three_rows_schedule))
     <= c_annotation_lines MoreSamples.hr_chart.
Proof.
  assert (H : plot_and_save_signal Sample.agg (lit "HR") Sample.hr_series
                (Some Sample.three_rows_schedule) CHANNELS
              = Ok (Some MoreSamples.hr_chart)) by (vm_compute; reflexivity).
  split; [exact H|].
  exact (boxes_staggered_consecutively Z Sample.agg (lit "HR") Sample.hr_series
           (Some Sample.three_rows_schedule) CHANNELS MoreSamples.hr_chart H).
Defined.

Lemma band_drawn_iff_start_found_witness :
  load_music_schedule Sample.est Sample.three_rows_file Sample.date_20240105
                      (lit "/data/S01 morning")
  = Ok (Some Sample.three_rows_schedule)
  /\ plot_and_save_signal Sample.agg (lit "HR") Sample.hr_series
                          (Some Sample.three_rows_schedule) CHANNELS
     = Ok (Some MoreSamples.hr_chart)
  /\ exists e,
       music_end Sample.three_rows_schedule = Some e
       /\ c_axvspan MoreSamples.hr_chart
          = option_map (fun s => (s, e)) (music_start Sample.three_rows_schedule).
Proof.
  assert (Hl : load_music_schedule Sample.est Sample.three_rows_file
                 Sample.date_20240105 (lit "/data/S01 morning")
               = Ok (Some Sample.three_rows_schedule)) by (vm_compute; reflexivity).
  assert (H : plot_and_save_signal Sample.agg (lit "HR") Sample.hr_series
                (Some Sample.three_rows_schedule) CHANNELS
              = Ok (Some MoreSamples.hr_chart)) by (vm_compute; reflexivity).
  split; [exact Hl|]. split; [exact H|].
  exact (band_drawn_iff_start_found Z Sample.est Sample.agg Sample.three_rows_file
           Sample.date_20240105 (lit "/data/S01 morning")
           Sample.three_rows_schedule (lit "HR") Sample.hr_series CHANNELS
           MoreSamples.hr_chart Hl H).
Defined.

Lemma annotation_line_count_witness :
  single_line (e_song MoreSamples.song_event)
  /\ single_line (e_score MoreSamples.song_event)
  /\ single_line (e_obs MoreSamples.song_event)
  /\ count newline (a_text (annotation_of MoreSamples.song_event)) + 1
     = Nat.max 1 (parts_present MoreSamples.song_event).
Proof.
  split; [reflexivity|]. split; [reflexivity|]. split; [reflexivity|].
  exact (annotation_line_count MoreSamples.song_event eq_refl eq_refl eq_refl).
Defined.

Lemma window_bounds_in_file_order_witness :
  load_music_schedule Sample.est Sample.three_rows_file Sample.date_20240105
                      (lit "/data/S01 morning")
  = Ok (Some Sample.three_rows_schedule)
  /\ music_start Sample.three_rows_schedule = Some (Sample.jan5 9 0)
  /\ exists df pre r post r' e,
       read_schedule Sample.three_rows_file = Frame df
       /\ usable_rows Sample.est Sample.date_20240105
                      (afternoon_path (lit "/data/S01 morning")) df
          = pre ++ r :: post
       /\ row_time Sample.est Sample.date_20240105
                   (afternoon_path (lit "/data/S01 morning")) r
          = Ok (Sample.jan5 9 0)
       /\ In r' (r :: post)
       /\ row_time Sample.est Sample.date_20240105
                   (afternoon_path (lit "/data/S01 morning")) r' = Ok e
       /\ music_end Sample.three_rows_schedule = Some e.
Proof.
  assert (Hl : load_music_schedule Sample.est Sample.three_rows_file
                 Sample.date_20240105 (lit "/data/S01 morning")
               = Ok (Some Sample.three_rows_schedule)) by (vm_compute; reflexivity).
  split; [exact Hl|]. split; [reflexivity|].
  exact (window_bounds_in_file_order Z Sample.est Sample.three_rows_file
           Sample.date_20240105 (lit "/data/S01 morning")
           Sample.three_rows_schedule (Sample.jan5 9 0) Hl eq_refl).
Defined.
